(** * The KallistiOS ramdisk file system (kernel/fs/fs_ramdisk.c)

    A shallow embedding of the ramdisk file system of KallistiOS: the node
    store, the path resolver, the handle table, the VFS operations and the
    attach / detach bridge.

    Modelling conventions.
    - Every operation runs under [rd_mutex]; operations are therefore atomic
      steps on one global machine state.
    - The heap is split by object kind: [files] holds the [rd_file_t]
      structures, [dirs] the [rd_dir_t] list heads (modelled by the list of
      the directory's children, head first), [bufs] the data blocks.  Heap
      addresses are [N], [0] is NULL; the allocator hands out the fresh
      address [brk] and never reuses an address.
    - Allocation may fail: [oracle] lists the outcomes of the next
      allocations ([true] = success); once it is empty allocations succeed.
    - [uint32] fields are [N] and their arithmetic wraps modulo 2^32;
      [int], [off_t] and [ssize_t] values are [Z].
    - A computation that dereferences a dangling pointer or fails an
      [assert] has no result ([None]): the machine has crashed. *)

From Stdlib Require Import String Ascii ZArith NArith Lia.
From stdpp Require Import base gmap list.

Open Scope Z_scope.

(** ** Constants *)

(** Modelled from the spec: [FS_RAMDISK_MAX_FILES] is defined in
    kos/opts.h, which is not among the sources; the spec recommends a
    compile-time constant between 16 and 64. *)
Definition FS_RAMDISK_MAX_FILES : nat := 16.

(** Modelled from the spec: the open flags of kos/fs.h (not among the
    sources), a mode field (read-only, write-only, read-write) and the
    auxiliary bits directory, append and truncate; the values are those of
    newlib's <fcntl.h>. *)
Definition O_RDONLY : Z := 0.
Definition O_WRONLY : Z := 1.
Definition O_RDWR : Z := 2.
Definition O_MODE_MASK : Z := 3.
Definition O_APPEND : Z := 8.
Definition O_TRUNC : Z := 1024.
Definition O_DIR : Z := 2097152.

Definition SEEK_SET : Z := 0.
Definition SEEK_CUR : Z := 1.
Definition SEEK_END : Z := 2.

Definition F_GETFL : Z := 3.
Definition F_SETFL : Z := 4.
Definition F_GETFD : Z := 1.
Definition F_SETFD : Z := 2.

Definition ENOENT : Z := 2.
Definition EBADF : Z := 9.
Definition EINVAL : Z := 22.

(** POSIX mode bits (newlib <sys/stat.h>). *)
Definition S_IFDIR : Z := 16384.   (* 0040000 *)
Definition S_IFREG : Z := 32768.   (* 0100000 *)
Definition S_IRUSR : Z := 256.
Definition S_IWUSR : Z := 128.
Definition S_IXUSR : Z := 64.
Definition S_IRGRP : Z := 32.
Definition S_IWGRP : Z := 16.
Definition S_IXGRP : Z := 8.
Definition S_IROTH : Z := 4.
Definition S_IWOTH : Z := 2.
Definition S_IXOTH : Z := 1.
Definition S_IRWXU : Z := Z.lor S_IRUSR (Z.lor S_IWUSR S_IXUSR).
Definition S_IRWXG : Z := Z.lor S_IRGRP (Z.lor S_IWGRP S_IXGRP).
Definition S_IRWXO : Z := Z.lor S_IROTH (Z.lor S_IWOTH S_IXOTH).

(** Lock constants *)
Definition OPENFOR_NOTHING : Z := 0.
Definition OPENFOR_READ : Z := 1.
Definition OPENFOR_WRITE : Z := 2.

(** ** Machine integers *)

Definition u32 (x : N) : N := N.modulo x (2 ^ 32).

(** Conversion of a 32-bit unsigned value to a 32-bit signed one
    ([int], [off_t], [ssize_t]). *)
Definition to_s32 (x : N) : Z :=
  let v := Z.of_N (u32 x) in if v <? 2 ^ 31 then v else v - 2 ^ 32.

(** Conversion of a signed value to [uint32]. *)
Definition of_s32 (z : Z) : N := Z.to_N (z mod 2 ^ 32).

(** ** Data model *)

Inductive ftype := STAT_TYPE_FILE | STAT_TYPE_DIR.

Definition ftype_eqb (a b : ftype) : bool :=
  match a, b with
  | STAT_TYPE_FILE, STAT_TYPE_FILE | STAT_TYPE_DIR, STAT_TYPE_DIR => true
  | _, _ => false
  end.

(** [rd_file_t]; the [dirlist] link is represented by the position of the
    node in its directory's child list. *)
Record rd_file := mk_rd_file {
  name : string;
  size : N;          (* uint32: actual file size *)
  type : ftype;
  openfor : Z;       (* lock constant *)
  usage : Z;         (* usage count *)
  data : N;          (* data block pointer (a dir head for directories) *)
  datasize : N       (* uint32: size of the data block *)
}.

Record dirent := mk_dirent {
  d_name : string;
  d_time : Z;
  d_attr : Z;
  d_size : Z
}.

Definition dirent0 : dirent := mk_dirent EmptyString 0 0 0.

(** One slot of the static [fh] table. *)
Record fh_t := mk_fh {
  fh_file : N;       (* rd_file_t pointer, 0 when the slot is free *)
  fh_dir : Z;        (* mode & O_DIR *)
  fh_ptr : N;        (* uint32: byte offset, or next child for dirs *)
  fh_dirent : dirent;
  fh_omode : Z       (* open mode *)
}.

Definition fh0 : fh_t := mk_fh 0 0 0 dirent0 0.

Record state := mk_state {
  root : N;
  rootdir : N;
  files : gmap N rd_file;
  dirs : gmap N (list N);
  bufs : gmap N (list Byte.byte);
  fh : list fh_t;
  brk : N;
  oracle : list bool;
  errno : Z
}.

(** Record updates. *)
Definition set_root (s : state) v := mk_state v (rootdir s) (files s) (dirs s) (bufs s) (fh s) (brk s) (oracle s) (errno s).
Definition set_rootdir (s : state) v := mk_state (root s) v (files s) (dirs s) (bufs s) (fh s) (brk s) (oracle s) (errno s).
Definition set_files (s : state) v := mk_state (root s) (rootdir s) v (dirs s) (bufs s) (fh s) (brk s) (oracle s) (errno s).
Definition set_dirs (s : state) v := mk_state (root s) (rootdir s) (files s) v (bufs s) (fh s) (brk s) (oracle s) (errno s).
Definition set_bufs (s : state) v := mk_state (root s) (rootdir s) (files s) (dirs s) v (fh s) (brk s) (oracle s) (errno s).
Definition set_fh (s : state) v := mk_state (root s) (rootdir s) (files s) (dirs s) (bufs s) v (brk s) (oracle s) (errno s).
Definition set_brk (s : state) v := mk_state (root s) (rootdir s) (files s) (dirs s) (bufs s) (fh s) v (oracle s) (errno s).
Definition set_oracle (s : state) v := mk_state (root s) (rootdir s) (files s) (dirs s) (bufs s) (fh s) (brk s) v (errno s).
Definition set_errno (s : state) v := mk_state (root s) (rootdir s) (files s) (dirs s) (bufs s) (fh s) (brk s) (oracle s) v.

Definition with_size (n : rd_file) v := mk_rd_file (name n) v (type n) (openfor n) (usage n) (data n) (datasize n).
Definition with_openfor (n : rd_file) v := mk_rd_file (name n) (size n) (type n) v (usage n) (data n) (datasize n).
Definition with_usage (n : rd_file) v := mk_rd_file (name n) (size n) (type n) (openfor n) v (data n) (datasize n).
Definition with_data (n : rd_file) v := mk_rd_file (name n) (size n) (type n) (openfor n) (usage n) v (datasize n).
Definition with_datasize (n : rd_file) v := mk_rd_file (name n) (size n) (type n) (openfor n) (usage n) (data n) v.

Definition with_file (e : fh_t) v := mk_fh v (fh_dir e) (fh_ptr e) (fh_dirent e) (fh_omode e).
Definition with_dir (e : fh_t) v := mk_fh (fh_file e) v (fh_ptr e) (fh_dirent e) (fh_omode e).
Definition with_ptr (e : fh_t) v := mk_fh (fh_file e) (fh_dir e) v (fh_dirent e) (fh_omode e).
Definition with_dirent (e : fh_t) v := mk_fh (fh_file e) (fh_dir e) (fh_ptr e) v (fh_omode e).
Definition with_omode (e : fh_t) v := mk_fh (fh_file e) (fh_dir e) (fh_ptr e) (fh_dirent e) v.

(** ** The machine monad: state passing with crashes *)

Definition M (A : Type) : Type := state -> option (A * state).

Definition mret {A} (a : A) : M A := fun s => Some (a, s).
Definition mbind {A B} (m : M A) (k : A -> M B) : M B :=
  fun s => match m s with Some (a, s') => k a s' | None => None end.
Definition crash {A} : M A := fun _ => None.
Definition gets {A} (f : state -> A) : M A := fun s => Some (f s, s).
Definition modify (f : state -> state) : M unit := fun s => Some (tt, f s).

Notation "'let*' x := m 'in' k" := (mbind m (fun x => k))
  (at level 200, x name, m at level 100, k at level 200).

(** ** Heap primitives *)

(** The outcome of the next allocation. *)
Definition alloc_ok : M bool :=
  fun s => match oracle s with
           | [] => Some (true, s)
           | b :: r => Some (b, set_oracle s r)
           end.

Definition fresh : M N := fun s => Some (brk s, set_brk s (brk s + 1)%N).

(** [malloc] of a data block; its (indeterminate) contents are zeros. *)
Definition malloc (n : N) : M N :=
  let* ok := alloc_ok in
  if ok then
    let* a := fresh in
    let* _ := modify (fun s => set_bufs s (<[a := repeat Byte.x00 (N.to_nat n)]> (bufs s))) in
    mret a
  else mret 0%N.

(** [malloc] of an [rd_file_t]; the caller stores the structure. *)
Definition malloc_node : M N :=
  let* ok := alloc_ok in if ok then fresh else mret 0%N.

(** [malloc] of an [rd_dir_t] list head, an empty list. *)
Definition malloc_dir : M N :=
  let* ok := alloc_ok in
  if ok then
    let* a := fresh in
    let* _ := modify (fun s => set_dirs s (<[a := []]> (dirs s))) in
    mret a
  else mret 0%N.

(** [strdup] of a name: only the allocation can fail. *)
Definition strdup : M bool := alloc_ok.

(** [free] of a data block: NULL is ignored, anything else must be live. *)
Definition free (p : N) : M unit :=
  if (p =? 0)%N then mret tt
  else fun s => match bufs s !! p with
                | Some _ => Some (tt, set_bufs s (delete p (bufs s)))
                | None => None
                end.

(** [realloc]: on failure the old block is kept and NULL returned. *)
Definition realloc (p : N) (n : N) : M N :=
  let* ok := alloc_ok in
  if negb ok then mret 0%N
  else
    let* c := (if (p =? 0)%N then mret []
               else fun s => match bufs s !! p with
                             | Some c => Some (c, s)
                             | None => None
                             end) in
    let* a := fresh in
    let* _ := modify (fun s => set_bufs s
                (<[a := take (N.to_nat n) (c ++ repeat Byte.x00 (N.to_nat n))]>
                   (delete p (bufs s)))) in
    mret a.

Definition get_file (p : N) : M rd_file :=
  fun s => match files s !! p with Some n => Some (n, s) | None => None end.

Definition put_file (p : N) (n : rd_file) : M unit :=
  modify (fun s => set_files s (<[p := n]> (files s))).

Definition update_file (p : N) (f : rd_file -> rd_file) : M unit :=
  let* n := get_file p in put_file p (f n).

Definition get_fh (fd : Z) : M fh_t :=
  fun s => if fd <? 0 then None
           else match fh s !! Z.to_nat fd with Some e => Some (e, s) | None => None end.

Definition put_fh (fd : Z) (e : fh_t) : M unit :=
  modify (fun s => set_fh s (<[Z.to_nat fd := e]> (fh s))).

Definition update_fh (fd : Z) (f : fh_t -> fh_t) : M unit :=
  let* e := get_fh fd in put_fh fd (f e).

Definition set_errno_m (v : Z) : M unit := modify (fun s => set_errno s v).

(** [LIST_INSERT_HEAD] *)
Definition list_insert_head (d : N) (f : N) : M unit :=
  fun s => match dirs s !! d with
           | Some l => Some (tt, set_dirs s (<[d := f :: l]> (dirs s)))
           | None => None
           end.

(** [LIST_REMOVE]: the node leaves the list it is linked into. *)
Definition list_remove (f : N) : M unit :=
  modify (fun s => set_dirs s ((fun l => filter (fun x => x <> f) l) <$> dirs s)).

(** [LIST_FIRST] of a directory head. *)
Definition list_first (d : N) : M N :=
  fun s => match dirs s !! d with
           | Some (f :: _) => Some (f, s)
           | Some [] => Some (0%N, s)
           | None => None
           end.

(** [LIST_NEXT] of a node of the list [l]: the node after it, NULL at the
    end. *)
Fixpoint list_next (l : list N) (f : N) : option N :=
  match l with
  | [] => None
  | x :: r => if (x =? f)%N then Some (match r with y :: _ => y | [] => 0%N end)
              else list_next r f
  end.

(** ** Names and paths *)

Definition tolower (c : ascii) : ascii :=
  let n := N_of_ascii c in
  if ((65 <=? n) && (n <=? 90))%N then ascii_of_N (n + 32) else c.

(** [!strncasecmp(a, b, n)] on NUL-terminated strings. *)
Fixpoint strncasecmp_eq (a b : string) (n : nat) : bool :=
  match n with
  | O => true
  | S n' =>
      match a, b with
      | EmptyString, EmptyString => true
      | String c1 r1, String c2 r2 =>
          Ascii.eqb (tolower c1) (tolower c2) && strncasecmp_eq r1 r2 n'
      | _, _ => false
      end
  end.

(** The test of [ramdisk_find] for the segment [seg] against a name. *)
Definition name_matches (nm seg : string) : bool :=
  Nat.eqb (String.length nm) (String.length seg) &&
  strncasecmp_eq seg nm (String.length seg).

Fixpoint find_in (fs : gmap N rd_file) (l : list N) (seg : string) : N :=
  match l with
  | [] => 0%N
  | f :: r =>
      match fs !! f with
      | Some n => if name_matches (name n) seg then f else find_in fs r seg
      | None => find_in fs r seg
      end
  end.

(** [ramdisk_find]: [LIST_FOREACH] over the directory [parent]. *)
Definition ramdisk_find (s : state) (parent : N) (seg : string) : N :=
  match dirs s !! parent with
  | Some l => find_in (files s) l seg
  | None => 0%N
  end.

(** The pieces of a path between the slashes found by successive
    [strchr(fn, '/')], and the remaining last piece. *)
Fixpoint split_slashes (fn : string) : list string * string :=
  match fn with
  | EmptyString => ([], EmptyString)
  | String c r =>
      let (mids, last) := split_slashes r in
      if Ascii.eqb c "/"%char then (EmptyString :: mids, last)
      else match mids with
           | m :: ms => (String c m :: ms, last)
           | [] => ([], String c last)
           end
  end.

(** [strrchr(fn, '/')]: the text before and after the last slash. *)
Fixpoint split_last_slash (fn : string) : option (string * string) :=
  match fn with
  | EmptyString => None
  | String c r =>
      match split_last_slash r with
      | Some (p, q) => Some (String c p, q)
      | None => if Ascii.eqb c "/"%char then Some (EmptyString, r) else None
      end
  end.

Definition is_dir (n : rd_file) : bool := ftype_eqb (type n) STAT_TYPE_DIR.

(** The loop of [ramdisk_find_path] over the intermediate pieces; [f] is
    the last directory found (initially NULL). *)
Fixpoint find_path_walk (s : state) (parent f : N) (mids : list string)
  : option (N * N) :=
  match mids with
  | [] => Some (parent, f)
  | seg :: rest =>
      if String.eqb seg EmptyString then find_path_walk s parent f rest
      else
        let f := ramdisk_find s parent seg in
        match files s !! f with
        | Some n => if is_dir n then find_path_walk s (data n) f rest else None
        | None => None
        end
  end.

Definition ramdisk_find_path (s : state) (parent : N) (fn : string) (dir : bool) : N :=
  let (mids, last) := split_slashes fn in
  match find_path_walk s parent 0%N mids with
  | None => 0%N
  | Some (parent, f) =>
      if negb (String.eqb last EmptyString) then
        let f := ramdisk_find s parent last in
        match files s !! f with
        | Some n => if (negb dir && is_dir n) || (dir && negb (is_dir n)) then 0%N else f
        | None => 0%N
        end
      else if negb dir then 0%N else f
  end.

(** [ramdisk_get_parent]: [Some (dir, leaf)] on success. *)
Definition ramdisk_get_parent (parent : N) (fn : string) : M (option (N * string)) :=
  match split_last_slash fn with
  | None => mret (Some (parent, fn))
  | Some (pname, leaf) =>
      let* pn := malloc (N.of_nat (String.length pname + 1)) in
      if (pn =? 0)%N then crash   (* strncpy into NULL *)
      else
        let* f := gets (fun s => ramdisk_find_path s parent pname true) in
        let* _ := free pn in
        if (f =? 0)%N then mret None
        else
          let* n := get_file f in
          if (data n =? 0)%N then crash else mret (Some (data n, leaf))
  end.

(** [ramdisk_create_file] *)
Definition ramdisk_create_file (parent : N) (fn : string) (dir : bool) : M N :=
  let* r := ramdisk_get_parent parent fn in
  match r with
  | None => mret 0%N
  | Some (pdir, p) =>
      let* f := malloc_node in
      if (f =? 0)%N then mret 0%N
      else
        let* ok := strdup in
        if negb ok then mret 0%N
        else
          let* d := (if dir then malloc_dir else malloc 1024) in
          if (d =? 0)%N then mret 0%N
          else
            let* _ := put_file f (mk_rd_file p 0 (if dir then STAT_TYPE_DIR else STAT_TYPE_FILE)
                                    OPENFOR_NOTHING 0 d (if dir then 0 else 1024)) in
            let* _ := list_insert_head pdir f in
            mret f
  end.

(** ** Byte copies *)

(** [memcpy(dst, data + off, len)]: the [len] bytes at [off] of block [p]. *)
Definition memcpy_from (p off len : N) : M (list Byte.byte) :=
  if (len =? 0)%N then mret []
  else fun s => match bufs s !! p with
                | Some c => if (off + len <=? N.of_nat (length c))%N
                            then Some (take (N.to_nat len) (drop (N.to_nat off) c), s)
                            else None
                | None => None
                end.

(** [memcpy(data + off, src, length src)] into block [p]. *)
Definition memcpy_into (p off : N) (src : list Byte.byte) : M unit :=
  if (N.of_nat (length src) =? 0)%N then mret tt
  else fun s => match bufs s !! p with
                | Some c =>
                    if (off + N.of_nat (length src) <=? N.of_nat (length c))%N
                    then Some (tt, set_bufs s (<[p := take (N.to_nat off) c ++ src
                                                        ++ drop (N.to_nat off + length src) c]>
                                                 (bufs s)))
                    else None
                | None => None
                end.

(** [uint32] subtraction *)
Definition u32sub (a b : N) : N := u32 (a + (2 ^ 32 - u32 b)).

(** ** Operations *)

Definition MAX_FILES : Z := Z.of_nat FS_RAMDISK_MAX_FILES.

(** A leading slash is skipped by [ramdisk_open]. *)
Definition strip_slash (fn : string) : string :=
  match fn with
  | String c r => if Ascii.eqb c "/"%char then r else fn
  | EmptyString => fn
  end.

(** The free-handle loop of [ramdisk_open]: the first free slot in
    [1, FS_RAMDISK_MAX_FILES), or [FS_RAMDISK_MAX_FILES] if there is none. *)
Fixpoint scan_free (t : list fh_t) (fd : nat) (k : nat) : nat :=
  match k with
  | O => fd
  | S k' => match t !! fd with
            | Some e => if (fh_file e =? 0)%N then fd else scan_free t (S fd) k'
            | None => scan_free t (S fd) k'
            end
  end.

Definition find_free_fd (t : list fh_t) : Z :=
  Z.of_nat (scan_free t 1 (FS_RAMDISK_MAX_FILES - 1)).

(** [error_out] of [ramdisk_open] once a slot [fd] was chosen. *)
Definition open_error_out (fd : Z) : M Z :=
  let* _ := update_fh fd (fun e => with_file e 0) in mret 0.

(** The lookup part of [ramdisk_open]: the node opened, or NULL. *)
Definition open_lookup (fn : string) (mode : Z) : M N :=
  let mm := Z.land mode O_MODE_MASK in
  let odir := negb (Z.land mode O_DIR =? 0) in
  if String.eqb fn EmptyString then gets root
  else
    let* f := gets (fun s => ramdisk_find_path s (rootdir s) fn odir) in
    if (f =? 0)%N then
      if negb (mm =? O_RDONLY) && negb odir then
        let* rd := gets rootdir in ramdisk_create_file rd fn odir
      else mret 0%N
    else mret f.

(** The commit part of [ramdisk_open] on the node [f] and the free slot
    [fd]: [false] when the exclusion check fails after the slot was
    filled. *)
Definition open_commit (f : N) (fd : Z) (mode : Z) : M bool :=
  let mm := Z.land mode O_MODE_MASK in
  let* _ := update_fh fd (fun e => with_omode (with_dir (with_file e f) (Z.land mode O_DIR)) mode) in
  if mm =? O_RDONLY then
    let* _ := update_file f (fun n => with_openfor n OPENFOR_READ) in
    let* _ := update_fh fd (fun e => with_ptr e 0) in
    mret true
  else if negb (Z.land mm O_RDWR =? 0) || negb (Z.land mm O_WRONLY =? 0) then
    let* n := get_file f in
    if openfor n =? OPENFOR_READ then mret false
    else
      let* _ := update_file f (fun n => with_openfor n OPENFOR_WRITE) in
      if negb (Z.land mode O_APPEND =? 0) then
        let* _ := update_fh fd (fun e => with_ptr e (size n)) in mret true
      else if negb (Z.land mode O_TRUNC =? 0) then
        let* _ := free (data n) in
        let* d := malloc 1024 in
        let* _ := update_file f (fun n => with_size (with_datasize (with_data n d) 1024) 0) in
        let* _ := update_fh fd (fun e => with_ptr e 0) in
        mret true
      else
        let* _ := update_fh fd (fun e => with_ptr e 0) in mret true
  else crash.   (* assert_msg(0, "Unknown file mode") *)

(** [ramdisk_open]: the handle, or NULL (0). *)
Definition ramdisk_open (fn0 : string) (mode : Z) : M Z :=
  let fn := strip_slash fn0 in
  let mm := Z.land mode O_MODE_MASK in
  let odir := negb (Z.land mode O_DIR =? 0) in
  if odir && negb (mm =? O_RDONLY) then mret 0
  else
    let* f := open_lookup fn mode in
    if (f =? 0)%N then mret 0
    else
      let* n := get_file f in
      if is_dir n && (negb odir || negb (mm =? O_RDONLY)) then mret 0
      else
        let* fd := gets (fun s => find_free_fd (fh s)) in
        if fd >=? MAX_FILES then mret 0
        else if openfor n =? OPENFOR_WRITE then open_error_out fd
        else
          let* ok := open_commit f fd mode in
          if negb ok then open_error_out fd
          else
            let* _ := (if odir then
                         let* n := get_file f in
                         let* p := list_first (data n) in
                         update_fh fd (fun e => with_ptr e p)
                       else mret tt) in
            let* _ := update_file f (fun n => with_usage n (usage n + 1)) in
            mret fd.

(** [ramdisk_close] *)
Definition ramdisk_close (h : Z) : M Z :=
  if h <? MAX_FILES then
    let* e := get_fh h in
    if (fh_file e =? 0)%N then mret 0
    else
      let f := fh_file e in
      let* _ := update_fh h (fun e => with_file e 0) in
      let* n := get_file f in
      let* _ := put_file f (with_usage n (usage n - 1)) in
      if usage n - 1 <? 0 then crash     (* assert(f->usage >= 0) *)
      else if usage n - 1 =? 0 then
        let* _ := update_file f (fun n => with_openfor n OPENFOR_NOTHING) in mret 0
      else mret 0
  else mret 0.

(** The handle test [fd < FS_RAMDISK_MAX_FILES && fh[fd].file != NULL && !fh[fd].dir]. *)
Definition file_handle (h : Z) : M (option fh_t) :=
  if h <? MAX_FILES then
    let* e := get_fh h in
    if negb (fh_file e =? 0)%N && (fh_dir e =? 0) then mret (Some e) else mret None
  else mret None.

(** [ramdisk_read]: the result and the bytes copied out. *)
Definition ramdisk_read (h : Z) (bytes : N) : M (Z * list Byte.byte) :=
  let* o := file_handle h in
  match o with
  | None => mret (-1, [])
  | Some e =>
      let* n := get_file (fh_file e) in
      let bytes := if (size n <? u32 (fh_ptr e + bytes))%N
                   then u32sub (size n) (fh_ptr e) else bytes in
      let* out := memcpy_from (data n) (fh_ptr e) bytes in
      let* _ := update_fh h (fun e => with_ptr e (u32 (fh_ptr e + bytes))) in
      mret (to_s32 bytes, out)
  end.

(** [ramdisk_write] of the bytes [buf]. *)
Definition ramdisk_write (h : Z) (buf : list Byte.byte) : M Z :=
  let bytes := N.of_nat (length buf) in
  let* o := file_handle h in
  match o with
  | None => mret (-1)
  | Some e =>
      let* n := get_file (fh_file e) in
      if negb (openfor n =? OPENFOR_WRITE) then mret (-1)
      else
        let f := fh_file e in
        let* ok :=
          (if (datasize n <? u32 (fh_ptr e + bytes))%N then
             let* np := realloc (data n) (u32 (u32 (fh_ptr e + bytes) + 4096)) in
             if (np =? 0)%N then mret false
             else
               let* _ := update_file f (fun n => with_datasize (with_data n np)
                                                   (u32 (u32 (fh_ptr e + bytes) + 4096))) in
               mret true
           else mret true) in
        if negb ok then mret (-1)
        else
          let* n := get_file f in
          let* _ := memcpy_into (data n) (fh_ptr e) buf in
          let* _ := update_fh h (fun e => with_ptr e (u32 (fh_ptr e + bytes))) in
          let* e := get_fh h in
          let* _ := (if (size n <? fh_ptr e)%N then update_file f (fun n => with_size n (fh_ptr e))
                     else mret tt) in
          mret (to_s32 bytes)
  end.

(** [ramdisk_seek] *)
Definition ramdisk_seek (h : Z) (offset : Z) (whence : Z) : M Z :=
  let* o := file_handle h in
  match o with
  | None => let* _ := set_errno_m EBADF in mret (-1)
  | Some e =>
      let* n := get_file (fh_file e) in
      let newptr :=
        if whence =? SEEK_SET then
          if offset <? 0 then None else Some (of_s32 offset)
        else if whence =? SEEK_CUR then
          if (offset <? 0) && (fh_ptr e <? of_s32 (- offset))%N then None
          else Some (u32 (fh_ptr e + of_s32 offset))
        else if whence =? SEEK_END then
          if (offset <? 0) && (size n <? of_s32 (- offset))%N then None
          else Some (u32 (size n + of_s32 offset))
        else None in
      match newptr with
      | None => let* _ := set_errno_m EINVAL in mret (-1)
      | Some p =>
          let p := if (size n <? p)%N then size n else p in
          let* _ := update_fh h (fun e => with_ptr e p) in
          mret (to_s32 p)
      end
  end.

(** [ramdisk_tell] *)
Definition ramdisk_tell (h : Z) : M Z :=
  let* o := file_handle h in
  match o with None => mret (-1) | Some e => mret (to_s32 (fh_ptr e)) end.

(** [ramdisk_total]: a [size_t]; (size_t)-1 on a bad handle. *)
Definition ramdisk_total (h : Z) : M N :=
  let* o := file_handle h in
  match o with
  | None => mret (2 ^ 32 - 1)%N
  | Some e => let* n := get_file (fh_file e) in mret (size n)
  end.

(** [ramdisk_readdir]: the entry, or NULL. *)
Definition ramdisk_readdir (h : Z) : M (option dirent) :=
  let* e := (if h <? MAX_FILES then let* e := get_fh h in mret (Some e) else mret None) in
  match e with
  | Some e =>
      if negb (fh_file e =? 0)%N && negb (fh_ptr e =? 0)%N && negb (fh_dir e =? 0) then
        let f := fh_ptr e in
        let* nf := get_file f in
        let* nd := get_file (fh_file e) in
        let* nx := (fun s => match dirs s !! data nd with
                             | Some l => match list_next l f with
                                         | Some x => Some (x, s)
                                         | None => None
                                         end
                             | None => None
                             end) in
        let d := mk_dirent (name nf) 0 (if is_dir nf then O_DIR else 0)
                           (if is_dir nf then -1 else to_s32 (size nf)) in
        let* _ := update_fh h (fun e => with_dirent (with_ptr e nx) d) in
        mret (Some d)
      else let* _ := set_errno_m EBADF in mret None
  | None => let* _ := set_errno_m EBADF in mret None
  end.

(** [ramdisk_unlink] *)
Definition ramdisk_unlink (fn : string) : M Z :=
  let* f := gets (fun s => ramdisk_find_path s (rootdir s) fn false) in
  if (f =? 0)%N then mret (-1)
  else
    let* n := get_file f in
    if usage n =? 0 then
      let* _ := free (data n) in
      let* _ := list_remove f in
      let* _ := modify (fun s => set_files s (delete f (files s))) in
      mret 0
    else mret (-1).

(** [ramdisk_mmap] *)
Definition ramdisk_mmap (h : Z) : M N :=
  let* o := file_handle h in
  match o with
  | None => mret 0%N
  | Some e => let* n := get_file (fh_file e) in mret (data n)
  end.

Record stat_t := mk_stat {
  st_dev : Z;
  st_mode : Z;
  st_size : Z;
  st_nlink : Z;
  st_blksize : Z;
  st_blocks : Z
}.

(** ['r' | ('a' << 8) | ('m' << 16)] *)
Definition RAM_DEV : Z := Z.lor 114 (Z.lor (Z.shiftl 97 8) (Z.shiftl 109 16)).

Definition RW_ALL : Z :=
  Z.lor S_IRUSR (Z.lor S_IWUSR (Z.lor S_IRGRP (Z.lor S_IWGRP (Z.lor S_IROTH S_IWOTH)))).

Definition st_blocks_of (ds : N) : Z :=
  Z.of_N (N.shiftr ds 10) + (if (N.land ds 1023 =? 0)%N then 0 else 1).

(** [ramdisk_stat] *)
Definition ramdisk_stat (path : string) : M (Z * option stat_t) :=
  let len := String.length path in
  if Nat.eqb len 0 || (Nat.eqb len 1 && String.eqb path "/") then
    mret (0, Some (mk_stat RAM_DEV (Z.lor S_IFDIR (Z.lor S_IRWXU (Z.lor S_IRWXG S_IRWXO)))
                           (-1) 2 0 0))
  else
    let* f := gets (fun s => ramdisk_find_path s (rootdir s) path false) in
    if (f =? 0)%N then let* _ := set_errno_m ENOENT in mret (-1, None)
    else
      let* n := get_file f in
      mret (0, Some (mk_stat RAM_DEV
                       (Z.lor RW_ALL (if is_dir n then Z.lor S_IFDIR (Z.lor S_IXUSR (Z.lor S_IXGRP S_IXOTH))
                                      else S_IFREG))
                       (if is_dir n then -1 else to_s32 (datasize n))
                       (if is_dir n then 2 else 1)
                       1024
                       (st_blocks_of (datasize n)))).

(** [ramdisk_fcntl] *)
Definition ramdisk_fcntl (h : Z) (cmd : Z) : M Z :=
  let* e := (if h <? MAX_FILES then let* e := get_fh h in mret (Some e) else mret None) in
  match e with
  | Some e =>
      if (fh_file e =? 0)%N then let* _ := set_errno_m EBADF in mret (-1)
      else if cmd =? F_GETFL then mret (fh_omode e)
      else if (cmd =? F_SETFL) || (cmd =? F_GETFD) || (cmd =? F_SETFD) then mret 0
      else let* _ := set_errno_m EINVAL in mret (-1)
  | None => let* _ := set_errno_m EBADF in mret (-1)
  end.

(** [ramdisk_rewinddir] *)
Definition ramdisk_rewinddir (h : Z) : M Z :=
  let* e := (if h <? MAX_FILES then let* e := get_fh h in mret (Some e) else mret None) in
  match e with
  | Some e =>
      if (fh_file e =? 0)%N || (fh_dir e =? 0) then let* _ := set_errno_m EBADF in mret (-1)
      else
        let* n := get_file (fh_file e) in
        let* p := list_first (data n) in
        let* _ := update_fh h (fun e => with_ptr e p) in
        mret 0
  | None => let* _ := set_errno_m EBADF in mret (-1)
  end.

(** [ramdisk_fstat] *)
Definition ramdisk_fstat (h : Z) : M (Z * option stat_t) :=
  let* e := (if h <? MAX_FILES then let* e := get_fh h in mret (Some e) else mret None) in
  match e with
  | Some e =>
      if (fh_file e =? 0)%N then let* _ := set_errno_m EBADF in mret (-1, None)
      else
        let* n := get_file (fh_file e) in
        mret (0, Some (mk_stat RAM_DEV
                         (Z.lor RW_ALL (if is_dir n then S_IFDIR else S_IFREG))
                         (if is_dir n then -1 else to_s32 (datasize n))
                         (if is_dir n then 2 else 1)
                         1024
                         (st_blocks_of (datasize n))))
  | None => let* _ := set_errno_m EBADF in mret (-1, None)
  end.

(** [fs_ramdisk_attach] *)
Definition fs_ramdisk_attach (fn : string) (obj : N) (sz : N) : M Z :=
  let* fd := ramdisk_open fn (Z.lor O_WRONLY O_TRUNC) in
  if fd =? 0 then mret (-1)
  else
    let* e := get_fh fd in
    let f := fh_file e in
    let* n := get_file f in
    let* _ := free (data n) in
    let* _ := update_file f (fun n => with_size (with_datasize (with_data n obj) sz) sz) in
    let* _ := ramdisk_close fd in
    mret 0.

(** [fs_ramdisk_detach]: the result and, on success, the block and size
    stored through the out-parameters. *)
Definition fs_ramdisk_detach (fn : string) : M (Z * option (N * N)) :=
  let* fd := ramdisk_open fn O_RDONLY in
  if fd =? 0 then mret (-1, None)
  else
    let* e := get_fh fd in
    let f := fh_file e in
    let* n := get_file f in
    let obj := data n in
    let sz := size n in
    let* d := malloc 64 in
    let* _ := update_file f (fun n => with_size (with_datasize (with_data n d) 64) 64) in
    let* _ := ramdisk_close fd in
    let* _ := ramdisk_unlink fn in
    mret (0, Some (obj, sz)).

(** [free] of an [rd_dir_t] list head. *)
Definition free_dir (d : N) : M unit :=
  modify (fun s => set_dirs s (delete d (dirs s))).

(** [fs_ramdisk_init] *)
Definition fs_ramdisk_init : M unit :=
  let* rd0 := gets rootdir in
  if negb (rd0 =? 0)%N then mret tt
  else
    let* rd := malloc_dir in
    let* _ := modify (fun s => set_rootdir s rd) in
    if (rd =? 0)%N then mret tt
    else
      let* r := malloc_node in
      let* _ := modify (fun s => set_root s r) in
      if (r =? 0)%N then free_dir rd
      else
        let* ok := strdup in
        if negb ok then free_dir rd
        else
          let* _ := put_file r (mk_rd_file "/" 0 STAT_TYPE_DIR OPENFOR_NOTHING 0 rd 0) in
          let* _ := modify (fun s => set_dirs s (<[rd := []]> (dirs s))) in
          let* _ := modify (fun s => set_fh s (repeat fh0 FS_RAMDISK_MAX_FILES)) in
          mret tt.

(** The machine before [fs_ramdisk_init]: static storage is zero. *)
Definition boot (orc : list bool) : state :=
  mk_state 0 0 ∅ ∅ ∅ (repeat fh0 FS_RAMDISK_MAX_FILES) 1 orc 0.

(** The freshly initialized file system. *)
Definition fresh_fs : state :=
  match fs_ramdisk_init (boot []) with Some (_, s) => s | None => boot [] end.

(** ** Runs of the file system *)

(** The operations a client can perform, and the environment's: a client
    allocating a block of its own (to attach it later), and the outcomes of
    the next allocations changing. *)
Inductive op :=
| OpOpen (fn : string) (mode : Z)
| OpClose (h : Z)
| OpRead (h : Z) (bytes : N)
| OpWrite (h : Z) (buf : list Byte.byte)
| OpSeek (h : Z) (offset whence : Z)
| OpTell (h : Z)
| OpTotal (h : Z)
| OpReaddir (h : Z)
| OpUnlink (fn : string)
| OpMmap (h : Z)
| OpStat (fn : string)
| OpFcntl (h : Z) (cmd : Z)
| OpRewinddir (h : Z)
| OpFstat (h : Z)
| OpAttach (fn : string) (obj sz : N)
| OpDetach (fn : string)
| OpInit
| OpUserBuffer (contents : list Byte.byte)
| OpSetOracle (l : list bool).

Definition user_buffer (c : list Byte.byte) : M N :=
  let* a := fresh in
  let* _ := modify (fun s => set_bufs s (<[a := c]> (bufs s))) in
  mret a.

Definition exec (o : op) : M unit :=
  match o with
  | OpOpen fn mode => let* _ := ramdisk_open fn mode in mret tt
  | OpClose h => let* _ := ramdisk_close h in mret tt
  | OpRead h n => let* _ := ramdisk_read h n in mret tt
  | OpWrite h b => let* _ := ramdisk_write h b in mret tt
  | OpSeek h off wh => let* _ := ramdisk_seek h off wh in mret tt
  | OpTell h => let* _ := ramdisk_tell h in mret tt
  | OpTotal h => let* _ := ramdisk_total h in mret tt
  | OpReaddir h => let* _ := ramdisk_readdir h in mret tt
  | OpUnlink fn => let* _ := ramdisk_unlink fn in mret tt
  | OpMmap h => let* _ := ramdisk_mmap h in mret tt
  | OpStat fn => let* _ := ramdisk_stat fn in mret tt
  | OpFcntl h c => let* _ := ramdisk_fcntl h c in mret tt
  | OpRewinddir h => let* _ := ramdisk_rewinddir h in mret tt
  | OpFstat h => let* _ := ramdisk_fstat h in mret tt
  | OpAttach fn obj sz => let* _ := fs_ramdisk_attach fn obj sz in mret tt
  | OpDetach fn => let* _ := fs_ramdisk_detach fn in mret tt
  | OpInit => fs_ramdisk_init
  | OpUserBuffer c => let* _ := user_buffer c in mret tt
  | OpSetOracle l => modify (fun s => set_oracle s l)
  end.

Definition step (s : state) (o : op) (s' : state) : Prop := exec o s = Some (tt, s').

(** The states reachable from the freshly initialized file system. *)
Inductive reachable : state -> Prop :=
| reachable_fresh : reachable fresh_fs
| reachable_step s o s' : reachable s -> step s o s' -> reachable s'.

(** A sequence of operations from a state. *)
Fixpoint run (l : list op) (s : state) : option state :=
  match l with
  | [] => Some s
  | o :: r => match exec o s with Some (_, s') => run r s' | None => None end
  end.

(* ================================================================== *)
(** ** Concrete runs *)

(** The state after a run from the fresh filesystem (the fresh one if the
    run crashes). *)
Definition state_of (l : list op) : state :=
  match run l fresh_fs with Some s => s | None => fresh_fs end.

Definition node0 : rd_file := mk_rd_file EmptyString 0 STAT_TYPE_FILE 0 0 0 0.

(** The handle in slot [i] and the node at address [f]. *)
Definition fh_at (s : state) (i : nat) : fh_t :=
  match fh s !! i with Some e => e | None => fh0 end.
Definition file_at (s : state) (f : N) : rd_file :=
  match files s !! f with Some n => n | None => node0 end.

Definition bytes100 : list Byte.byte := repeat Byte.x41 100.

(** The run of the counterexample: a writer fills "f" with 100 bytes, a
    reader reads them all (cursor 100), then "f" is detached while the
    reader is still open. *)
Definition c2_run : list op :=
  [OpOpen "f" O_WRONLY; OpWrite 1 bytes100; OpClose 1;
   OpOpen "f" O_RDONLY; OpRead 1 100].

(** Writer fills "f" with 100 bytes and closes; a reader opens it. *)
Definition c5_run : list op :=
  [OpOpen "f" O_WRONLY; OpWrite 1 bytes100; OpClose 1; OpOpen "f" O_RDONLY].

(** ** Cursor targets of [ramdisk_seek], following the spec's words:
    the offset, the cursor plus the offset, the logical size plus the offset. *)
Definition seek_target (e : fh_t) (n : rd_file) (offset whence : Z) : Z :=
  if whence =? SEEK_SET then offset
  else if whence =? SEEK_CUR then Z.of_N (fh_ptr e) + offset
  else Z.of_N (size n) + offset.

(** The block [c] after [n] bytes [buf] are copied in at offset [p]. *)
Definition wrote (c : list Byte.byte) (p : N) (buf : list Byte.byte) : list Byte.byte :=
  take (N.to_nat p) c ++ buf ++ drop (N.to_nat p + length buf) c.

(** The state after the allocator's answer is consumed. *)
Definition alloc_next (s : state) : state :=
  match oracle s with [] => s | _ :: r => set_oracle s r end.

(** A fresh file "g" opened for writing (handle 1), and 2000 bytes to
    write into its 1024-byte block. *)
Definition c3_run : list op := [OpOpen "g" O_WRONLY].

Definition bytes2000 : list Byte.byte := repeat Byte.x42 2000.

(** Every handle slot in [1, FS_RAMDISK_MAX_FILES) holds a node. *)
Definition slots_occupied (t : list fh_t) : bool :=
  forallb (fun i => match t !! i with
                    | Some e => negb (fh_file e =? 0)%N
                    | None => false
                    end) (seq 1 (FS_RAMDISK_MAX_FILES - 1)).

(** "f" is written, then opened for reading 15 times: every slot is taken. *)
Definition c9_run : list op :=
  [OpOpen "f" O_WRONLY; OpClose 1] ++ repeat (OpOpen "f" O_RDONLY) 15.

(** [k] successive [readdir] calls on the handle [h], with their results. *)
Fixpoint readdir_n (h : Z) (k : nat) : M (list (option dirent)) :=
  match k with
  | O => mret []
  | S k => let* d := ramdisk_readdir h in
           let* r := readdir_n h k in
           mret (d :: r)
  end.

(** The fields of a directory entry that the spec describes: name, attribute,
    size. *)
Definition entry_view (d : dirent) : string * Z * Z := (d_name d, d_attr d, d_size d).

(** The entry the spec describes for a child node: its name, the
    directory bit for a directory and 0 otherwise, -1 for a directory and the
    logical size otherwise. *)
Definition node_view (n : rd_file) : string * Z * Z :=
  (name n, if is_dir n then O_DIR else 0, if is_dir n then -1 else Z.of_N (size n)).

(** Files "f" (100 bytes) and "g" (empty), then the root directory opened
    as handle 1. *)
Definition c8_run : list op :=
  [OpOpen "f" O_WRONLY; OpWrite 1 bytes100; OpClose 1; OpOpen "g" O_WRONLY;
   OpClose 1; OpOpen "" (Z.lor O_RDONLY O_DIR)].

(** The state after [c8_run], in normal form. *)
Definition c8_state : state := Eval vm_compute in state_of c8_run.


(** The mode [fs_ramdisk_attach] opens with. *)
Definition trunc_mode : Z := Z.lor O_WRONLY O_TRUNC.

(** The round trip of the spec: [attach(p, B, sz)] returns 0, then
    [detach(p)] returns 0 with the block [B] and the size [sz], the contents
    stored at [B] are those before, and [p] no longer resolves. *)
Definition attach_detach_ok (s : state) (p : string) (B sz : N) : Prop :=
  exists s1, fs_ramdisk_attach p B sz s = Some (0, s1) /\
  exists s2, fs_ramdisk_detach p s1 = Some ((0, Some (B, sz)), s2) /\
    bufs s2 !! B = bufs s !! B /\ ramdisk_find_path s2 (rootdir s2) p false = 0%N.

(** Fifteen handles open on "f" (every slot taken), then a client block
    of 100 bytes (at address 5). *)
Definition c4_run : list op := c9_run ++ [OpUserBuffer bytes100].

(** "f" written and closed, then a client block of 100 bytes (at address
    5). *)
Definition c4w_run : list op :=
  [OpOpen "f" O_WRONLY; OpWrite 1 bytes100; OpClose 1; OpUserBuffer bytes100].

(** The state after [c4w_run], in normal form. *)
Definition c4w_state : state := Eval vm_compute in state_of c4w_run.


(** ** Handle exclusion *)

(** A handle opened with a writable access mode ([O_WRONLY], [O_RDWR]). *)
Definition writable (e : fh_t) : bool := negb (Z.land (fh_omode e) O_MODE_MASK =? O_RDONLY).

(** [mode] requests a writable access mode. *)
Definition wmode (mode : Z) : bool := negb (Z.land mode O_MODE_MASK =? O_RDONLY).

(** Writer exclusion over the handle table: a handle that has a node open
    with a writable mode is the only handle on that node (no second
    writer, no reader). *)
Definition writer_exclusive (s : state) : Prop :=
  forall i j ei ej, fh s !! i = Some ei -> fh s !! j = Some ej ->
    fh_file ei <> 0%N -> fh_file ej = fh_file ei -> writable ei = true -> i = j.

(** What the exclusion depends on: the node and the writability of each
    slot (nothing for a free slot), and [f->openfor] and [f->usage] of each
    node. *)
Definition slot_view (e : fh_t) : option (N * bool) :=
  if (fh_file e =? 0)%N then None else Some (fh_file e, writable e).

Definition lock_view (n : rd_file) : Z * Z := (openfor n, usage n).

Definition slots (s : state) : list (option (N * bool)) := slot_view <$> fh s.
Definition locks (s : state) : gmap N (Z * Z) := lock_view <$> files s.

Definition on_node (f : N) (v : option (N * bool)) : bool :=
  match v with Some (g, _) => (g =? f)%N | None => false end.

Definition hit (f : N) (v : option (N * bool)) : nat := if on_node f v then 1 else 0.

(** The number of handles open on [f]. *)
Definition holders (sl : list (option (N * bool))) (f : N) : nat :=
  length (filter (fun v => on_node f v = true) sl).

(** The invariant of the lock fields: handles point to live nodes, nodes
    live below the break and never at NULL, [usage] counts the handles,
    and [openfor] is NOTHING with no handle, READ with read-only handles
    only, or WRITE with exactly one handle. *)
Record lock_inv (sl : list (option (N * bool))) (lk : gmap N (Z * Z)) (b r : N) : Prop := {
  li_live : forall i f w, sl !! i = Some (Some (f, w)) -> is_Some (lk !! f);
  li_zero : lk !! 0%N = None;
  li_fresh : forall f, is_Some (lk !! f) -> (f < b)%N;
  li_root : r <> 0%N;
  li_usage : forall f o u, lk !! f = Some (o, u) -> u = Z.of_nat (holders sl f);
  li_nothing : forall f u, lk !! f = Some (OPENFOR_NOTHING, u) -> holders sl f = 0%nat;
  li_read : forall f u i w, lk !! f = Some (OPENFOR_READ, u) -> sl !! i = Some (Some (f, w)) -> w = false;
  li_write : forall f u, lk !! f = Some (OPENFOR_WRITE, u) -> holders sl f = 1%nat;
  li_modes : forall f o u, lk !! f = Some (o, u) ->
               o = OPENFOR_NOTHING \/ o = OPENFOR_READ \/ o = OPENFOR_WRITE
}.

Definition inv (s : state) : Prop := lock_inv (slots s) (locks s) (brk s) (rootdir s).

(** A step that leaves the slots and the lock fields alone. *)
Definition frame_rel (s s' : state) : Prop :=
  slots s' = slots s /\ locks s' = locks s /\ (brk s <= brk s')%N /\ rootdir s' = rootdir s.

(** Partial correctness: [Q] holds of the outcome unless [m] crashes. *)
Definition wp {A} (m : M A) (Q : A -> state -> Prop) (s : state) : Prop :=
  match m s with Some (a, s') => Q a s' | None => True end.

Definition frames {A} (m : M A) : Prop := forall s, wp m (fun _ s' => frame_rel s s') s.

Definition keeps {A} (m : M A) : Prop := forall s, inv s -> wp m (fun _ s' => inv s') s.

Definition at_view sl lk b r (s : state) : Prop :=
  slots s = sl /\ locks s = lk /\ (b <= brk s)%N /\ rootdir s = r.

(** A writer on "f" (handle 1, node 3) and a reader on "g" (handle 2,
    node 5). *)
Definition c1_run : list op :=
  [OpOpen "f" O_WRONLY; OpOpen "g" O_WRONLY; OpClose 2; OpOpen "g" O_RDONLY].

Definition c1_state : state := Eval vm_compute in state_of c1_run.


(** ** Further operations and views *)

(** A handle [ramdisk_read], [ramdisk_write], [ramdisk_seek],
    [ramdisk_tell], [ramdisk_total] and [ramdisk_mmap] reject: out of the
    table, free, or a directory handle. *)
Definition bad_file_handle (s : state) (h : Z) : Prop :=
  0 <= h /\ (MAX_FILES <= h \/
             exists e, fh s !! Z.to_nat h = Some e /\ (fh_file e = 0%N \/ fh_dir e <> 0)).

(** A handle with no node behind it: out of the table or free. *)
Definition dead_handle (s : state) (h : Z) : Prop :=
  0 <= h /\ (MAX_FILES <= h \/ exists e, fh s !! Z.to_nat h = Some e /\ fh_file e = 0%N).

(** A name with every letter lowered, as [strncasecmp] sees it. *)
Fixpoint lower (fn : string) : string :=
  match fn with
  | EmptyString => EmptyString
  | String c r => String (tolower c) (lower r)
  end.

(** The loop of [fs_ramdisk_shutdown] over the children of the root: the
    list is walked as it was, [LIST_NEXT] being read before each node is
    freed; [free(f1->data)] releases the list head of a directory node and
    the data block of a file; the names are not modelled on the heap. *)
Fixpoint shutdown_nodes (l : list N) : M unit :=
  match l with
  | [] => mret tt
  | f :: r =>
      let* n := get_file f in
      let* _ := (if is_dir n then free_dir (data n) else free (data n)) in
      let* _ := modify (fun s => set_files s (delete f (files s))) in
      shutdown_nodes r
  end.

(** [fs_ramdisk_shutdown]; the mutex and the [nmmgr] handler are not
    modelled.  [rootdir] and [root] keep their (dangling) values. *)
Definition fs_ramdisk_shutdown : M unit :=
  let* rd := gets rootdir in
  if (rd =? 0)%N then mret tt
  else
    let* l := (fun s => match dirs s !! rd with Some l => Some (l, s) | None => None end) in
    let* _ := shutdown_nodes l in
    let* _ := free_dir rd in
    let* r := gets root in
    let* _ := get_file r in
    modify (fun s => set_files s (delete r (files s))).

(** [ramdisk_open] with [mode] leaves the cursor of a file at its end. *)
Definition append_cursor (mode : Z) : bool := wmode mode && negb (Z.land mode O_APPEND =? 0).

(** [ramdisk_open] with [mode] empties the file. *)
Definition truncates (mode : Z) : bool :=
  wmode mode && (Z.land mode O_APPEND =? 0) && negb (Z.land mode O_TRUNC =? 0).

(** A relation [R] between the state before and after every run of [m]
    that does not crash. *)
Definition holds (R : relation state) {A} (m : M A) : Prop :=
  forall s, wp m (fun _ s' => R s s') s.

(** No node of [m'] is a directory unless it was one in [m]. *)
Definition no_new_dir (m m' : gmap N rd_file) : Prop :=
  forall f n', m' !! f = Some n' -> is_dir n' = true -> exists n, m !! f = Some n /\ is_dir n = true.

Definition dir_kept (s s' : state) : Prop := root s' = root s /\ no_new_dir (files s) (files s').

(** The handle table is left alone. *)
Definition fh_kept (s s' : state) : Prop := fh s' = fh s.

(** "f" written with 100 bytes and closed, then opened for reading
    (handle 1, node 3). *)
Definition rd_run : list op :=
  [OpOpen "f" O_WRONLY; OpWrite 1 bytes100; OpClose 1; OpOpen "f" O_RDONLY].
Definition rd_state : state := Eval vm_compute in state_of rd_run.

(** [rd_state] after seeking handle 1 to offset 5. *)
Definition rd_sought : state := Eval vm_compute in
  match ramdisk_seek 1 5 SEEK_SET rd_state with Some (_, s) => s | None => rd_state end.

(** [c1_state] after opening "h" for writing (handle 3). *)
Definition c1_opened : state := Eval vm_compute in
  match ramdisk_open "h" O_WRONLY c1_state with Some (_, s) => s | None => c1_state end.

(** [c1_state] after [fs_ramdisk_shutdown]. *)
Definition c1_shut : state := Eval vm_compute in
  match fs_ramdisk_shutdown c1_state with Some (_, s) => s | None => c1_state end.


(** * Properties *)

Lemma reachable_run : forall l s s', reachable s -> run l s = Some s' -> reachable s'.
Proof.
  induction l as [|o l IH]; simpl; intros s s' Hr Hrun.
  - congruence.
  - destruct (exec o s) as [[[] s1]|] eqn:E; [|discriminate].
    apply (IH s1); [|exact Hrun].
    apply (reachable_step s o s1 Hr E).
Qed.

(** ** Arithmetic of the 32-bit conversions *)

Lemma u32_small x : (x < 2 ^ 32)%N -> u32 x = x.
Proof. intros H. unfold u32. apply N.mod_small. exact H. Qed.

Lemma to_s32_small x : (x < 2 ^ 31)%N -> to_s32 x = Z.of_N x.
Proof.
  intros H. unfold to_s32. rewrite u32_small by lia.
  destruct (Z.of_N x <? 2 ^ 31) eqn:E; [reflexivity|].
  apply Z.ltb_ge in E. lia.
Qed.

Lemma u32_add_s32 a z : Z.of_N (u32 (a + of_s32 z)) = (Z.of_N a + z) mod 2 ^ 32.
Proof.
  unfold u32, of_s32.
  rewrite N2Z.inj_mod, N2Z.inj_add, Z2N.id by (apply Z.mod_pos_bound; lia).
  change (Z.of_N (2 ^ 32)) with (2 ^ 32).
  rewrite Zplus_mod_idemp_r. reflexivity.
Qed.

Lemma of_s32_of_N z : 0 <= z < 2 ^ 32 -> of_s32 z = Z.to_N z.
Proof. intros H. unfold of_s32. rewrite Z.mod_small by lia. reflexivity. Qed.

(** ** The monad and the heap primitives *)

Lemma bind_step {A B} (m : M A) (k : A -> M B) s a s1 :
  m s = Some (a, s1) -> mbind m k s = k a s1.
Proof. intros H. unfold mbind. rewrite H. reflexivity. Qed.

Lemma file_handle_valid s h e :
  0 <= h < MAX_FILES -> fh s !! Z.to_nat h = Some e -> fh_file e <> 0%N -> fh_dir e = 0 ->
  file_handle h s = Some (Some e, s).
Proof.
  intros Hh He Hf Hd. unfold file_handle, get_fh, mbind, mret.
  destruct (h <? MAX_FILES) eqn:E1; [|apply Z.ltb_ge in E1; lia].
  destruct (h <? 0) eqn:E2; [apply Z.ltb_lt in E2; lia|].
  rewrite He. destruct (fh_file e =? 0)%N eqn:E3; [apply N.eqb_eq in E3; congruence|].
  rewrite Hd. reflexivity.
Qed.

Lemma get_file_ok s f n : files s !! f = Some n -> get_file f s = Some (n, s).
Proof. intros H. unfold get_file. rewrite H. reflexivity. Qed.

Lemma wrote_nil c p : wrote c p [] = c.
Proof. unfold wrote. simpl. rewrite Nat.add_0_r. apply take_drop. Qed.

Lemma set_bufs_same s : set_bufs s (bufs s) = s.
Proof. destruct s; reflexivity. Qed.

Lemma memcpy_into_ok s p off buf c :
  bufs s !! p = Some c -> (off + N.of_nat (length buf) <= N.of_nat (length c))%N ->
  memcpy_into p off buf s = Some (tt, set_bufs s (<[p := wrote c off buf]> (bufs s))).
Proof.
  intros Hc Hle. unfold memcpy_into.
  destruct (N.of_nat (length buf) =? 0)%N eqn:E.
  - apply N.eqb_eq in E. destruct buf; [|simpl in E; lia].
    rewrite wrote_nil, insert_id by exact Hc. rewrite set_bufs_same. reflexivity.
  - rewrite Hc. apply N.leb_le in Hle. rewrite Hle. unfold wrote.
    reflexivity.
Qed.

Lemma get_fh_ok s h e : 0 <= h -> fh s !! Z.to_nat h = Some e -> get_fh h s = Some (e, s).
Proof.
  intros Hh He. unfold get_fh. destruct (h <? 0) eqn:E; [apply Z.ltb_lt in E; lia|].
  rewrite He. reflexivity.
Qed.

Lemma update_fh_ok s h e f : 0 <= h -> fh s !! Z.to_nat h = Some e ->
  update_fh h f s = Some (tt, set_fh s (<[Z.to_nat h := f e]> (fh s))).
Proof.
  intros Hh He. unfold update_fh. rewrite (bind_step _ _ _ _ _ (get_fh_ok s h e Hh He)).
  reflexivity.
Qed.

Lemma update_file_ok s p n f : files s !! p = Some n ->
  update_file p f s = Some (tt, set_files s (<[p := f n]> (files s))).
Proof.
  intros Hn. unfold update_file. rewrite (bind_step _ _ _ _ _ (get_file_ok s p n Hn)).
  reflexivity.
Qed.

Lemma get_file_bind {B} s p n (k : rd_file -> M B) : files s !! p = Some n ->
  mbind (get_file p) k s = k n s.
Proof. intros H. apply bind_step, get_file_ok, H. Qed.

Lemma get_fh_bind {B} s h e (k : fh_t -> M B) : 0 <= h -> fh s !! Z.to_nat h = Some e ->
  mbind (get_fh h) k s = k e s.
Proof. intros H1 H2. apply bind_step, get_fh_ok; assumption. Qed.

Lemma update_fh_bind {B} s h e f (k : unit -> M B) : 0 <= h -> fh s !! Z.to_nat h = Some e ->
  mbind (update_fh h f) k s = k tt (set_fh s (<[Z.to_nat h := f e]> (fh s))).
Proof. intros H1 H2. apply bind_step, update_fh_ok; assumption. Qed.

Lemma update_file_bind {B} s p n f (k : unit -> M B) : files s !! p = Some n ->
  mbind (update_file p f) k s = k tt (set_files s (<[p := f n]> (files s))).
Proof. intros H. apply bind_step, update_file_ok, H. Qed.

Lemma memcpy_into_bind {B} s p off buf c (k : unit -> M B) :
  bufs s !! p = Some c -> (off + N.of_nat (length buf) <= N.of_nat (length c))%N ->
  mbind (memcpy_into p off buf) k s = k tt (set_bufs s (<[p := wrote c off buf]> (bufs s))).
Proof. intros H1 H2. apply bind_step, memcpy_into_ok; assumption. Qed.

Lemma mret_bind {A B} (a : A) (k : A -> M B) s : mbind (mret a) k s = k a s.
Proof. reflexivity. Qed.

Lemma file_handle_bind {B} s h e (k : option fh_t -> M B) :
  0 <= h < MAX_FILES -> fh s !! Z.to_nat h = Some e -> fh_file e <> 0%N -> fh_dir e = 0 ->
  mbind (file_handle h) k s = k (Some e) s.
Proof. intros. apply bind_step, file_handle_valid; assumption. Qed.

Lemma write_fits (s : state) h e n c buf :
    0 <= h < MAX_FILES ->
    fh s !! Z.to_nat h = Some e -> fh_file e <> 0%N -> fh_dir e = 0 ->
    files s !! fh_file e = Some n -> openfor n = OPENFOR_WRITE ->
    bufs s !! data n = Some c -> N.of_nat (length c) = datasize n ->
    (fh_ptr e + N.of_nat (length buf) < 2 ^ 31 - 4096)%N ->
    (fh_ptr e + N.of_nat (length buf) <= datasize n)%N ->
    exists s', ramdisk_write h buf s = Some (Z.of_nat (length buf), s') /\
      fh s' !! Z.to_nat h = Some (with_ptr e (fh_ptr e + N.of_nat (length buf))) /\
      option_map size (files s' !! fh_file e) = Some (N.max (size n) (fh_ptr e + N.of_nat (length buf))) /\
      option_map data (files s' !! fh_file e) = Some (data n) /\
      option_map datasize (files s' !! fh_file e) = Some (datasize n) /\
      bufs s' !! data n = Some (wrote c (fh_ptr e) buf).
Proof.
  intros Hh He Hf Hd Hn Hw Hc Hl Hr Hfit.
  assert (Hlen : (fh_ptr e + N.of_nat (length buf) <= N.of_nat (length c))%N) by lia.
  assert (Hlt : (Z.to_nat h < length (fh s))%nat) by (eapply lookup_lt_Some; exact He).
  unfold ramdisk_write. cbv zeta.
  rewrite (file_handle_bind _ h e) by assumption.
  rewrite (get_file_bind _ _ n) by assumption.
  rewrite Hw. simpl.
  rewrite (u32_small (fh_ptr e + _)) by lia.
  destruct (datasize n <? fh_ptr e + N.of_nat (length buf))%N eqn:E; [apply N.ltb_lt in E; lia|].
  rewrite mret_bind. simpl.
  rewrite (get_file_bind _ _ n) by assumption.
  rewrite (memcpy_into_bind _ _ _ _ c) by assumption.
  rewrite (update_fh_bind _ h e) by (try assumption; lia).
  rewrite (u32_small (fh_ptr e + _)) by lia.
  rewrite (get_fh_bind _ h (with_ptr e (fh_ptr e + N.of_nat (length buf))))
    by (try lia; simpl; apply list_lookup_insert_eq; exact Hlt).
  simpl fh_ptr.
  rewrite to_s32_small, nat_N_Z by lia.
  destruct (size n <? fh_ptr e + N.of_nat (length buf))%N eqn:Es.
  - rewrite (update_file_bind _ _ n) by exact Hn.
    eexists. split; [reflexivity|].
    simpl. rewrite list_lookup_insert_eq by exact Hlt.
    rewrite lookup_insert_eq. simpl. apply N.ltb_lt in Es.
    split; [reflexivity|]. split; [f_equal; lia|].
    split; [reflexivity|]. split; [reflexivity|].
    apply lookup_insert_eq.
  - rewrite mret_bind. eexists. split; [reflexivity|].
    simpl. rewrite list_lookup_insert_eq by exact Hlt.
    rewrite Hn. simpl. apply N.ltb_ge in Es.
    split; [reflexivity|]. split; [f_equal; lia|].
    split; [reflexivity|]. split; [reflexivity|].
    apply lookup_insert_eq.
Qed.

Lemma bind_assoc {A B C} (m : M A) (f : A -> M B) (g : B -> M C) s :
  mbind (mbind m f) g s = mbind m (fun x => mbind (f x) g) s.
Proof. unfold mbind. destruct (m s) as [[a s1]|]; reflexivity. Qed.

Lemma realloc_fail_bind {B} s p m r (k : N -> M B) :
  oracle s = false :: r -> mbind (realloc p m) k s = k 0%N (set_oracle s r).
Proof. intros H. unfold realloc, alloc_ok, mbind. cbv beta. rewrite H. reflexivity. Qed.

Lemma realloc_ok_bind {B} s p m c (k : N -> M B) :
  hd true (oracle s) = true -> p <> 0%N -> bufs s !! p = Some c ->
  mbind (realloc p m) k s =
  k (brk s) (set_bufs (set_brk (alloc_next s) (brk s + 1))
               (<[brk s := take (N.to_nat m) (c ++ repeat Byte.x00 (N.to_nat m))]>
                  (delete p (bufs s)))).
Proof.
  intros Ho Hp Hc. unfold realloc, alloc_ok, alloc_next, fresh, modify, mret, mbind. cbv beta.
  destruct (oracle s) as [|b r] eqn:E.
  - destruct (p =? 0)%N eqn:Ep; [apply N.eqb_eq in Ep; congruence|]. simpl. rewrite Hc. reflexivity.
  - simpl in Ho. subst b. simpl.
    destruct (p =? 0)%N eqn:Ep; [apply N.eqb_eq in Ep; congruence|]. simpl. rewrite Hc. reflexivity.
Qed.

Lemma write_realloc_fail (s : state) h e n buf r :
    0 <= h < MAX_FILES ->
    fh s !! Z.to_nat h = Some e -> fh_file e <> 0%N -> fh_dir e = 0 ->
    files s !! fh_file e = Some n -> openfor n = OPENFOR_WRITE ->
    (fh_ptr e + N.of_nat (length buf) < 2 ^ 31 - 4096)%N ->
    (datasize n < fh_ptr e + N.of_nat (length buf))%N ->
    oracle s = false :: r ->
    ramdisk_write h buf s = Some (-1, set_oracle s r).
Proof.
  intros Hh He Hf Hd Hn Hw Hr Hnf Ho.
  unfold ramdisk_write. cbv zeta.
  rewrite (file_handle_bind _ h e) by assumption.
  rewrite (get_file_bind _ _ n) by assumption.
  rewrite Hw. simpl.
  rewrite (u32_small (fh_ptr e + _)) by lia.
  destruct (datasize n <? fh_ptr e + N.of_nat (length buf))%N eqn:E; [|apply N.ltb_ge in E; lia].
  rewrite bind_assoc. rewrite (realloc_fail_bind _ _ _ r) by exact Ho. reflexivity.
Qed.

Lemma files_alloc_next s : files (alloc_next s) = files s.
Proof. unfold alloc_next. destruct (oracle s); reflexivity. Qed.
Lemma bufs_alloc_next s : bufs (alloc_next s) = bufs s.
Proof. unfold alloc_next. destruct (oracle s); reflexivity. Qed.
Lemma fh_alloc_next s : fh (alloc_next s) = fh s.
Proof. unfold alloc_next. destruct (oracle s); reflexivity. Qed.

Lemma write_realloc_ok (s : state) h e n c buf :
    0 <= h < MAX_FILES ->
    fh s !! Z.to_nat h = Some e -> fh_file e <> 0%N -> fh_dir e = 0 ->
    files s !! fh_file e = Some n -> openfor n = OPENFOR_WRITE ->
    data n <> 0%N -> bufs s !! data n = Some c -> brk s <> 0%N ->
    (fh_ptr e + N.of_nat (length buf) < 2 ^ 31 - 4096)%N ->
    (datasize n < fh_ptr e + N.of_nat (length buf))%N ->
    hd true (oracle s) = true ->
    exists s', ramdisk_write h buf s = Some (Z.of_nat (length buf), s') /\
      fh s' !! Z.to_nat h = Some (with_ptr e (fh_ptr e + N.of_nat (length buf))) /\
      option_map size (files s' !! fh_file e) = Some (N.max (size n) (fh_ptr e + N.of_nat (length buf))) /\
      option_map data (files s' !! fh_file e) = Some (brk s) /\
      option_map datasize (files s' !! fh_file e) = Some (fh_ptr e + N.of_nat (length buf) + 4096)%N /\
      bufs s' !! brk s = Some (wrote (take (N.to_nat (fh_ptr e + N.of_nat (length buf) + 4096))
                                        (c ++ repeat Byte.x00 (N.to_nat (fh_ptr e + N.of_nat (length buf) + 4096))))
                                     (fh_ptr e) buf).
Proof.
  intros Hh He Hf Hd Hn Hw Hp0 Hc Hb Hr Hnf Ho.
  assert (Hlt : (Z.to_nat h < length (fh s))%nat) by (eapply lookup_lt_Some; exact He).
  set (m := (fh_ptr e + N.of_nat (length buf) + 4096)%N).
  set (c' := take (N.to_nat m) (c ++ repeat Byte.x00 (N.to_nat m))).
  assert (Hc' : N.of_nat (length c') = m).
  { unfold c'. rewrite length_take, length_app, repeat_length. lia. }
  unfold ramdisk_write. cbv zeta.
  rewrite (file_handle_bind _ h e) by assumption.
  rewrite (get_file_bind _ _ n) by assumption.
  rewrite Hw. simpl.
  rewrite (u32_small (fh_ptr e + _)) by lia.
  rewrite (u32_small (fh_ptr e + _ + 4096)) by lia. fold m.
  destruct (datasize n <? fh_ptr e + N.of_nat (length buf))%N eqn:E; [|apply N.ltb_ge in E; lia].
  rewrite bind_assoc, (realloc_ok_bind _ _ _ c) by assumption. fold c'.
  destruct (brk s =? 0)%N eqn:Eb; [apply N.eqb_eq in Eb; congruence|].
  rewrite bind_assoc, (update_file_bind _ _ n)
    by (simpl; rewrite files_alloc_next; exact Hn).
  rewrite mret_bind. simpl.
  rewrite (get_file_bind _ _ (with_datasize (with_data n (brk s)) m))
    by (simpl; apply lookup_insert_eq).
  rewrite (memcpy_into_bind _ _ _ _ c') by (simpl; first [apply lookup_insert_eq | lia]).
  rewrite (update_fh_bind _ h e) by (simpl; rewrite ?fh_alloc_next; try assumption; lia).
  rewrite (u32_small (fh_ptr e + _)) by lia.
  rewrite (get_fh_bind _ h (with_ptr e (fh_ptr e + N.of_nat (length buf))))
    by (try lia; simpl; apply list_lookup_insert_eq; rewrite fh_alloc_next; exact Hlt).
  simpl fh_ptr.
  rewrite to_s32_small, nat_N_Z by lia.
  change (size (with_datasize (with_data n (brk s)) m)) with (size n).
  destruct (size n <? fh_ptr e + N.of_nat (length buf))%N eqn:Es.
  - rewrite (update_file_bind _ _ (with_datasize (with_data n (brk s)) m))
      by (simpl; apply lookup_insert_eq).
    eexists. split; [reflexivity|].
    simpl. rewrite list_lookup_insert_eq by (rewrite fh_alloc_next; exact Hlt).
    rewrite !lookup_insert_eq. simpl. apply N.ltb_lt in Es.
    split; [reflexivity|]. split; [f_equal; lia|].
    split; [reflexivity|]. split; [reflexivity|].
    first [reflexivity | apply lookup_insert_eq].
  - rewrite mret_bind. eexists. split; [reflexivity|].
    simpl. rewrite list_lookup_insert_eq by (rewrite fh_alloc_next; exact Hlt).
    rewrite lookup_insert_eq. simpl. apply N.ltb_ge in Es.
    split; [reflexivity|]. split; [f_equal; lia|].
    split; [reflexivity|]. split; [reflexivity|].
    first [reflexivity | apply lookup_insert_eq].
Qed.

Lemma write_not_writing (s : state) h e n buf :
    0 <= h < MAX_FILES ->
    fh s !! Z.to_nat h = Some e -> fh_file e <> 0%N -> fh_dir e = 0 ->
    files s !! fh_file e = Some n -> openfor n <> OPENFOR_WRITE ->
    ramdisk_write h buf s = Some (-1, s).
Proof.
  intros Hh He Hf Hd Hn Hw.
  unfold ramdisk_write. cbv zeta.
  rewrite (file_handle_bind _ h e) by assumption.
  rewrite (get_file_bind _ _ n) by assumption.
  destruct (openfor n =? OPENFOR_WRITE) eqn:E; [apply Z.eqb_eq in E; congruence|].
  reflexivity.
Qed.

Lemma write_bad_handle (s : state) h buf :
    (MAX_FILES <= h \/
     (0 <= h /\ exists e, fh s !! Z.to_nat h = Some e /\ (fh_file e = 0%N \/ fh_dir e <> 0))) ->
    ramdisk_write h buf s = Some (-1, s).
Proof.
  intros Hb. unfold ramdisk_write. cbv zeta. unfold file_handle.
  destruct (h <? MAX_FILES) eqn:E1.
  - apply Z.ltb_lt in E1. destruct Hb as [Hb|[Hh [e [He Hfe]]]]; [lia|].
    rewrite bind_assoc, (get_fh_bind _ h e) by assumption.
    destruct Hfe as [Hfe|Hfe].
    + rewrite Hfe. reflexivity.
    + destruct (fh_dir e =? 0) eqn:E; [apply Z.eqb_eq in E; congruence|].
      rewrite andb_false_r. reflexivity.
  - reflexivity.
Qed.

(** ** Free handle slots and opens that fail on a busy node *)

Lemma scan_free_spec t fd k :
  (scan_free t fd k < fd + k)%nat ->
  exists e, t !! scan_free t fd k = Some e /\ fh_file e = 0%N.
Proof.
  revert fd. induction k as [|k IH]; intros fd H; simpl in *; [lia|].
  destruct (t !! fd) as [e|] eqn:E.
  - destruct (fh_file e =? 0)%N eqn:E0.
    + exists e. split; [exact E|]. apply N.eqb_eq, E0.
    + apply IH. lia.
  - apply IH. lia.
Qed.

Lemma find_free_fd_spec t :
  find_free_fd t < MAX_FILES ->
  exists e, t !! Z.to_nat (find_free_fd t) = Some e /\ fh_file e = 0%N.
Proof.
  unfold find_free_fd, MAX_FILES. intros H. rewrite Nat2Z.id.
  apply scan_free_spec. unfold FS_RAMDISK_MAX_FILES in *. lia.
Qed.

Lemma find_free_fd_nonneg t : 0 <= find_free_fd t.
Proof. unfold find_free_fd. lia. Qed.

Lemma gets_bind {A B} (f : state -> A) (k : A -> M B) s : mbind (gets f) k s = k (f s) s.
Proof. reflexivity. Qed.

Lemma set_fh_same s : set_fh s (fh s) = s.
Proof. destruct s; reflexivity. Qed.

Lemma with_file_same e : fh_file e = 0%N -> with_file e 0 = e.
Proof. destruct e; simpl; intros H; subst; reflexivity. Qed.

Lemma free_slot_props (t : list fh_t) (fd : nat) e0 x :
  t !! fd = Some e0 -> fh_file e0 = 0%N -> fh_file x = 0%N ->
  (forall i e, t !! i = Some e -> fh_file e <> 0%N -> <[fd := x]> t !! i = Some e) /\
  (forall i : nat, option_map fh_file (<[fd := x]> t !! i) = option_map fh_file (t !! i)).
Proof.
  intros He0 H0 Hx. split.
  - intros i e He Hne. rewrite list_lookup_insert_ne; [exact He|].
    intros ->. rewrite He0 in He. injection He as <-. contradiction.
  - intros i. destruct (decide (fd = i)) as [<-|Hne].
    + rewrite list_lookup_insert_eq by (eapply lookup_lt_Some; exact He0).
      rewrite He0. simpl. rewrite Hx, H0. reflexivity.
    + rewrite list_lookup_insert_ne by exact Hne. reflexivity.
Qed.

Lemma open_busy (s : state) p f n :
    strip_slash p <> EmptyString ->
    ramdisk_find_path s (rootdir s) (strip_slash p) false = f -> f <> 0%N ->
    files s !! f = Some n ->
    openfor n = OPENFOR_READ \/ openfor n = OPENFOR_WRITE ->
    length (fh s) = FS_RAMDISK_MAX_FILES ->
    exists t, ramdisk_open p (Z.lor O_WRONLY O_TRUNC) s = Some (0, set_fh s t) /\
      (forall i e, fh s !! i = Some e -> fh_file e <> 0%N -> t !! i = Some e) /\
      (forall i, option_map fh_file (t !! i) = option_map fh_file (fh s !! i)).
Proof.
  intros Hp Hf Hf0 Hn Ho Hl.
  unfold ramdisk_open. cbv zeta.
  change (Z.land (Z.lor O_WRONLY O_TRUNC) O_DIR =? 0) with true.
  change (Z.land (Z.lor O_WRONLY O_TRUNC) O_MODE_MASK) with 1.
  simpl negb. rewrite andb_false_l.
  unfold open_lookup. cbv zeta.
  change (Z.land (Z.lor O_WRONLY O_TRUNC) O_DIR =? 0) with true.
  change (Z.land (Z.lor O_WRONLY O_TRUNC) O_MODE_MASK) with 1.
  simpl negb.
  destruct (String.eqb (strip_slash p) EmptyString) eqn:Es; [apply String.eqb_eq in Es; congruence|].
  rewrite bind_assoc, gets_bind, Hf.
  destruct (f =? 0)%N eqn:E0; [apply N.eqb_eq in E0; congruence|].
  rewrite mret_bind, E0, (get_file_bind _ _ n) by exact Hn.
  destruct (is_dir n).
  { exists (fh s). rewrite set_fh_same. split; [reflexivity|]. split; [|reflexivity].
    intros i e He _. exact He. }
  rewrite andb_false_l, gets_bind.
  destruct (find_free_fd (fh s) >=? MAX_FILES) eqn:Efd.
  { exists (fh s). rewrite set_fh_same. split; [reflexivity|]. split; [|reflexivity].
    intros i e He _. exact He. }
  rewrite Z.geb_leb in Efd. apply Z.leb_gt in Efd.
  destruct (find_free_fd_spec (fh s) Efd) as [e0 [He0 Hz]].
  pose proof (find_free_fd_nonneg (fh s)) as Hnn.
  destruct Ho as [Ho|Ho]; rewrite Ho.
  - change (OPENFOR_READ =? OPENFOR_WRITE) with false. cbv iota.
    unfold open_commit. cbv zeta.
    rewrite bind_assoc, (update_fh_bind _ _ e0) by assumption.
    change (Z.land (Z.lor O_WRONLY O_TRUNC) O_MODE_MASK) with 1.
    change (1 =? O_RDONLY) with false. cbv iota.
    change (negb (Z.land 1 O_RDWR =? 0) || negb (Z.land 1 O_WRONLY =? 0)) with true. cbv iota.
    rewrite bind_assoc, (get_file_bind _ _ n) by exact Hn.
    rewrite Ho. change (OPENFOR_READ =? OPENFOR_READ) with true. cbv iota.
    rewrite mret_bind. simpl negb. cbv iota.
    change (negb false) with true. cbv iota. unfold open_error_out.
    rewrite (update_fh_bind _ _ (with_omode (with_dir (with_file e0 f) (Z.land (Z.lor O_WRONLY O_TRUNC) O_DIR))
                                      (Z.lor O_WRONLY O_TRUNC)))
      by (try assumption; simpl; apply list_lookup_insert_eq; eapply lookup_lt_Some; exact He0).
    eexists. split; [reflexivity|]. simpl. rewrite list_insert_insert_eq.
    apply (free_slot_props _ _ e0); [exact He0|exact Hz|reflexivity].
  - change (OPENFOR_WRITE =? OPENFOR_WRITE) with true. cbv iota.
    unfold open_error_out.
    rewrite (update_fh_bind _ _ e0) by assumption.
    rewrite with_file_same by exact Hz. rewrite list_insert_id by exact He0.
    exists (fh s). rewrite set_fh_same. split; [reflexivity|]. split; [|reflexivity].
    intros i e He _. exact He.
Qed.

Lemma attach_busy (s : state) p obj sz f n :
    strip_slash p <> EmptyString ->
    ramdisk_find_path s (rootdir s) (strip_slash p) false = f -> f <> 0%N ->
    files s !! f = Some n ->
    openfor n = OPENFOR_READ \/ openfor n = OPENFOR_WRITE ->
    length (fh s) = FS_RAMDISK_MAX_FILES ->
    exists t, fs_ramdisk_attach p obj sz s = Some (-1, set_fh s t) /\
      (forall i e, fh s !! i = Some e -> fh_file e <> 0%N -> t !! i = Some e) /\
      (forall i, option_map fh_file (t !! i) = option_map fh_file (fh s !! i)).
Proof.
  intros Hp Hf Hf0 Hn Ho Hl.
  destruct (open_busy s p f n Hp Hf Hf0 Hn Ho Hl) as [t [Hopen Ht]].
  exists t. split; [|exact Ht].
  unfold fs_ramdisk_attach. rewrite (bind_step _ _ _ _ _ Hopen). reflexivity.
Qed.

(** ** stat of a node found by the lookup, and total *)

Lemma stat_found (s : state) path f n :
    path <> EmptyString -> path <> "/"%string ->
    ramdisk_find_path s (rootdir s) path false = f -> f <> 0%N ->
    files s !! f = Some n ->
    option_map (fun r => option_map st_size (snd (fst r))) (ramdisk_stat path s) =
      Some (Some (if is_dir n then -1 else to_s32 (datasize n))).
Proof.
  intros Hp1 Hp2 Hf Hf0 Hn. unfold ramdisk_stat. cbv zeta.
  assert (Hc : (Nat.eqb (String.length path) 0 || (Nat.eqb (String.length path) 1 && String.eqb path "/")) = false).
  { destruct path as [|c r]; [congruence|].
    destruct (String.eqb (String c r) "/") eqn:E; [apply String.eqb_eq in E; congruence|].
    rewrite andb_false_r. reflexivity. }
  rewrite Hc, gets_bind, Hf.
  destruct (f =? 0)%N eqn:E0; [apply N.eqb_eq in E0; congruence|].
  rewrite (get_file_bind _ _ n) by exact Hn. reflexivity.
Qed.

Lemma total_valid (s : state) h e n :
    0 <= h < MAX_FILES -> fh s !! Z.to_nat h = Some e -> fh_file e <> 0%N -> fh_dir e = 0 ->
    files s !! fh_file e = Some n ->
    ramdisk_total h s = Some (size n, s).
Proof.
  intros Hh He Hf Hd Hn. unfold ramdisk_total.
  rewrite (file_handle_bind _ h e) by assumption.
  rewrite (get_file_bind _ _ n) by exact Hn. reflexivity.
Qed.

(** ** Creating a file from open *)

Lemma strncasecmp_eq_refl x n : strncasecmp_eq x x n = true.
Proof.
  revert n. induction x as [|c r IH]; intros [|n]; simpl; try reflexivity.
  rewrite Ascii.eqb_refl. apply IH.
Qed.

Lemma name_matches_refl x : name_matches x x = true.
Proof. unfold name_matches. rewrite Nat.eqb_refl, strncasecmp_eq_refl. reflexivity. Qed.

Lemma split_slashes_noslash fn : split_last_slash fn = None -> split_slashes fn = ([], fn).
Proof.
  induction fn as [|c r IH]; simpl; [reflexivity|].
  destruct (split_last_slash r) as [[p q]|]; [discriminate|].
  rewrite IH by reflexivity.
  destruct (Ascii.eqb c "/"%char); [discriminate|reflexivity].
Qed.

Lemma scan_free_full t fd k :
  (forall i, (fd <= i < fd + k)%nat -> exists e, t !! i = Some e /\ fh_file e <> 0%N) ->
  scan_free t fd k = (fd + k)%nat.
Proof.
  revert fd. induction k as [|k IH]; intros fd H; simpl; [lia|].
  destruct (H fd ltac:(lia)) as [e [He Hf]]. rewrite He.
  destruct (fh_file e =? 0)%N eqn:E; [apply N.eqb_eq in E; contradiction|].
  rewrite IH; [lia|]. intros i Hi. apply H. lia.
Qed.

Lemma find_free_fd_full t :
  (forall i, (1 <= i < FS_RAMDISK_MAX_FILES)%nat -> exists e, t !! i = Some e /\ fh_file e <> 0%N) ->
  find_free_fd t = MAX_FILES.
Proof.
  intros H. unfold find_free_fd. rewrite scan_free_full.
  - reflexivity.
  - intros i Hi. apply H. unfold FS_RAMDISK_MAX_FILES in *. lia.
Qed.

Lemma alloc_ok_bind {B} s (k : bool -> M B) : oracle s = [] -> mbind alloc_ok k s = k true s.
Proof. intros H. unfold mbind, alloc_ok. rewrite H. reflexivity. Qed.

Lemma fresh_bind {B} s (k : N -> M B) : mbind fresh k s = k (brk s) (set_brk s (brk s + 1)%N).
Proof. reflexivity. Qed.

Lemma modify_bind {B} s f (k : unit -> M B) : mbind (modify f) k s = k tt (f s).
Proof. reflexivity. Qed.

Lemma list_insert_head_bind {B} s d f l (k : unit -> M B) :
  dirs s !! d = Some l ->
  mbind (list_insert_head d f) k s = k tt (set_dirs s (<[d := f :: l]> (dirs s))).
Proof. intros H. unfold mbind, list_insert_head. rewrite H. reflexivity. Qed.

Lemma create_file_root (s : state) fn L :
    split_last_slash fn = None -> oracle s = [] -> brk s <> 0%N ->
    dirs s !! rootdir s = Some L ->
    ramdisk_create_file (rootdir s) fn false s =
      Some (brk s,
            set_dirs (set_files (set_bufs (set_brk s (brk s + 1 + 1)%N)
                                   (<[(brk s + 1)%N := repeat Byte.x00 1024]> (bufs s)))
                        (<[brk s := mk_rd_file fn 0 STAT_TYPE_FILE OPENFOR_NOTHING 0 (brk s + 1) 1024]>
                           (files s)))
              (<[rootdir s := brk s :: L]> (dirs s))).
Proof.
  intros Hn Ho Hb Hd. unfold ramdisk_create_file, ramdisk_get_parent. rewrite Hn.
  rewrite mret_bind. unfold malloc_node.
  rewrite bind_assoc, alloc_ok_bind by exact Ho. rewrite fresh_bind.
  destruct (brk s =? 0)%N eqn:E; [apply N.eqb_eq in E; contradiction|].
  unfold strdup. rewrite alloc_ok_bind by exact Ho. cbn [negb]. cbv iota.
  unfold malloc. rewrite bind_assoc, alloc_ok_bind by exact Ho.
  rewrite bind_assoc, fresh_bind. rewrite bind_assoc, modify_bind, mret_bind.
  change (brk (set_brk s (brk s + 1))) with (brk s + 1)%N.
  destruct (brk s + 1 =? 0)%N eqn:E1; [apply N.eqb_eq in E1; lia|].
  unfold put_file. rewrite modify_bind.
  rewrite (list_insert_head_bind _ _ _ L) by exact Hd.
  reflexivity.
Qed.

Lemma find_path_leaf (s : state) parent p :
  strip_slash p <> EmptyString -> split_last_slash (strip_slash p) = None ->
  ramdisk_find_path s parent p false =
    (let f := ramdisk_find s parent (strip_slash p) in
     match files s !! f with Some n => if is_dir n then 0%N else f | None => 0%N end).
Proof.
  intros Hne Hsl. unfold ramdisk_find_path.
  assert (Hsp : exists mids, split_slashes p = (mids, strip_slash p) /\
                find_path_walk s parent 0%N mids = Some (parent, 0%N)).
  { destruct p as [|c r]; [contradiction|]. unfold strip_slash in Hne, Hsl |- *.
    destruct (Ascii.eqb c "/"%char) eqn:Ec.
    - exists [EmptyString]. split; [|reflexivity].
      simpl. rewrite (split_slashes_noslash r Hsl), Ec. reflexivity.
    - exists []. split; [|reflexivity].
      rewrite (split_slashes_noslash (String c r) Hsl). reflexivity. }
  destruct Hsp as [mids [Hs Hw]]. rewrite Hs, Hw.
  destruct (String.eqb (strip_slash p) EmptyString) eqn:E; [apply String.eqb_eq in E; contradiction|].
  simpl. destruct (files s !! ramdisk_find s parent (strip_slash p)); [|reflexivity].
  rewrite orb_false_r. reflexivity.
Qed.

Lemma open_full_creates (s : state) p mode L :
    strip_slash p <> EmptyString -> split_last_slash (strip_slash p) = None ->
    ramdisk_find_path s (rootdir s) (strip_slash p) false = 0%N ->
    Z.land mode O_DIR = 0 -> Z.land mode O_MODE_MASK <> O_RDONLY ->
    (forall i, (1 <= i < FS_RAMDISK_MAX_FILES)%nat ->
       exists e, fh s !! i = Some e /\ fh_file e <> 0%N) ->
    dirs s !! rootdir s = Some L -> oracle s = [] -> brk s <> 0%N ->
    ramdisk_open p mode s =
      Some (0, set_dirs (set_files (set_bufs (set_brk s (brk s + 1 + 1)%N)
                                   (<[(brk s + 1)%N := repeat Byte.x00 1024]> (bufs s)))
                        (<[brk s := mk_rd_file (strip_slash p) 0 STAT_TYPE_FILE OPENFOR_NOTHING 0
                                      (brk s + 1) 1024]> (files s)))
              (<[rootdir s := brk s :: L]> (dirs s))).
Proof.
  intros Hne Hsl Hf Hdir Hmm Hocc Hd Ho Hb.
  unfold ramdisk_open. cbv zeta. rewrite Hdir. cbn [Z.eqb negb andb]. cbv iota.
  unfold open_lookup. cbv zeta. rewrite Hdir. cbn [Z.eqb negb andb].
  destruct (String.eqb (strip_slash p) EmptyString) eqn:E; [apply String.eqb_eq in E; contradiction|].
  rewrite bind_assoc, gets_bind, Hf. cbn [N.eqb]. cbv iota.
  destruct (Z.land mode O_MODE_MASK =? O_RDONLY) eqn:Em; [apply Z.eqb_eq in Em; contradiction|].
  cbn [negb andb]. cbv iota.
  rewrite bind_assoc, gets_bind.
  rewrite (bind_step _ _ _ _ _ (create_file_root s (strip_slash p) L Hsl Ho Hb Hd)).
  destruct (brk s =? 0)%N eqn:Eb; [apply N.eqb_eq in Eb; contradiction|].
  rewrite (get_file_bind _ _ (mk_rd_file (strip_slash p) 0 STAT_TYPE_FILE OPENFOR_NOTHING 0 (brk s + 1) 1024))
    by (simpl; apply lookup_insert_eq).
  cbn [is_dir type ftype_eqb andb]. cbv iota.
  rewrite gets_bind. change (find_free_fd (fh _)) with (find_free_fd (fh s)).
  rewrite (find_free_fd_full (fh s) Hocc). reflexivity.
Qed.

Lemma strip_slash_noslash x : split_last_slash x = None -> strip_slash x = x.
Proof.
  destruct x as [|c r]; [reflexivity|]. simpl.
  destruct (split_last_slash r) as [[a b]|]; [discriminate|].
  destruct (Ascii.eqb c "/"%char); [discriminate|reflexivity].
Qed.

Lemma slots_occupied_spec t :
  slots_occupied t = true ->
  forall i, (1 <= i < FS_RAMDISK_MAX_FILES)%nat -> exists e, t !! i = Some e /\ fh_file e <> 0%N.
Proof.
  unfold slots_occupied. intros H i Hi.
  rewrite forallb_forall in H. specialize (H i).
  destruct (t !! i) as [e|].
  - exists e. split; [reflexivity|].
    assert (Hin : In i (seq 1 (FS_RAMDISK_MAX_FILES - 1))) by (apply in_seq; lia).
    specialize (H Hin). apply negb_true_iff, N.eqb_neq in H. exact H.
  - exfalso. assert (Hin : In i (seq 1 (FS_RAMDISK_MAX_FILES - 1))) by (apply in_seq; lia).
    specialize (H Hin). discriminate.
Qed.

(** ** Seeking and reading at the end of a file *)

Lemma seek_spec (s : state) h e n offset whence :
    0 <= h < MAX_FILES ->
    fh s !! Z.to_nat h = Some e -> fh_file e <> 0%N -> fh_dir e = 0 ->
    files s !! fh_file e = Some n ->
    (size n < 2 ^ 31)%N -> (fh_ptr e < 2 ^ 31)%N -> -2^31 <= offset < 2 ^ 31 ->
    whence = SEEK_SET \/ whence = SEEK_CUR \/ whence = SEEK_END ->
    (seek_target e n offset whence < 0 ->
       ramdisk_seek h offset whence s = Some (-1, set_errno s EINVAL)) /\
    (0 <= seek_target e n offset whence ->
       let p := Z.min (seek_target e n offset whence) (Z.of_N (size n)) in
       ramdisk_seek h offset whence s =
         Some (p, set_fh s (<[Z.to_nat h := with_ptr e (Z.to_N p)]> (fh s)))).
Proof.
  intros Hh He Hf Hd Hn Hsz Hp Ho Hw.
  unfold ramdisk_seek, file_handle, get_fh, get_file, mbind, mret, set_errno_m, modify, update_fh, put_fh.
  destruct (h <? MAX_FILES) eqn:E1; [|apply Z.ltb_ge in E1; lia].
  destruct (h <? 0) eqn:E2; [apply Z.ltb_lt in E2; lia|].
  rewrite He.
  destruct (fh_file e =? 0)%N eqn:E3; [apply N.eqb_eq in E3; congruence|].
  rewrite Hd. simpl. rewrite Hn.
  assert (Hneg : forall z, 0 < z <= 2 ^ 31 -> of_s32 z = Z.to_N z)
    by (intros z Hz; apply of_s32_of_N; lia).
  split; intros Ht.
  - destruct Hw as [Hw|[Hw|Hw]]; subst whence; unfold seek_target in Ht; simpl in Ht |- *.
    + destruct (offset <? 0) eqn:E; [reflexivity|apply Z.ltb_ge in E; lia].
    + destruct (offset <? 0) eqn:E; [|apply Z.ltb_ge in E; lia].
      rewrite Hneg by lia.
      destruct (fh_ptr e <? Z.to_N (- offset))%N eqn:E'; [reflexivity|].
      apply N.ltb_ge in E'. lia.
    + destruct (offset <? 0) eqn:E; [|apply Z.ltb_ge in E; lia].
      rewrite Hneg by lia.
      destruct (size n <? Z.to_N (- offset))%N eqn:E'; [reflexivity|].
      apply N.ltb_ge in E'. lia.
  - match goal with |- match ?X with _ => _ end _ = _ =>
      assert (Hq : X = Some (Z.to_N (seek_target e n offset whence))) end.
    { destruct Hw as [Hw|[Hw|Hw]]; subst whence; unfold seek_target in Ht |- *; simpl in Ht |- *.
      - destruct (offset <? 0) eqn:E; [apply Z.ltb_lt in E; lia|].
        rewrite of_s32_of_N by lia. reflexivity.
      - destruct ((offset <? 0) && (fh_ptr e <? of_s32 (- offset))%N) eqn:E.
        + apply andb_true_iff in E as [E E']. apply Z.ltb_lt in E.
          rewrite Hneg in E' by lia. apply N.ltb_lt in E'. lia.
        + f_equal. apply N2Z.inj. rewrite u32_add_s32, Z2N.id by lia.
          apply Z.mod_small. lia.
      - destruct ((offset <? 0) && (size n <? of_s32 (- offset))%N) eqn:E.
        + apply andb_true_iff in E as [E E']. apply Z.ltb_lt in E.
          rewrite Hneg in E' by lia. apply N.ltb_lt in E'. lia.
        + f_equal. apply N2Z.inj. rewrite u32_add_s32, Z2N.id by lia.
          apply Z.mod_small. lia. }
    rewrite Hq. unfold get_fh, mbind, modify. rewrite E2, He.
    assert (Hc : (if (size n <? Z.to_N (seek_target e n offset whence))%N then size n
                  else Z.to_N (seek_target e n offset whence))
                 = Z.to_N (Z.min (seek_target e n offset whence) (Z.of_N (size n)))).
    { destruct (size n <? Z.to_N (seek_target e n offset whence))%N eqn:E.
      - apply N.ltb_lt in E. rewrite Z.min_r by lia. rewrite N2Z.id. reflexivity.
      - apply N.ltb_ge in E. rewrite Z.min_l by lia. reflexivity. }
    rewrite Hc. rewrite to_s32_small.
    + rewrite Z2N.id by lia. reflexivity.
    + lia.
Qed.

Lemma read_at_eof (s : state) h e n k :
    0 <= h < MAX_FILES ->
    fh s !! Z.to_nat h = Some e -> fh_file e <> 0%N -> fh_dir e = 0 ->
    files s !! fh_file e = Some n -> fh_ptr e = size n ->
    (size n < 2 ^ 31)%N -> (k < 2 ^ 31)%N ->
    option_map fst (ramdisk_read h k s) = Some (0, []).
Proof.
  intros Hh He Hf Hd Hn Hp Hsz Hk.
  unfold ramdisk_read, file_handle, get_fh, get_file, mbind, mret, update_fh, put_fh.
  destruct (h <? MAX_FILES) eqn:E1; [|apply Z.ltb_ge in E1; lia].
  destruct (h <? 0) eqn:E2; [apply Z.ltb_lt in E2; lia|].
  rewrite He.
  destruct (fh_file e =? 0)%N eqn:E3; [apply N.eqb_eq in E3; congruence|].
  rewrite Hd. simpl. rewrite Hn. rewrite Hp.
  assert (Hb : (if (size n <? u32 (size n + k))%N then u32sub (size n) (size n) else k) = 0%N
               \/ k = 0%N).
  { destruct (size n <? u32 (size n + k))%N eqn:E.
    - left. unfold u32sub. rewrite (u32_small (size n)) by lia.
      unfold u32. replace (size n + (2 ^ 32 - size n))%N with (2 ^ 32)%N by lia.
      apply N.Div0.mod_same.
    - right. apply N.ltb_ge in E. rewrite u32_small in E by lia. lia. }
  assert (Hb' : (if (size n <? u32 (size n + k))%N then u32sub (size n) (size n) else k) = 0%N).
  { destruct Hb as [Hb|Hb]; [exact Hb|]. subst k.
    destruct (size n <? u32 (size n + 0))%N eqn:E; [|reflexivity].
    rewrite N.add_0_r, u32_small in E by lia. apply N.ltb_lt in E. lia. }
  rewrite Hb'. simpl. unfold get_fh, mbind. rewrite E2, He. reflexivity.
Qed.

(** ** C5: seek clamps the cursor to the logical size *)

(** C5: on a valid file handle (sizes and cursor within [int] range), seek
    with [SEEK_SET], [SEEK_CUR] or [SEEK_END] fails with -1 and [EINVAL]
    when the target (offset, cursor + offset, size + offset) is negative;
    otherwise it sets the cursor to the target clamped to the logical size
    and returns it, leaving the nodes unchanged; after a seek at or past the
    end, a read of any [int]-sized count returns 0 bytes. *)
Theorem C5_seek_clamps_to_size (s : state) h e n offset whence :
    0 <= h < MAX_FILES ->
    fh s !! Z.to_nat h = Some e -> fh_file e <> 0%N -> fh_dir e = 0 ->
    files s !! fh_file e = Some n ->
    (size n < 2 ^ 31)%N -> (fh_ptr e < 2 ^ 31)%N -> -2^31 <= offset < 2 ^ 31 ->
    whence = SEEK_SET \/ whence = SEEK_CUR \/ whence = SEEK_END ->
    (seek_target e n offset whence < 0 ->
       ramdisk_seek h offset whence s = Some (-1, set_errno s EINVAL)) /\
    (0 <= seek_target e n offset whence ->
       exists s', ramdisk_seek h offset whence s =
                    Some (Z.min (seek_target e n offset whence) (Z.of_N (size n)), s') /\
         fh s' !! Z.to_nat h =
           Some (with_ptr e (Z.to_N (Z.min (seek_target e n offset whence) (Z.of_N (size n))))) /\
         files s' = files s /\
         (Z.of_N (size n) <= seek_target e n offset whence ->
            forall k, (k < 2 ^ 31)%N -> option_map fst (ramdisk_read h k s') = Some (0, []))).
Proof.
  intros Hh He Hf Hd Hn Hsz Hp Ho Hw.
  destruct (seek_spec s h e n offset whence Hh He Hf Hd Hn Hsz Hp Ho Hw) as [Hlt Hge].
  split; [exact Hlt|]. intros Ht.
  eexists; split; [apply Hge; exact Ht|].
  assert (Hi : fh (set_fh s (<[Z.to_nat h := with_ptr e
                 (Z.to_N (Z.min (seek_target e n offset whence) (Z.of_N (size n))))]> (fh s)))
               !! Z.to_nat h = Some (with_ptr e
                 (Z.to_N (Z.min (seek_target e n offset whence) (Z.of_N (size n)))))).
  { simpl. apply list_lookup_insert_eq. eapply lookup_lt_Some; exact He. }
  split; [exact Hi|]. split; [reflexivity|].
  intros Hend k Hk.
  eapply read_at_eof; [exact Hh|exact Hi|exact Hf|exact Hd|exact Hn| |exact Hsz|exact Hk].
  simpl. rewrite Z.min_r by exact Hend. apply N2Z.id.
Qed.


Lemma C5_seek_clamps_to_size_witness :
  let s := state_of c5_run in
  let e := fh_at s 1 in
  let n := file_at s (fh_file e) in
  0 <= seek_target e n 200 SEEK_SET /\
  exists s', ramdisk_seek 1 200 SEEK_SET s = Some (100, s') /\
    (forall k, (k < 2 ^ 31)%N -> option_map fst (ramdisk_read 1 k s') = Some (0, [])).
Proof.
  intros s e n.
  assert (H : 0 <= seek_target e n 200 SEEK_SET) by (vm_compute; discriminate).
  split; [exact H|].
  destruct (C5_seek_clamps_to_size s 1 e n 200 SEEK_SET) as [_ Hge];
    [vm_compute; split; [discriminate|reflexivity] | vm_compute; reflexivity | vm_compute; discriminate
    | vm_compute; reflexivity | vm_compute; reflexivity | vm_compute; reflexivity
    | vm_compute; reflexivity | vm_compute; split; [discriminate|reflexivity] | left; reflexivity |].
  destruct (Hge H) as [s' [Hs [_ [_ Hr]]]].
  exists s'. split.
  - rewrite Hs. vm_compute. reflexivity.
  - apply Hr. vm_compute. discriminate.
Defined.

(** ** C3: write *)

(** C3: [ramdisk_write h buf] with [n = length buf] returns -1 and leaves
    the state unchanged on an invalid handle and on a node not open for
    writing. On a valid file handle of a node open for writing (cursor + n
    within [int] range): if cursor + n fits in the capacity, it copies the
    bytes at the cursor, advances the cursor by n, raises the logical size
    to the cursor and returns n; otherwise it reallocates the block to
    cursor + n + 4096 bytes. If that allocation fails it returns -1 and
    only the allocator's state has changed (nodes, blocks and handles are
    untouched); if it succeeds the node takes the new block and capacity,
    the old contents (padded) receive the bytes at the cursor, the cursor
    and size move as above, and n is returned. *)
Theorem C3_write_spec (s : state) h buf :
  ((MAX_FILES <= h \/
    (0 <= h /\ exists e, fh s !! Z.to_nat h = Some e /\ (fh_file e = 0%N \/ fh_dir e <> 0))) ->
   ramdisk_write h buf s = Some (-1, s)) /\
  (forall e n,
     0 <= h < MAX_FILES ->
     fh s !! Z.to_nat h = Some e -> fh_file e <> 0%N -> fh_dir e = 0 ->
     files s !! fh_file e = Some n ->
     (openfor n <> OPENFOR_WRITE -> ramdisk_write h buf s = Some (-1, s)) /\
     (openfor n = OPENFOR_WRITE ->
      (fh_ptr e + N.of_nat (length buf) < 2 ^ 31 - 4096)%N ->
      (forall c, bufs s !! data n = Some c -> N.of_nat (length c) = datasize n ->
         (fh_ptr e + N.of_nat (length buf) <= datasize n)%N ->
         exists s', ramdisk_write h buf s = Some (Z.of_nat (length buf), s') /\
           fh s' !! Z.to_nat h = Some (with_ptr e (fh_ptr e + N.of_nat (length buf))) /\
           option_map size (files s' !! fh_file e) =
             Some (N.max (size n) (fh_ptr e + N.of_nat (length buf))) /\
           option_map data (files s' !! fh_file e) = Some (data n) /\
           option_map datasize (files s' !! fh_file e) = Some (datasize n) /\
           bufs s' !! data n = Some (wrote c (fh_ptr e) buf)) /\
      ((datasize n < fh_ptr e + N.of_nat (length buf))%N ->
       forall r, oracle s = false :: r ->
       ramdisk_write h buf s = Some (-1, set_oracle s r)) /\
      (forall c, (datasize n < fh_ptr e + N.of_nat (length buf))%N ->
         data n <> 0%N -> bufs s !! data n = Some c -> brk s <> 0%N ->
         hd true (oracle s) = true ->
         exists s', ramdisk_write h buf s = Some (Z.of_nat (length buf), s') /\
           fh s' !! Z.to_nat h = Some (with_ptr e (fh_ptr e + N.of_nat (length buf))) /\
           option_map size (files s' !! fh_file e) =
             Some (N.max (size n) (fh_ptr e + N.of_nat (length buf))) /\
           option_map data (files s' !! fh_file e) = Some (brk s) /\
           option_map datasize (files s' !! fh_file e) =
             Some (fh_ptr e + N.of_nat (length buf) + 4096)%N /\
           bufs s' !! brk s =
             Some (wrote (take (N.to_nat (fh_ptr e + N.of_nat (length buf) + 4096))
                            (c ++ repeat Byte.x00
                                    (N.to_nat (fh_ptr e + N.of_nat (length buf) + 4096))))
                         (fh_ptr e) buf)))).
Proof.
  split; [apply write_bad_handle|].
  intros e n Hh He Hf Hd Hn. split.
  - intros Hw. eapply write_not_writing; eassumption.
  - intros Hw Hr. split; [|split].
    + intros c Hc Hl Hfit. eapply write_fits; eassumption.
    + intros Hnf r Ho. eapply write_realloc_fail; eassumption.
    + intros c Hnf Hp0 Hc Hb Ho. eapply write_realloc_ok; eassumption.
Qed.

Lemma C3_write_spec_witness :
  let s := state_of c3_run in
  let e := fh_at s 1 in
  let n := file_at s (fh_file e) in
  exists s', ramdisk_write 1 bytes2000 s = Some (2000, s') /\
    option_map datasize (files s' !! fh_file e) = Some 6096%N /\
    option_map size (files s' !! fh_file e) = Some 2000%N.
Proof.
  intros s e n.
  destruct (C3_write_spec s 1 bytes2000) as [_ Hv].
  destruct (Hv e n) as [_ Hw];
    [vm_compute; split; [discriminate|reflexivity] | vm_compute; reflexivity
    | vm_compute; discriminate | vm_compute; reflexivity | vm_compute; reflexivity |].
  destruct Hw as [_ [_ Hok]]; [vm_compute; reflexivity | vm_compute; reflexivity |].
  destruct (Hok (repeat Byte.x00 1024)) as [s' [H1 [_ [H2 [_ [H3 _]]]]]];
    [vm_compute; reflexivity | vm_compute; discriminate | vm_compute; reflexivity
    | vm_compute; discriminate | vm_compute; reflexivity |].
  exists s'. split; [exact H1|]. split.
  - rewrite H3. vm_compute. reflexivity.
  - rewrite H2. vm_compute. reflexivity.
Defined.

(** ** C10: attach on a node that is open *)

(** C10: if the path [p] names a node [f] (found by the lookup of
    [ramdisk_open]) whose open mode is reading or writing, then
    [fs_ramdisk_attach p obj sz] returns -1 and the only change to the
    state is in the handle table, where no slot changes its node: every
    occupied slot is unchanged. The nodes (pointer, capacity, logical
    size), the data blocks (so the caller's block [obj] is neither
    installed nor freed), the directories and the allocator are untouched.
    (The transiently used free slot may keep the mode it was filled with.) *)
Theorem C10_attach_on_open_node_fails (s : state) p obj sz f n :
    strip_slash p <> EmptyString ->
    ramdisk_find_path s (rootdir s) (strip_slash p) false = f -> f <> 0%N ->
    files s !! f = Some n ->
    openfor n = OPENFOR_READ \/ openfor n = OPENFOR_WRITE ->
    length (fh s) = FS_RAMDISK_MAX_FILES ->
    exists s', fs_ramdisk_attach p obj sz s = Some (-1, s') /\
      files s' = files s /\ bufs s' = bufs s /\ dirs s' = dirs s /\
      brk s' = brk s /\ oracle s' = oracle s /\
      root s' = root s /\ rootdir s' = rootdir s /\ errno s' = errno s /\
      (forall i e, fh s !! i = Some e -> fh_file e <> 0%N -> fh s' !! i = Some e) /\
      (forall i, option_map fh_file (fh s' !! i) = option_map fh_file (fh s !! i)).
Proof.
  intros Hp Hf Hf0 Hn Ho Hl.
  destruct (attach_busy s p obj sz f n Hp Hf Hf0 Hn Ho Hl) as [t [Ha [H1 H2]]].
  exists (set_fh s t). split; [exact Ha|].
  repeat (split; [reflexivity|]). split; [exact H1|exact H2].
Qed.

Lemma C10_attach_on_open_node_fails_witness :
  let s := state_of c5_run in
  exists s', fs_ramdisk_attach "f" 7 9 s = Some (-1, s') /\ files s' = files s /\ bufs s' = bufs s.
Proof.
  intros s.
  destruct (C10_attach_on_open_node_fails s "f" 7 9 3 (file_at s 3))
    as [s' [H1 [H2 [H3 _]]]];
    [vm_compute; discriminate | vm_compute; reflexivity | vm_compute; discriminate
    | vm_compute; reflexivity | left; vm_compute; reflexivity | vm_compute; reflexivity |].
  exists s'. split; [exact H1|]. split; [exact H2|exact H3].
Defined.

(** ** C6: the size reported by stat and by total *)

(** C6: [ramdisk_stat] on a path (other than the root's "" and "/") that
    the lookup resolves to a node reports, for a non-directory, the
    capacity [datasize] of its block (when it fits an [int]), and -1 for a
    directory; [ramdisk_total] on a valid file handle returns the node's
    logical size; and stat of the root directory ("" or "/") reports -1. *)
Theorem C6_stat_reports_capacity (s : state) :
  (forall path f n,
    path <> EmptyString -> path <> "/"%string ->
    ramdisk_find_path s (rootdir s) path false = f -> f <> 0%N ->
    files s !! f = Some n ->
    (is_dir n = false -> (datasize n < 2 ^ 31)%N ->
       option_map (fun r => option_map st_size (snd (fst r))) (ramdisk_stat path s) =
         Some (Some (Z.of_N (datasize n)))) /\
    (is_dir n = true ->
       option_map (fun r => option_map st_size (snd (fst r))) (ramdisk_stat path s) =
         Some (Some (-1)))) /\
  (forall h e n,
    0 <= h < MAX_FILES -> fh s !! Z.to_nat h = Some e -> fh_file e <> 0%N -> fh_dir e = 0 ->
    files s !! fh_file e = Some n ->
    ramdisk_total h s = Some (size n, s)) /\
  option_map (fun r => option_map st_size (snd (fst r))) (ramdisk_stat "" s) = Some (Some (-1)) /\
  option_map (fun r => option_map st_size (snd (fst r))) (ramdisk_stat "/" s) = Some (Some (-1)).
Proof.
  split; [|split; [|split; reflexivity]].
  - intros path f n Hp1 Hp2 Hf Hf0 Hn.
    pose proof (stat_found s path f n Hp1 Hp2 Hf Hf0 Hn) as H.
    split; intros Hd; rewrite Hd in H; [intros Hs; rewrite to_s32_small in H by exact Hs|]; exact H.
  - intros h e n. apply total_valid.
Qed.

Lemma C6_stat_reports_capacity_witness :
  let s := state_of c5_run in
  option_map (fun r => option_map st_size (snd (fst r))) (ramdisk_stat "f" s) = Some (Some 1024) /\
  option_map fst (ramdisk_total 1 s) = Some 100%N.
Proof.
  intros s.
  destruct (C6_stat_reports_capacity s) as [Hst [Htot _]].
  split.
  - destruct (Hst "f"%string 3%N (file_at s 3)) as [Hf _];
      [discriminate | discriminate | vm_compute; reflexivity | discriminate
      | vm_compute; reflexivity |].
    rewrite Hf; [vm_compute; reflexivity | vm_compute; reflexivity | vm_compute; reflexivity].
  - rewrite (Htot 1 (fh_at s 1) (file_at s 3));
      [vm_compute; reflexivity | vm_compute; split; [discriminate|reflexivity]
      | vm_compute; reflexivity | vm_compute; discriminate | vm_compute; reflexivity
      | vm_compute; reflexivity].
Defined.

(** ** C9: a create by open survives a full handle table *)

(** C9: opening with a writable, non-directory mode a path (leading slash
    stripped) that does not exist and whose parent is the root directory,
    when all allocations succeed and every handle slot in
    [1, FS_RAMDISK_MAX_FILES) is occupied, returns NULL; yet the new empty
    file node (logical size 0, capacity 1024) has been linked at the head
    of the root directory, so the lookups of a later open and of stat find
    it, and stat succeeds on the path. *)
Theorem C9_full_table_open_leaves_file (s : state) p mode L :
    strip_slash p <> EmptyString -> split_last_slash (strip_slash p) = None ->
    ramdisk_find_path s (rootdir s) (strip_slash p) false = 0%N ->
    Z.land mode O_DIR = 0 -> Z.land mode O_MODE_MASK <> O_RDONLY ->
    (forall i, (1 <= i < FS_RAMDISK_MAX_FILES)%nat ->
       exists e, fh s !! i = Some e /\ fh_file e <> 0%N) ->
    dirs s !! rootdir s = Some L -> oracle s = [] -> brk s <> 0%N ->
    exists s', ramdisk_open p mode s = Some (0, s') /\
      files s' !! brk s =
        Some (mk_rd_file (strip_slash p) 0 STAT_TYPE_FILE OPENFOR_NOTHING 0 (brk s + 1) 1024) /\
      dirs s' !! rootdir s' = Some (brk s :: L) /\
      ramdisk_find_path s' (rootdir s') (strip_slash p) false = brk s /\
      ramdisk_find_path s' (rootdir s') p false = brk s /\
      option_map (fun r => option_map st_size (snd (fst r))) (ramdisk_stat p s') =
        Some (Some 1024).
Proof.
  intros Hne Hsl Hf Hdir Hmm Hocc Hd Ho Hb.
  eexists. split; [apply open_full_creates; eassumption|].
  set (node := mk_rd_file (strip_slash p) 0 STAT_TYPE_FILE OPENFOR_NOTHING 0 (brk s + 1) 1024).
  assert (Hfind : forall q, strip_slash q = strip_slash p ->
            ramdisk_find_path
              (set_dirs (set_files (set_bufs (set_brk s (brk s + 1 + 1)%N)
                                     (<[(brk s + 1)%N := repeat Byte.x00 1024]> (bufs s)))
                          (<[brk s := node]> (files s)))
                (<[rootdir s := brk s :: L]> (dirs s)))
              (rootdir s) q false = brk s).
  { intros q Hq. rewrite find_path_leaf by congruence. rewrite Hq.
    unfold ramdisk_find. simpl. rewrite !lookup_insert_eq. simpl.
    rewrite (lookup_insert_eq (files s) (brk s) node). simpl name.
    rewrite name_matches_refl, (lookup_insert_eq (files s) (brk s) node). reflexivity. }
  split; [simpl; apply lookup_insert_eq|].
  split; [simpl; apply lookup_insert_eq|].
  split; [apply Hfind; apply strip_slash_noslash, Hsl|].
  split; [apply Hfind; reflexivity|].
  rewrite (stat_found _ p (brk s) node).
  - reflexivity.
  - intros ->. apply Hne. reflexivity.
  - intros ->. apply Hne. reflexivity.
  - apply Hfind. reflexivity.
  - exact Hb.
  - simpl. apply lookup_insert_eq.
Qed.

Lemma C9_full_table_open_leaves_file_witness :
  let s := state_of c9_run in
  exists s', ramdisk_open "g" O_WRONLY s = Some (0, s') /\
    ramdisk_find_path s' (rootdir s') "g" false = brk s.
Proof.
  intros s.
  destruct (C9_full_table_open_leaves_file s "g" O_WRONLY
              (match dirs s !! rootdir s with Some l => l | None => [] end))
    as [s' [H1 [_ [_ [_ [H2 _]]]]]];
    [discriminate | vm_compute; reflexivity | vm_compute; reflexivity
    | vm_compute; reflexivity | vm_compute; discriminate
    | apply slots_occupied_spec; vm_compute; reflexivity
    | vm_compute; reflexivity | vm_compute; reflexivity | vm_compute; discriminate |].
  exists s'. split; [exact H1|exact H2].
Defined.

(** ** C7: the mode reported by stat and fstat *)

(** C7 (code_bug): for the root directory, [ramdisk_stat] reports
    [S_IFDIR | rwx for all] (040777) while [ramdisk_fstat] on a handle of
    the same directory reports [S_IFDIR | rw for all] (040666): fstat never
    adds the execute bits that stat adds for directories. *)
Theorem C7_fstat_dir_mode_lacks_exec :
  exists s,
    ramdisk_open "" (Z.lor O_RDONLY O_DIR) fresh_fs = Some (1, s) /\
    option_map (fun r => option_map st_mode (snd (fst r))) (ramdisk_fstat 1 s)
      = Some (Some (Z.lor RW_ALL S_IFDIR)) /\
    option_map (fun r => option_map st_mode (snd (fst r))) (ramdisk_stat "" s)
      = Some (Some (Z.lor S_IFDIR (Z.lor S_IRWXU (Z.lor S_IRWXG S_IRWXO)))) /\
    Z.lor RW_ALL S_IFDIR = 16822 /\
    Z.lor S_IFDIR (Z.lor S_IRWXU (Z.lor S_IRWXG S_IRWXO)) = 16895.
Proof.
  eexists. split; [vm_compute; reflexivity|].
  split; [vm_compute; reflexivity|].
  split; [vm_compute; reflexivity|].
  split; reflexivity.
Qed.

(** ** C2: cursors and sizes after detach *)

(** C2 (code_bug): [fs_ramdisk_detach] succeeds while a reader holds the
    node; it installs the 64-byte placeholder ([size = 64]) and its unlink
    fails, so the node stays linked and the reader's cursor (100) exceeds
    the node's logical size (64) in a reachable state. *)
Theorem C2_detach_leaves_cursor_past_size :
  exists s s',
    run c2_run fresh_fs = Some s /\
    fs_ramdisk_detach "f" s = Some ((0, Some (4%N, 100%N)), s') /\
    reachable s' /\
    option_map fh_ptr (fh s' !! 1%nat) = Some 100%N /\
    option_map fh_file (fh s' !! 1%nat) = Some 3%N /\
    option_map size (files s' !! 3%N) = Some 64%N /\
    ramdisk_find_path s' (rootdir s') "f" false = 3%N.
Proof.
  eexists. eexists. split; [vm_compute; reflexivity|].
  split; [vm_compute; reflexivity|].
  split.
  - apply (reachable_run (c2_run ++ [OpDetach "f"]) fresh_fs);
      [constructor | vm_compute; reflexivity].
  - vm_compute. repeat split; reflexivity.
Qed.

(** ** Reading a directory *)

Lemma list_next_split pre x r :
  NoDup (pre ++ x :: r) -> list_next (pre ++ x :: r) x = Some (hd 0%N r).
Proof.
  induction pre as [|y pre IH]; intros Hnd; simpl.
  - rewrite N.eqb_refl. destruct r; reflexivity.
  - inversion Hnd as [|? ? Hy Hnd']. subst.
    destruct (y =? x)%N eqn:E.
    + apply N.eqb_eq in E. subst. exfalso. apply Hy. set_solver.
    + apply IH, Hnd'.
Qed.

Section Readdir.
Variables (h : Z) (D : N) (nd : rd_file) (L : list N).
Hypothesis Hh : 0 <= h < MAX_FILES.
Hypothesis HL : NoDup L.
Hypothesis H0 : ~ In 0%N L.

Lemma readdir_at_end (s : state) e :
  fh s !! Z.to_nat h = Some e -> fh_ptr e = 0%N ->
  ramdisk_readdir h s = Some (None, set_errno s EBADF).
Proof using Hh HL H0.
  intros He Hp. unfold ramdisk_readdir.
  destruct (h <? MAX_FILES) eqn:E1; [|apply Z.ltb_ge in E1; lia].
  rewrite bind_assoc, (get_fh_bind _ h e) by (try lia; exact He). rewrite mret_bind.
  rewrite Hp. cbn [N.eqb negb]. rewrite andb_false_r, andb_false_l. reflexivity.
Qed.

Lemma readdir_next (s : state) e x nx l :
  fh s !! Z.to_nat h = Some e -> fh_file e = D -> D <> 0%N -> fh_dir e <> 0 ->
  fh_ptr e = x -> x <> 0%N -> files s !! x = Some nx ->
  files s !! D = Some nd -> dirs s !! data nd = Some L -> list_next L x = Some l ->
  ramdisk_readdir h s =
    let d := mk_dirent (name nx) 0 (if is_dir nx then O_DIR else 0)
                       (if is_dir nx then -1 else to_s32 (size nx)) in
    Some (Some d, set_fh s (<[Z.to_nat h := with_dirent (with_ptr e l) d]> (fh s))).
Proof using Hh HL H0.
  intros He Hf HD Hd Hp Hx0 Hnx Hnd HdL Hl. unfold ramdisk_readdir.
  destruct (h <? MAX_FILES) eqn:E1; [|apply Z.ltb_ge in E1; lia].
  rewrite bind_assoc, (get_fh_bind _ h e) by (try lia; exact He). rewrite mret_bind.
  assert (E2 : (fh_file e =? 0)%N = false) by (apply N.eqb_neq; congruence).
  assert (E3 : (fh_ptr e =? 0)%N = false) by (apply N.eqb_neq; congruence).
  assert (E4 : (fh_dir e =? 0) = false) by (apply Z.eqb_neq; exact Hd).
  rewrite E2, E3, E4. cbn [negb andb]. cbv iota. rewrite Hp.
  rewrite (get_file_bind _ x nx) by exact Hnx.
  rewrite Hf, (get_file_bind _ D nd) by exact Hnd.
  unfold mbind at 1. rewrite HdL, Hl.
  rewrite (update_fh_bind _ h e) by (try lia; exact He). reflexivity.
Qed.

Lemma readdir_walk suf : forall pre (s : state) e,
  L = pre ++ suf ->
  fh s !! Z.to_nat h = Some e -> fh_file e = D -> D <> 0%N -> fh_dir e <> 0 ->
  fh_ptr e = hd 0%N suf ->
  files s !! D = Some nd -> dirs s !! data nd = Some L ->
  (forall f, In f L -> exists n, files s !! f = Some n /\ (size n < 2 ^ 31)%N) ->
  exists out s', readdir_n h (S (length suf)) s = Some (out, s') /\
    map (option_map entry_view) out =
      map (fun f => option_map node_view (files s !! f)) suf ++ [None] /\
    errno s' = EBADF /\ files s' = files s /\ dirs s' = dirs s.
Proof using Hh HL H0.
  induction suf as [|x r IH]; intros pre s e HLs He Hf HD Hd Hp Hnd HdL Hsz.
  - cbn [length readdir_n]. rewrite (bind_step _ _ _ _ _ (readdir_at_end s e He Hp)).
    cbn [readdir_n]. rewrite mret_bind.
    exists [None], (set_errno s EBADF). repeat split.
  - cbn [length readdir_n].
    assert (Hx : In x L) by (rewrite HLs; apply in_app_iff; right; left; reflexivity).
    destruct (Hsz x Hx) as [nx [Hnx Hsx]].
    assert (Hx0 : x <> 0%N) by (intros ->; exact (H0 Hx)).
    assert (Hl : list_next L x = Some (hd 0%N r))
      by (rewrite HLs; apply list_next_split; rewrite <- HLs; exact HL).
    rewrite (bind_step _ _ _ _ _ (readdir_next s e x nx _ He Hf HD Hd Hp Hx0 Hnx Hnd HdL Hl)).
    cbv beta zeta.
    set (d := mk_dirent (name nx) 0 (if is_dir nx then O_DIR else 0)
                        (if is_dir nx then -1 else to_s32 (size nx))).
    set (e' := with_dirent (with_ptr e (hd 0%N r)) d).
    set (s1 := set_fh s (<[Z.to_nat h := e']> (fh s))).
    assert (Hlt : (Z.to_nat h < length (fh s))%nat) by (eapply lookup_lt_Some; exact He).
    destruct (IH (pre ++ [x]) s1 e') as [out [s' [Hrun [Hout [Herr [Hfs Hds]]]]]];
      try assumption; try reflexivity.
    + rewrite <- app_assoc. exact HLs.
    + apply list_lookup_insert_eq. exact Hlt.
    + rewrite (bind_step _ _ _ _ _ Hrun).
      exists (Some d :: out), s'. split; [reflexivity|].
      split; [|split; [exact Herr | split; [exact Hfs | exact Hds]]].
      cbn [map]. rewrite Hout. cbn [map app]. rewrite Hnx. cbn [option_map].
      f_equal. unfold entry_view, node_view, d. cbn.
      destruct (is_dir nx); [reflexivity|]. rewrite to_s32_small by exact Hsx. reflexivity.
Qed.

Lemma rewinddir_ok (s : state) e :
  fh s !! Z.to_nat h = Some e -> fh_file e = D -> D <> 0%N -> fh_dir e <> 0 ->
  files s !! D = Some nd -> dirs s !! data nd = Some L ->
  ramdisk_rewinddir h s =
    Some (0, set_fh s (<[Z.to_nat h := with_ptr e (hd 0%N L)]> (fh s))).
Proof using Hh HL H0.
  intros He Hf HD Hd Hnd HdL. unfold ramdisk_rewinddir.
  destruct (h <? MAX_FILES) eqn:E1; [|apply Z.ltb_ge in E1; lia].
  rewrite bind_assoc, (get_fh_bind _ h e) by (try lia; exact He). rewrite mret_bind.
  assert (E2 : (fh_file e =? 0)%N = false) by (apply N.eqb_neq; congruence).
  assert (E4 : (fh_dir e =? 0) = false) by (apply Z.eqb_neq; exact Hd).
  rewrite E2, E4. cbn [orb]. cbv iota.
  rewrite Hf, (get_file_bind _ D nd) by exact Hnd.
  assert (Hfirst : list_first (data nd) s = Some (hd 0%N L, s))
    by (unfold list_first; rewrite HdL; destruct L; reflexivity).
  rewrite (bind_step _ _ _ _ _ Hfirst).
  rewrite (update_fh_bind _ h e) by (try lia; exact He). reflexivity.
Qed.

End Readdir.

(** ** C8: readdir lists every child once *)

(** C8: for a directory handle whose child list [L] has no duplicate, no NULL
    entry and children of size below 2^31, [rewinddir] returns 0 and then
    [length L + 1] calls of [readdir] return, in list order, one entry per
    child carrying its name, attribute ([O_DIR] or 0) and size (-1 or the
    logical size), then NULL with [errno = EBADF]; the same holds from a
    handle whose cursor is the head of the list, as [open] with [O_DIR]
    leaves it. *)
Theorem C8_readdir_lists_children (s : state) h e nd L :
  0 <= h < MAX_FILES -> fh s !! Z.to_nat h = Some e ->
  fh_file e <> 0%N -> fh_dir e <> 0 ->
  files s !! fh_file e = Some nd -> dirs s !! data nd = Some L ->
  NoDup L -> ~ In 0%N L ->
  (forall f, In f L -> exists n, files s !! f = Some n /\ (size n < 2 ^ 31)%N) ->
  (exists s1, ramdisk_rewinddir h s = Some (0, s1) /\
     exists out s2, readdir_n h (S (length L)) s1 = Some (out, s2) /\
       map (option_map entry_view) out =
         map (fun f => option_map node_view (files s !! f)) L ++ [None] /\
       errno s2 = EBADF) /\
  (fh_ptr e = hd 0%N L ->
     exists out s2, readdir_n h (S (length L)) s = Some (out, s2) /\
       map (option_map entry_view) out =
         map (fun f => option_map node_view (files s !! f)) L ++ [None] /\
       errno s2 = EBADF).
Proof.
  intros Hh He Hf Hd Hnd HdL HL H0 Hsz. split.
  - eexists. split.
    + apply (rewinddir_ok h (fh_file e) nd L Hh HL H0 s e He eq_refl Hf Hd Hnd HdL).
    + assert (Hlt : (Z.to_nat h < length (fh s))%nat) by (eapply lookup_lt_Some; exact He).
      destruct (readdir_walk h (fh_file e) nd L Hh HL H0 L [] (set_fh s (<[Z.to_nat h := with_ptr e (hd 0%N L)]> (fh s))) (with_ptr e (hd 0%N L))
                  eq_refl) as [out [s2 [Hrun [Hout [Herr _]]]]];
        try assumption; try reflexivity.
      * apply list_lookup_insert_eq. exact Hlt.
      * exists out, s2. split; [exact Hrun|]. split; [exact Hout|exact Herr].
  - intros Hp.
    destruct (readdir_walk h (fh_file e) nd L Hh HL H0 L [] s e eq_refl)
      as [out [s2 [Hrun [Hout [Herr _]]]]]; try assumption; try reflexivity.
    exists out, s2. split; [exact Hrun|]. split; [exact Hout|exact Herr].
Qed.

(** The root directory of [c8_state], opened as handle 1, lists "g" then "f". *)
Lemma C8_readdir_lists_children_witness :
  exists out s2, readdir_n 1 (S (length [5; 3]%N)) c8_state = Some (out, s2) /\
    map (option_map entry_view) out = [Some ("g"%string, 0, 0); Some ("f"%string, 0, 100); None] /\
    errno s2 = EBADF.
Proof.
  destruct (C8_readdir_lists_children c8_state 1 (fh_at c8_state 1)
              (file_at c8_state (fh_file (fh_at c8_state 1))) [5; 3]%N) as [_ H2].
  - vm_compute. split; [discriminate|reflexivity].
  - vm_compute. reflexivity.
  - vm_compute. discriminate.
  - vm_compute. discriminate.
  - vm_compute. reflexivity.
  - vm_compute. reflexivity.
  - repeat constructor; set_solver.
  - intros [H|[H|[]]]; discriminate.
  - intros f [<-|[<-|[]]];
      [exists (file_at c8_state 5) | exists (file_at c8_state 3)]; split; vm_compute; reflexivity.
  - destruct (H2 ltac:(vm_compute; reflexivity)) as [out [s2 [Hrun [Hout Herr]]]].
    exists out, s2. split; [exact Hrun|]. split; [|exact Herr].
    rewrite Hout. vm_compute. reflexivity.
Defined.

(** ** Attaching and detaching a block *)

Lemma scan_free_map t1 t2 fd k :
  map fh_file t1 = map fh_file t2 -> scan_free t1 fd k = scan_free t2 fd k.
Proof.
  intros Hm. revert fd. induction k as [|k IH]; intros fd; simpl; [reflexivity|].
  assert (Hl : fh_file <$> t1 !! fd = fh_file <$> t2 !! fd)
    by (rewrite <- !list_lookup_fmap; change (@fmap list _) with (@map); rewrite Hm; reflexivity).
  destruct (t1 !! fd) as [e1|], (t2 !! fd) as [e2|]; simpl in Hl; try discriminate.
  - injection Hl as Hl. rewrite Hl. destruct (fh_file e2 =? 0)%N; [reflexivity|apply IH].
  - apply IH.
Qed.

Lemma find_free_fd_map t1 t2 :
  map fh_file t1 = map fh_file t2 -> find_free_fd t1 = find_free_fd t2.
Proof. intros H. unfold find_free_fd. rewrite (scan_free_map t1 t2); [reflexivity|exact H]. Qed.

Lemma scan_free_ge t fd k : (fd <= scan_free t fd k)%nat.
Proof.
  revert fd. induction k as [|k IH]; intros fd; simpl; [lia|].
  destruct (t !! fd) as [e|]; [destruct (fh_file e =? 0)%N|]; [lia| |];
    specialize (IH (S fd)); lia.
Qed.

Lemma find_free_fd_pos t : 1 <= find_free_fd t.
Proof. unfold find_free_fd. pose proof (scan_free_ge t 1 (FS_RAMDISK_MAX_FILES - 1)). lia. Qed.

Lemma map_fh_file_insert t i x e :
  t !! i = Some e -> fh_file x = fh_file e -> map fh_file (<[i := x]> t) = map fh_file t.
Proof.
  intros He Hx. change (@map fh_t N) with (@fmap list _ fh_t N).
  rewrite list_fmap_insert, Hx. apply list_insert_id. rewrite list_lookup_fmap, He. reflexivity.
Qed.

Lemma free_bind {B} s p c (k : unit -> M B) :
  p <> 0%N -> bufs s !! p = Some c ->
  mbind (free p) k s = k tt (set_bufs s (delete p (bufs s))).
Proof.
  intros Hp Hc. unfold mbind, free. destruct (p =? 0)%N eqn:E; [apply N.eqb_eq in E; contradiction|].
  rewrite Hc. reflexivity.
Qed.

Lemma malloc_bind {B} s n (k : N -> M B) :
  oracle s = [] ->
  mbind (malloc n) k s =
    k (brk s) (set_bufs (set_brk s (brk s + 1)%N)
                 (<[brk s := repeat Byte.x00 (N.to_nat n)]> (bufs s))).
Proof. intros Ho. unfold mbind at 1. unfold malloc, mbind, alloc_ok, fresh, modify, mret. rewrite Ho. reflexivity. Qed.

Lemma open_commit_trunc (s : state) f fd n e0 :
  0 <= fd -> fh s !! Z.to_nat fd = Some e0 -> files s !! f = Some n ->
  openfor n <> OPENFOR_READ -> data n <> 0%N -> is_Some (bufs s !! data n) -> oracle s = [] ->
  open_commit f fd trunc_mode s =
    Some (true, mk_state (root s) (rootdir s)
      (<[f := mk_rd_file (name n) 0 (type n) OPENFOR_WRITE (usage n) (brk s) 1024]> (files s))
      (dirs s)
      (<[brk s := repeat Byte.x00 1024]> (delete (data n) (bufs s)))
      (<[Z.to_nat fd := mk_fh f 0 0 (fh_dirent e0) trunc_mode]> (fh s))
      (brk s + 1) (oracle s) (errno s)).
Proof.
  intros Hfd He Hn Hr Hd [c Hc] Ho. unfold open_commit. cbv zeta.
  change (Z.land trunc_mode O_MODE_MASK) with O_WRONLY.
  change (Z.land trunc_mode O_DIR) with 0.
  rewrite (update_fh_bind _ fd e0) by assumption.
  change (O_WRONLY =? O_RDONLY) with false. cbv iota.
  change (negb (Z.land O_WRONLY O_RDWR =? 0) || negb (Z.land O_WRONLY O_WRONLY =? 0)) with true.
  cbv iota.
  rewrite (get_file_bind _ f n) by exact Hn.
  destruct (openfor n =? OPENFOR_READ) eqn:E; [apply Z.eqb_eq in E; contradiction|].
  rewrite (update_file_bind _ f n) by exact Hn.
  change (Z.land trunc_mode O_APPEND =? 0) with true.
  change (Z.land trunc_mode O_TRUNC =? 0) with false. cbv iota. cbn [negb]. cbv iota.
  rewrite (free_bind _ (data n) c) by assumption.
  cbv beta. rewrite (malloc_bind _ 1024) by exact Ho.
  rewrite (update_file_bind _ f (with_openfor n OPENFOR_WRITE))
    by (cbn; apply lookup_insert_eq).
  assert (Hlt : (Z.to_nat fd < length (fh s))%nat) by (eapply lookup_lt_Some; exact He).
  rewrite (update_fh_bind _ fd (with_omode (with_dir (with_file e0 f) 0) trunc_mode))
    by (try exact Hfd; cbn; apply list_lookup_insert_eq; exact Hlt).
  unfold mret. cbn. rewrite insert_insert_eq, list_insert_insert_eq. reflexivity.
Qed.

Lemma open_commit_rdonly (s : state) f fd n e0 :
  0 <= fd -> fh s !! Z.to_nat fd = Some e0 -> files s !! f = Some n ->
  open_commit f fd O_RDONLY s =
    Some (true, mk_state (root s) (rootdir s)
      (<[f := with_openfor n OPENFOR_READ]> (files s)) (dirs s) (bufs s)
      (<[Z.to_nat fd := mk_fh f 0 0 (fh_dirent e0) O_RDONLY]> (fh s))
      (brk s) (oracle s) (errno s)).
Proof.
  intros Hfd He Hn. unfold open_commit. cbv zeta.
  change (Z.land O_RDONLY O_MODE_MASK) with O_RDONLY.
  change (Z.land O_RDONLY O_DIR) with 0.
  rewrite (update_fh_bind _ fd e0) by assumption.
  rewrite Z.eqb_refl.
  rewrite (update_file_bind _ f n) by exact Hn.
  assert (Hlt : (Z.to_nat fd < length (fh s))%nat) by (eapply lookup_lt_Some; exact He).
  rewrite (update_fh_bind _ fd (with_omode (with_dir (with_file e0 f) 0) O_RDONLY))
    by (try exact Hfd; cbn; apply list_lookup_insert_eq; exact Hlt).
  unfold mret. cbn. rewrite list_insert_insert_eq. reflexivity.
Qed.

Lemma open_from_lookup (s s0 s1 : state) p mode f n n1 fd :
  Z.land mode O_DIR = 0 ->
  open_lookup (strip_slash p) mode s = Some (f, s0) -> f <> 0%N ->
  files s0 !! f = Some n -> is_dir n = false ->
  find_free_fd (fh s0) = fd -> fd < MAX_FILES -> openfor n <> OPENFOR_WRITE ->
  open_commit f fd mode s0 = Some (true, s1) -> files s1 !! f = Some n1 ->
  ramdisk_open p mode s = Some (fd, set_files s1 (<[f := with_usage n1 (usage n1 + 1)]> (files s1))).
Proof.
  intros Hdir Hlk Hf Hn Hnd Hfd Hlt Hw Hc Hn1. unfold ramdisk_open. cbv zeta.
  rewrite Hdir. cbn [Z.eqb negb andb]. cbv iota.
  rewrite (bind_step _ _ _ _ _ Hlk).
  destruct (f =? 0)%N eqn:E; [apply N.eqb_eq in E; contradiction|].
  rewrite (get_file_bind _ f n) by exact Hn. rewrite Hnd. cbn [andb]. cbv iota.
  rewrite gets_bind, Hfd.
  destruct (fd >=? MAX_FILES) eqn:E2; [rewrite Z.geb_leb in E2; apply Z.leb_le in E2; lia|].
  destruct (openfor n =? OPENFOR_WRITE) eqn:E3; [apply Z.eqb_eq in E3; contradiction|].
  rewrite (bind_step _ _ _ _ _ Hc). cbn [negb]. cbv iota.
  rewrite mret_bind, (update_file_bind _ f n1) by exact Hn1. reflexivity.
Qed.

Lemma open_lookup_found (s : state) fn mode f :
  fn <> EmptyString -> Z.land mode O_DIR = 0 ->
  ramdisk_find_path s (rootdir s) fn false = f -> f <> 0%N ->
  open_lookup fn mode s = Some (f, s).
Proof.
  intros Hfn Hdir Hf Hf0. unfold open_lookup. cbv zeta.
  destruct (String.eqb fn EmptyString) eqn:E; [apply String.eqb_eq in E; contradiction|].
  rewrite gets_bind, Hdir. cbn [Z.eqb negb]. rewrite Hf.
  destruct (f =? 0)%N eqn:E2; [apply N.eqb_eq in E2; contradiction|]. reflexivity.
Qed.

Lemma open_lookup_create (s s' : state) fn mode c :
  fn <> EmptyString -> Z.land mode O_DIR = 0 -> Z.land mode O_MODE_MASK <> O_RDONLY ->
  ramdisk_find_path s (rootdir s) fn false = 0%N ->
  ramdisk_create_file (rootdir s) fn false s = Some (c, s') ->
  open_lookup fn mode s = Some (c, s').
Proof.
  intros Hfn Hdir Hm Hf Hc. unfold open_lookup. cbv zeta.
  destruct (String.eqb fn EmptyString) eqn:E; [apply String.eqb_eq in E; contradiction|].
  rewrite gets_bind, Hdir. cbn [Z.eqb negb]. rewrite Hf. cbn [N.eqb]. cbv iota.
  destruct (Z.land mode O_MODE_MASK =? O_RDONLY) eqn:E2; [apply Z.eqb_eq in E2; contradiction|].
  cbn [negb andb]. cbv iota. rewrite gets_bind. exact Hc.
Qed.

Lemma close_last (s : state) fd e f n :
  0 <= fd < MAX_FILES -> fh s !! Z.to_nat fd = Some e -> fh_file e = f -> f <> 0%N ->
  files s !! f = Some n -> usage n = 1 ->
  ramdisk_close fd s =
    Some (0, mk_state (root s) (rootdir s)
               (<[f := with_openfor (with_usage n 0) OPENFOR_NOTHING]> (files s)) (dirs s) (bufs s)
               (<[Z.to_nat fd := with_file e 0]> (fh s)) (brk s) (oracle s) (errno s)).
Proof.
  intros Hfd He Hf Hf0 Hn Hu. unfold ramdisk_close.
  destruct (fd <? MAX_FILES) eqn:E1; [|apply Z.ltb_ge in E1; lia].
  rewrite (get_fh_bind _ fd e) by (try lia; exact He).
  destruct (fh_file e =? 0)%N eqn:E2; [apply N.eqb_eq in E2; congruence|]. cbv zeta.
  rewrite (update_fh_bind _ fd e) by (try lia; exact He).
  rewrite Hf, (get_file_bind _ f n) by exact Hn.
  unfold put_file. rewrite modify_bind. rewrite Hu. change (1 - 1) with 0. cbn [Z.ltb Z.eqb Z.compare]. cbv iota.
  rewrite (update_file_bind _ f (with_usage n 0)) by (cbn; apply lookup_insert_eq).
  unfold mret. cbn. rewrite insert_insert_eq. reflexivity.
Qed.

Lemma unlink_ok (s : state) p f n c :
  ramdisk_find_path s (rootdir s) p false = f -> f <> 0%N -> files s !! f = Some n ->
  usage n = 0 -> data n <> 0%N -> bufs s !! data n = Some c ->
  ramdisk_unlink p s =
    Some (0, mk_state (root s) (rootdir s) (delete f (files s))
               ((fun l => filter (fun x => x <> f) l) <$> dirs s)
               (delete (data n) (bufs s)) (fh s) (brk s) (oracle s) (errno s)).
Proof.
  intros Hf Hf0 Hn Hu Hd Hc. unfold ramdisk_unlink.
  rewrite gets_bind, Hf.
  destruct (f =? 0)%N eqn:E; [apply N.eqb_eq in E; contradiction|].
  rewrite (get_file_bind _ f n) by exact Hn. rewrite Hu, Z.eqb_refl.
  rewrite (free_bind _ (data n) c) by assumption. reflexivity.
Qed.

Lemma find_in_update fs l seg f n m :
  fs !! f = Some n -> name m = name n -> find_in (<[f := m]> fs) l seg = find_in fs l seg.
Proof.
  intros Hn Hm. induction l as [|g l IH]; simpl; [reflexivity|].
  destruct (decide (g = f)) as [->|Hne].
  - rewrite lookup_insert_eq, Hn, Hm, IH. reflexivity.
  - rewrite lookup_insert_ne by congruence. rewrite IH. reflexivity.
Qed.

Lemma find_in_none fs l seg :
  (forall g m, In g l -> fs !! g = Some m -> name_matches (name m) seg = false) ->
  find_in fs l seg = 0%N.
Proof.
  induction l as [|g l IH]; intros H; simpl; [reflexivity|].
  destruct (fs !! g) as [m|] eqn:E.
  - rewrite (H g m) by (simpl; auto). apply IH. intros g' m' Hg'. apply H. simpl; auto.
  - apply IH. intros g' m' Hg'. apply H. simpl; auto.
Qed.

Lemma find_in_unique fs l seg f n :
  In f l -> fs !! f = Some n -> name_matches (name n) seg = true ->
  (forall g m, In g l -> fs !! g = Some m -> name_matches (name m) seg = true -> g = f) ->
  find_in fs l seg = f.
Proof.
  induction l as [|g l IH]; intros Hin Hn Hm H; simpl; [destruct Hin|].
  destruct (fs !! g) as [m|] eqn:E.
  - destruct (name_matches (name m) seg) eqn:Em.
    + apply (H g m); simpl; auto.
    + destruct Hin as [->|Hin]; [congruence|].
      apply IH; auto. intros g' m' Hg'. apply H. simpl; auto.
  - destruct Hin as [->|Hin]; [congruence|].
    apply IH; auto. intros g' m' Hg'. apply H. simpl; auto.
Qed.

Lemma find_in_filter_none fs l seg f :
  (forall g m, In g l -> fs !! g = Some m -> name_matches (name m) seg = true -> g = f) ->
  find_in (delete f fs) (filter (fun x => x <> f) l) seg = 0%N.
Proof.
  intros H. apply find_in_none. intros g m Hg Hm.
  apply list_elem_of_In, list_elem_of_filter in Hg. destruct Hg as [Hgf Hg].
  rewrite lookup_delete_ne in Hm by congruence.
  destruct (name_matches (name m) seg) eqn:E; [|reflexivity].
  exfalso. apply Hgf. apply (H g m); [apply list_elem_of_In; exact Hg|exact Hm|exact E].
Qed.

Lemma find_path_root_leaf (s : state) p L f :
  strip_slash p <> EmptyString -> split_last_slash (strip_slash p) = None ->
  dirs s !! rootdir s = Some L -> find_in (files s) L (strip_slash p) = f ->
  ramdisk_find_path s (rootdir s) p false =
    match files s !! f with Some n => if is_dir n then 0%N else f | None => 0%N end.
Proof.
  intros H1 H2 HL Hf. rewrite find_path_leaf by assumption. cbv zeta.
  unfold ramdisk_find. rewrite HL, Hf. reflexivity.
Qed.

Section Roundtrip.
Variables (s s0 : state) (p : string) (B sz : N) (f : N) (n : rd_file) (c : list Byte.byte) (L0 : list N).
Hypothesis Hseg : strip_slash p <> EmptyString.
Hypothesis Hsl : split_last_slash (strip_slash p) = None.
Hypothesis Hlk : open_lookup (strip_slash p) trunc_mode s = Some (f, s0).
Hypothesis Hf0 : f <> 0%N.
Hypothesis HL0 : dirs s0 !! rootdir s0 = Some L0.
Hypothesis Hin : In f L0.
Hypothesis Hn : files s0 !! f = Some n.
Hypothesis Hname : name_matches (name n) (strip_slash p) = true.
Hypothesis Huniq : forall g m, In g L0 -> files s0 !! g = Some m ->
  name_matches (name m) (strip_slash p) = true -> g = f.
Hypothesis Hnd : is_dir n = false.
Hypothesis Hu : usage n = 0.
Hypothesis Hof : openfor n = OPENFOR_NOTHING.
Hypothesis Hd : data n <> 0%N.
Hypothesis Hc : bufs s0 !! data n = Some c.
Hypothesis Hfree : find_free_fd (fh s0) < MAX_FILES.
Hypothesis Ho : oracle s0 = [].
Hypothesis Hbrk : brk s0 <> 0%N.
Hypothesis HB : B <> data n /\ B <> brk s0 /\ B <> (brk s0 + 1)%N.

Lemma find_f (st : state) m :
  rootdir st = rootdir s0 -> dirs st = dirs s0 -> files st = <[f := m]> (files s0) ->
  name m = name n -> type m = type n ->
  ramdisk_find_path st (rootdir st) p false = f /\
  ramdisk_find_path st (rootdir st) (strip_slash p) false = f.
Proof.
  intros Hr Hds Hfs Hnm Htp.
  assert (HLst : dirs st !! rootdir st = Some L0) by (rewrite Hr, Hds; exact HL0).
  assert (Hfi : find_in (files st) L0 (strip_slash p) = f).
  { rewrite Hfs, (find_in_update _ _ _ f n m Hn Hnm). apply (find_in_unique _ _ _ f n); assumption. }
  assert (Hm : files st !! f = Some m) by (rewrite Hfs; apply lookup_insert_eq).
  assert (Hmd : is_dir m = false) by (unfold is_dir in *; rewrite Htp; exact Hnd).
  pose proof (strip_slash_noslash _ Hsl) as Hss.
  split.
  - rewrite (find_path_root_leaf st p L0 f Hseg Hsl HLst Hfi), Hm, Hmd. reflexivity.
  - rewrite (find_path_root_leaf st (strip_slash p) L0 f) by (rewrite ?Hss; assumption).
    rewrite Hm, Hmd. reflexivity.
Qed.

Lemma roundtrip_core :
  exists s1, fs_ramdisk_attach p B sz s = Some (0, s1) /\
  exists s2, fs_ramdisk_detach p s1 = Some ((0, Some (B, sz)), s2) /\
    bufs s2 !! B = bufs s0 !! B /\ ramdisk_find_path s2 (rootdir s2) p false = 0%N.
Proof.
  set (fd := find_free_fd (fh s0)).
  destruct (find_free_fd_spec (fh s0) Hfree) as [e0 [He0 He0f]]. fold fd in He0.
  pose proof (find_free_fd_pos (fh s0)) as Hfd1. fold fd in Hfd1.
  assert (Hfd : 0 <= fd) by lia.
  pose proof (open_commit_trunc s0 f fd n e0 Hfd He0 Hn ltac:(rewrite Hof; discriminate) Hd
                ltac:(rewrite Hc; eexists; reflexivity) Ho) as Hcm.
  pose proof (open_from_lookup s s0 _ p trunc_mode f n _ fd eq_refl Hlk Hf0 Hn Hnd eq_refl Hfree
                ltac:(rewrite Hof; discriminate) Hcm ltac:(cbn; apply lookup_insert_eq)) as Hop.
  assert (Hlt : (Z.to_nat fd < length (fh s0))%nat) by (eapply lookup_lt_Some; exact He0).
  eexists. split.
  { unfold fs_ramdisk_attach. rewrite (bind_step _ _ _ _ _ Hop).
    replace (fd =? 0) with false by (symmetry; apply Z.eqb_neq; lia).
    rewrite (get_fh_bind _ fd (mk_fh f 0 0 (fh_dirent e0) trunc_mode))
      by (try exact Hfd; cbn; apply list_lookup_insert_eq; exact Hlt).
    cbn [fh_file].
    rewrite (get_file_bind _ f (with_usage (mk_rd_file (name n) 0 (type n) OPENFOR_WRITE (usage n) (brk s0) 1024) (usage n + 1)))
      by (cbn; apply lookup_insert_eq).
    cbn [data with_usage].
    rewrite (free_bind _ (brk s0) (repeat Byte.x00 1024))
      by (try (cbn; apply lookup_insert_eq); intros Hb; apply Hbrk; exact Hb).
    rewrite (update_file_bind _ f (with_usage (mk_rd_file (name n) 0 (type n) OPENFOR_WRITE (usage n) (brk s0) 1024) (usage n + 1)))
      by (cbn; apply lookup_insert_eq).
    match goal with |- mbind _ _ ?st = _ =>
    rewrite (bind_step _ _ _ _ _
      (close_last st fd (mk_fh f 0 0 (fh_dirent e0) trunc_mode) f
         (with_size (with_datasize (with_data (with_usage (mk_rd_file (name n) 0 (type n) OPENFOR_WRITE (usage n) (brk s0) 1024) (usage n + 1)) B) sz) sz)
         ltac:(split; [exact Hfd|exact Hfree])
         ltac:(cbn; apply list_lookup_insert_eq; exact Hlt) eq_refl Hf0
         ltac:(cbn; apply lookup_insert_eq)
         ltac:(cbn; rewrite Hu; reflexivity))) end.
    reflexivity. }
  match goal with |- exists s2, fs_ramdisk_detach p ?st = _ /\ _ =>
    assert (Hst : st = mk_state (root s0) (rootdir s0)
                         (<[f := mk_rd_file (name n) sz (type n) OPENFOR_NOTHING 0 B sz]> (files s0))
                         (dirs s0) (delete (brk s0) (delete (data n) (bufs s0)))
                         (<[Z.to_nat fd := mk_fh 0 0 0 (fh_dirent e0) trunc_mode]> (fh s0))
                         (brk s0 + 1) (oracle s0) (errno s0)) end.
  { cbn. rewrite !insert_insert_eq, delete_insert_eq, list_insert_insert_eq, Hu. reflexivity. }
  rewrite Hst. clear Hst Hop Hcm.
  match goal with |- exists s2, fs_ramdisk_detach p ?S1 = _ /\ _ =>
    destruct (find_f S1 (mk_rd_file (name n) sz (type n) OPENFOR_NOTHING 0 B sz)
                eq_refl eq_refl eq_refl eq_refl eq_refl) as [_ Hfp1];
    pose proof (open_commit_rdonly S1 f fd (mk_rd_file (name n) sz (type n) OPENFOR_NOTHING 0 B sz)
                  (mk_fh 0 0 0 (fh_dirent e0) trunc_mode) Hfd
                  ltac:(cbn; apply list_lookup_insert_eq; exact Hlt)
                  ltac:(cbn; apply lookup_insert_eq)) as Hcm2;
    pose proof (open_from_lookup S1 S1 _ p O_RDONLY f
                  (mk_rd_file (name n) sz (type n) OPENFOR_NOTHING 0 B sz) _ fd eq_refl
                  (open_lookup_found S1 _ O_RDONLY f Hseg eq_refl Hfp1 Hf0) Hf0
                  ltac:(cbn; apply lookup_insert_eq)
                  ltac:(unfold is_dir in *; cbn; exact Hnd)
                  ltac:(cbn; apply find_free_fd_map, (map_fh_file_insert _ _ _ e0 He0);
                        cbn; rewrite He0f; reflexivity)
                  Hfree ltac:(cbn; discriminate) Hcm2
                  ltac:(cbn; apply lookup_insert_eq)) as Hop2
  end.
  eexists. split.
  { unfold fs_ramdisk_detach. rewrite (bind_step _ _ _ _ _ Hop2).
    replace (fd =? 0) with false by (symmetry; apply Z.eqb_neq; lia).
    match goal with |- mbind _ _ ?st = _ =>
      assert (Hst : st = mk_state (root s0) (rootdir s0)
                 (<[f := mk_rd_file (name n) sz (type n) OPENFOR_READ 1 B sz]> (files s0))
                 (dirs s0) (delete (brk s0) (delete (data n) (bufs s0)))
                 (<[Z.to_nat fd := mk_fh f 0 0 (fh_dirent e0) O_RDONLY]> (fh s0))
                 (brk s0 + 1) (oracle s0) (errno s0)) end.
    { cbn. rewrite !insert_insert_eq, list_insert_insert_eq. reflexivity. }
    rewrite Hst. clear Hst.
    rewrite (get_fh_bind _ fd (mk_fh f 0 0 (fh_dirent e0) O_RDONLY))
      by (try exact Hfd; cbn; apply list_lookup_insert_eq; exact Hlt).
    cbn [fh_file].
    rewrite (get_file_bind _ f (mk_rd_file (name n) sz (type n) OPENFOR_READ 1 B sz))
      by (cbn; apply lookup_insert_eq).
    rewrite (malloc_bind _ 64) by exact Ho.
    rewrite (update_file_bind _ f (mk_rd_file (name n) sz (type n) OPENFOR_READ 1 B sz))
      by (cbn; apply lookup_insert_eq).
    match goal with |- mbind _ _ ?st = _ =>
    rewrite (bind_step _ _ _ _ _
      (close_last st fd (mk_fh f 0 0 (fh_dirent e0) O_RDONLY) f
         (with_size (with_datasize (with_data (mk_rd_file (name n) sz (type n) OPENFOR_READ 1 B sz) (brk s0 + 1)) 64) 64)
         ltac:(split; [exact Hfd|exact Hfree])
         ltac:(cbn; apply list_lookup_insert_eq; exact Hlt) eq_refl Hf0
         ltac:(cbn; apply lookup_insert_eq) eq_refl)) end.
    match goal with |- mbind _ _ ?st = _ =>
      destruct (find_f st (mk_rd_file (name n) 64 (type n) OPENFOR_NOTHING 0 (brk s0 + 1) 64)
                  eq_refl eq_refl ltac:(cbn; rewrite !insert_insert_eq; reflexivity)
                  eq_refl eq_refl) as [Hfp2 _];
      rewrite (bind_step _ _ _ _ _
        (unlink_ok st p f (mk_rd_file (name n) 64 (type n) OPENFOR_NOTHING 0 (brk s0 + 1) 64)
           (repeat Byte.x00 64) Hfp2 Hf0
           ltac:(cbn; rewrite !insert_insert_eq; apply lookup_insert_eq) eq_refl
           ltac:(cbn; lia) ltac:(cbn; apply lookup_insert_eq))) end.
    reflexivity. }
  destruct HB as [HB1 [HB2 HB3]]. split.
  - cbn. rewrite lookup_delete_ne, lookup_insert_ne, !lookup_delete_ne by congruence.
    reflexivity.
  - rewrite (find_path_root_leaf _ p (filter (fun x => x <> f) L0) 0%N Hseg Hsl).
    + destruct (files _ !! 0%N) as [m|]; [destruct (is_dir m)|]; reflexivity.
    + cbn. rewrite lookup_fmap, HL0. reflexivity.
    + cbn. rewrite !insert_insert_eq, delete_insert_eq. apply find_in_filter_none, Huniq.
Qed.
End Roundtrip.

(** ** Handle exclusion: frame steps *)

Lemma frame_rel_refl s : frame_rel s s.
Proof. split; [reflexivity|]. split; [reflexivity|]. split; [lia|reflexivity]. Qed.

Lemma frame_rel_trans s1 s2 s3 : frame_rel s1 s2 -> frame_rel s2 s3 -> frame_rel s1 s3.
Proof.
  intros [A1 [B1 [C1 D1]]] [A2 [B2 [C2 D2]]]. split; [congruence|]. split; [congruence|]. split; [lia|congruence].
Qed.

Lemma frames_ret {A} (a : A) : frames (mret a).
Proof. intros s. apply frame_rel_refl. Qed.

Lemma frames_bind {A B} (m : M A) (k : A -> M B) :
  frames m -> (forall a, frames (k a)) -> frames (mbind m k).
Proof.
  intros Hm Hk s. unfold wp, mbind. specialize (Hm s). unfold wp in Hm.
  destruct (m s) as [[a s1]|]; [|exact I].
  specialize (Hk a s1). unfold wp in Hk. destruct (k a s1) as [[b s2]|]; [|exact I].
  eapply frame_rel_trans; eassumption.
Qed.

Lemma frames_crash {A} : frames (@crash A).
Proof. intros s. exact I. Qed.

Lemma frames_gets {A} (f : state -> A) : frames (gets f).
Proof. intros s. apply frame_rel_refl. Qed.

Lemma frames_get_file p : frames (get_file p).
Proof. intros s. unfold wp, get_file. destruct (files s !! p); [apply frame_rel_refl|exact I]. Qed.

Lemma frames_get_fh fd : frames (get_fh fd).
Proof.
  intros s. unfold wp, get_fh. destruct (fd <? 0); [exact I|].
  destruct (fh s !! Z.to_nat fd); [apply frame_rel_refl|exact I].
Qed.

Lemma frames_modify g : (forall s, frame_rel s (g s)) -> frames (modify g).
Proof. intros Hg s. apply Hg. Qed.

Lemma frame_rel_same s s' :
  fh s' = fh s -> files s' = files s -> (brk s <= brk s')%N -> rootdir s' = rootdir s -> frame_rel s s'.
Proof. intros A B C D. unfold frame_rel, slots, locks. rewrite A, B. auto. Qed.

Lemma frames_update_fh fd g : (forall e, slot_view (g e) = slot_view e) -> frames (update_fh fd g).
Proof.
  intros Hg s. unfold wp, update_fh, mbind, get_fh. destruct (fd <? 0); [exact I|].
  destruct (fh s !! Z.to_nat fd) as [e|] eqn:E; [|exact I].
  unfold put_fh, modify. split; [|split; [reflexivity|split; [cbn; lia|reflexivity]]].
  unfold slots. cbn. rewrite list_fmap_insert. apply list_insert_id. rewrite list_lookup_fmap, E. cbn. rewrite Hg. reflexivity.
Qed.

Lemma frames_update_file p g : (forall n, lock_view (g n) = lock_view n) -> frames (update_file p g).
Proof.
  intros Hg s. unfold wp, update_file, mbind, get_file.
  destruct (files s !! p) as [n|] eqn:E; [|exact I].
  unfold put_file, modify. split; [reflexivity|]. split; [|split; [cbn; lia|reflexivity]].
  unfold locks. cbn. rewrite fmap_insert. apply insert_id. rewrite lookup_fmap, E. cbn. rewrite Hg. reflexivity.
Qed.

Lemma frames_alloc_ok : frames alloc_ok.
Proof.
  intros s. unfold wp, alloc_ok. destruct (oracle s); apply frame_rel_same; reflexivity || lia.
Qed.

Lemma frames_fresh : frames fresh.
Proof. intros s. apply frame_rel_same; cbn; reflexivity || lia. Qed.

Lemma frames_set_bufs g : frames (modify (fun s => set_bufs s (g s))).
Proof. apply frames_modify. intros s. apply frame_rel_same; cbn; reflexivity || lia. Qed.

Lemma frames_set_errno v : frames (set_errno_m v).
Proof. apply frames_modify. intros s. apply frame_rel_same; cbn; reflexivity || lia. Qed.

Lemma frames_set_oracle l : frames (modify (fun s => set_oracle s l)).
Proof. apply frames_modify. intros s. apply frame_rel_same; cbn; reflexivity || lia. Qed.

Ltac frames_prim :=
  first
    [ apply frames_ret | apply frames_crash | apply frames_gets | apply frames_get_file
    | apply frames_get_fh | apply frames_alloc_ok | apply frames_fresh | apply frames_set_bufs
    | apply frames_set_errno | apply frames_set_oracle
    | apply frames_update_fh; intros; reflexivity
    | apply frames_update_file; intros; reflexivity ].

Ltac frames_tac :=
  repeat (cbv zeta;
    first
    [ frames_prim
    | apply frames_bind; [|intros ?]
    | match goal with
      | |- frames (if ?b then _ else _) => destruct b
      | |- frames (match ?x with _ => _ end) => destruct x
      | |- frames (fun x => @?b x) =>
          let s := fresh "s" in intros s; unfold wp; cbv beta; repeat case_match; simplify_eq/=; try exact I;
          apply frame_rel_same; cbn; reflexivity || lia
      end ]).

Lemma frames_malloc n : frames (malloc n).
Proof. unfold malloc. frames_tac. Qed.
Lemma frames_free p : frames (free p).
Proof. unfold free. frames_tac. Qed.
Lemma frames_realloc p n : frames (realloc p n).
Proof. unfold realloc. frames_tac. Qed.
Lemma frames_memcpy_from p o l : frames (memcpy_from p o l).
Proof. unfold memcpy_from. frames_tac. Qed.
Lemma frames_memcpy_into p o l : frames (memcpy_into p o l).
Proof. unfold memcpy_into. frames_tac. Qed.
Lemma frames_list_first d : frames (list_first d).
Proof. unfold list_first. frames_tac. Qed.
Lemma frames_file_handle h : frames (file_handle h).
Proof. unfold file_handle. frames_tac. Qed.

Ltac frames_tac2 :=
  repeat (cbv zeta;
    first
    [ frames_prim
    | apply frames_malloc | apply frames_free | apply frames_realloc | apply frames_memcpy_from
    | apply frames_memcpy_into | apply frames_list_first | apply frames_file_handle
    | apply frames_bind; [|intros ?]
    | match goal with
      | |- frames (if ?b then _ else _) => destruct b
      | |- frames (match ?x with _ => _ end) => destruct x
      | |- frames (fun x => @?b x) =>
          let s := fresh "s" in intros s; unfold wp; cbv beta; repeat case_match; simplify_eq/=; try exact I;
          apply frame_rel_same; cbn; reflexivity || lia
      end ]).


Lemma frames_read h b : frames (ramdisk_read h b).
Proof. unfold ramdisk_read. frames_tac2. Qed.
Lemma frames_write h b : frames (ramdisk_write h b).
Proof. unfold ramdisk_write. frames_tac2. Qed.
Lemma frames_seek h o w : frames (ramdisk_seek h o w).
Proof. unfold ramdisk_seek. frames_tac2. Qed.
Lemma frames_tell h : frames (ramdisk_tell h).
Proof. unfold ramdisk_tell. frames_tac2. Qed.
Lemma frames_total h : frames (ramdisk_total h).
Proof. unfold ramdisk_total. frames_tac2. Qed.
Lemma frames_readdir h : frames (ramdisk_readdir h).
Proof. unfold ramdisk_readdir. frames_tac2. Qed.
Lemma frames_mmap h : frames (ramdisk_mmap h).
Proof. unfold ramdisk_mmap. frames_tac2. Qed.
Lemma frames_stat p : frames (ramdisk_stat p).
Proof. unfold ramdisk_stat. frames_tac2. Qed.
Lemma frames_fcntl h c : frames (ramdisk_fcntl h c).
Proof. unfold ramdisk_fcntl. frames_tac2. Qed.
Lemma frames_rewinddir h : frames (ramdisk_rewinddir h).
Proof. unfold ramdisk_rewinddir. frames_tac2. Qed.
Lemma frames_fstat h : frames (ramdisk_fstat h).
Proof. unfold ramdisk_fstat. frames_tac2. Qed.
Lemma frames_user_buffer c : frames (user_buffer c).
Proof. unfold user_buffer. frames_tac2. Qed.

(** ** Handle exclusion: the lock invariant *)

Lemma on_node_self f w : on_node f (Some (f, w)) = true.
Proof. simpl. apply N.eqb_refl. Qed.

Lemma on_node_some f g w : on_node f (Some (g, w)) = true -> g = f.
Proof. simpl. apply N.eqb_eq. Qed.

Lemma holders_insert sl i v f : (i < length sl)%nat ->
  (holders (<[i := v]> sl) f + from_option (hit f) 0 (sl !! i) = holders sl f + hit f v)%nat.
Proof.
  unfold holders, hit. revert i. induction sl as [|x sl IH]; intros i Hi; [simpl in Hi; lia|].
  destruct i as [|i]; simpl.
  - destruct (on_node f v) eqn:Ev, (on_node f x) eqn:Ex; rewrite !filter_cons;
      repeat case_decide; simpl; try congruence; lia.
  - simpl in Hi. specialize (IH i ltac:(lia)). rewrite !filter_cons. case_decide; simpl; lia.
Qed.

Lemma holders_pos sl i v f : sl !! i = Some v -> on_node f v = true -> (1 <= holders sl f)%nat.
Proof.
  intros Hi Hv. pose proof (lookup_lt_Some _ _ _ Hi) as Hl.
  pose proof (holders_insert sl i None f Hl) as H. rewrite Hi in H. unfold hit in H.
  simpl in H. rewrite Hv in H. lia.
Qed.

Lemma holders_two sl i j vi vj f : i <> j -> sl !! i = Some vi -> sl !! j = Some vj ->
  on_node f vi = true -> on_node f vj = true -> (2 <= holders sl f)%nat.
Proof.
  intros Hij Hi Hj Hvi Hvj. pose proof (lookup_lt_Some _ _ _ Hi) as Hl.
  pose proof (holders_insert sl i None f Hl) as H. rewrite Hi in H. unfold hit in H.
  simpl in H. rewrite Hvi in H.
  assert (Hj' : <[i := None]> sl !! j = Some vj) by (rewrite list_lookup_insert_ne by congruence; exact Hj).
  pose proof (holders_pos _ _ _ _ Hj' Hvj). lia.
Qed.

Lemma holders_witness sl f : (0 < holders sl f)%nat -> exists i w, sl !! i = Some (Some (f, w)).
Proof.
  unfold holders. induction sl as [|x sl IH]; simpl; [lia|]. rewrite filter_cons. case_decide as Hx.
  - intros _. destruct x as [[g w]|]; [|discriminate]. apply on_node_some in Hx. subst. exists 0%nat, w. reflexivity.
  - intros H. destruct (IH H) as [i [w Hi]]. exists (S i), w. exact Hi.
Qed.

Lemma holders_none sl f (lk : gmap N (Z * Z)) : (forall i w, sl !! i = Some (Some (f, w)) -> is_Some (lk !! f)) ->
  lk !! f = None -> holders sl f = 0%nat.
Proof.
  intros Hl Hn. destruct (holders sl f) eqn:E; [reflexivity|].
  destruct (holders_witness sl f ltac:(lia)) as [i [w Hi]]. destruct (Hl _ _ Hi) as [x Hx]. congruence.
Qed.

Lemma hit_other f g w : g <> f -> hit f (Some (g, w)) = 0%nat.
Proof. intros H. unfold hit. simpl. destruct (N.eqb_spec g f); [contradiction|reflexivity]. Qed.

Lemma hit_self f w : hit f (Some (f, w)) = 1%nat.
Proof. unfold hit. rewrite on_node_self. reflexivity. Qed.

Ltac openfor_neq := unfold OPENFOR_NOTHING, OPENFOR_READ, OPENFOR_WRITE in *; try congruence; try lia.

Lemma lock_inv_brk sl lk b b' r : lock_inv sl lk b r -> (b <= b')%N -> lock_inv sl lk b' r.
Proof.
  intros [] Hb. split; try assumption. intros f Hf. specialize (li_fresh0 f Hf). lia.
Qed.

Lemma inv_frame s s' : inv s -> frame_rel s s' -> inv s'.
Proof.
  intros H [A [B [C D]]]. unfold inv in *. rewrite A, B, D. eapply lock_inv_brk; eassumption.
Qed.

Lemma lock_inv_create sl lk b b' r f :
  lock_inv sl lk b r -> lk !! f = None -> f <> 0%N -> (f < b')%N -> (b <= b')%N ->
  lock_inv sl (<[f := (OPENFOR_NOTHING, 0)]> lk) b' r.
Proof.
  intros I Hf Hf0 Hfb Hb.
  assert (H0 : holders sl f = 0%nat) by (eapply holders_none; [intros i w Hi; eapply (li_live _ _ _ _ I); exact Hi|exact Hf]).
  split.
  - intros i g w Hi. destruct (decide (g = f)) as [->|Hne]; [rewrite lookup_insert_eq; eauto|].
    rewrite lookup_insert_ne by congruence. eapply li_live; eassumption.
  - rewrite lookup_insert_ne by congruence. apply (li_zero _ _ _ _ I).
  - intros g Hg. destruct (decide (g = f)) as [->|Hne]; [exact Hfb|].
    rewrite lookup_insert_ne in Hg by congruence. pose proof (li_fresh _ _ _ _ I g Hg). lia.
  - apply (li_root _ _ _ _ I).
  - intros g o u Hg. destruct (decide (g = f)) as [->|Hne].
    + rewrite lookup_insert_eq in Hg. injection Hg as <- <-. rewrite H0. reflexivity.
    + rewrite lookup_insert_ne in Hg by congruence. eapply li_usage; eassumption.
  - intros g u Hg. destruct (decide (g = f)) as [->|Hne]; [exact H0|].
    rewrite lookup_insert_ne in Hg by congruence. eapply li_nothing; eassumption.
  - intros g u i w Hg Hi. destruct (decide (g = f)) as [->|Hne].
    + rewrite lookup_insert_eq in Hg. injection Hg as Hg _. openfor_neq.
    + rewrite lookup_insert_ne in Hg by congruence. eapply li_read; eassumption.
  - intros g u Hg. destruct (decide (g = f)) as [->|Hne].
    + rewrite lookup_insert_eq in Hg. injection Hg as Hg _. openfor_neq.
    + rewrite lookup_insert_ne in Hg by congruence. eapply li_write; eassumption.
  - intros g o u Hg. destruct (decide (g = f)) as [->|Hne].
    + rewrite lookup_insert_eq in Hg. injection Hg as <- _. left; reflexivity.
    + rewrite lookup_insert_ne in Hg by congruence. eapply li_modes; eassumption.
Qed.


Lemma lock_inv_open sl lk b r fd f o u w :
  lock_inv sl lk b r -> sl !! fd = Some None -> lk !! f = Some (o, u) ->
  o <> OPENFOR_WRITE -> (w = true -> o = OPENFOR_NOTHING) ->
  lock_inv (<[fd := Some (f, w)]> sl) (<[f := (if w then OPENFOR_WRITE else OPENFOR_READ, u + 1)]> lk) b r.
Proof.
  intros I Hfd Hf Ho Hw.
  pose proof (lookup_lt_Some _ _ _ Hfd) as Hlen.
  assert (Hf0 : f <> 0%N) by (intros ->; rewrite (li_zero _ _ _ _ I) in Hf; discriminate).
  assert (Hh : forall g, holders (<[fd := Some (f, w)]> sl) g =
                         (holders sl g + hit g (Some (f, w)))%nat).
  { intros g. pose proof (holders_insert sl fd (Some (f, w)) g Hlen) as H. rewrite Hfd in H.
    cbn [from_option] in H. change (hit g None) with 0%nat in H. lia. }
  assert (Hslot : forall i g w', <[fd := Some (f, w)]> sl !! i = Some (Some (g, w')) ->
                  (i = fd /\ g = f /\ w' = w) \/ (i <> fd /\ sl !! i = Some (Some (g, w')))).
  { intros i g w' Hi. destruct (decide (i = fd)) as [->|Hne].
    - rewrite list_lookup_insert_eq in Hi by exact Hlen. injection Hi as -> ->. left; auto.
    - rewrite list_lookup_insert_ne in Hi by congruence. right; auto. }
  split.
  - intros i g w' Hi. destruct (decide (g = f)) as [->|Hne]; [rewrite lookup_insert_eq; eauto|].
    rewrite lookup_insert_ne by congruence.
    destruct (Hslot _ _ _ Hi) as [[_ [-> _]]|[_ Hi']]; [congruence|]. eapply li_live; eassumption.
  - rewrite lookup_insert_ne by congruence. apply (li_zero _ _ _ _ I).
  - intros g Hg. destruct (decide (g = f)) as [->|Hne].
    + apply (li_fresh _ _ _ _ I). rewrite Hf. eauto.
    + rewrite lookup_insert_ne in Hg by congruence. apply (li_fresh _ _ _ _ I g Hg).
  - apply (li_root _ _ _ _ I).
  - intros g o' u' Hg. rewrite Hh. destruct (decide (g = f)) as [->|Hne].
    + rewrite lookup_insert_eq in Hg. injection Hg as _ <-. rewrite hit_self.
      rewrite (li_usage _ _ _ _ I _ _ _ Hf). lia.
    + rewrite lookup_insert_ne in Hg by congruence. rewrite hit_other by congruence.
      rewrite (li_usage _ _ _ _ I _ _ _ Hg). lia.
  - intros g u' Hg. rewrite Hh. destruct (decide (g = f)) as [->|Hne].
    + rewrite lookup_insert_eq in Hg. injection Hg as Hg _. destruct w; openfor_neq.
    + rewrite lookup_insert_ne in Hg by congruence. rewrite hit_other by congruence.
      rewrite (li_nothing _ _ _ _ I _ _ Hg). reflexivity.
  - intros g u' i w' Hg Hi. destruct (decide (g = f)) as [->|Hne].
    + rewrite lookup_insert_eq in Hg. injection Hg as Hg _.
      destruct w; [openfor_neq|].
      destruct (Hslot _ _ _ Hi) as [[_ [_ ->]]|[_ Hi']]; [reflexivity|].
      destruct (li_modes _ _ _ _ I _ _ _ Hf) as [Hn|[Hr|Hwr]].
      * subst o. pose proof (li_nothing _ _ _ _ I _ _ Hf) as Hz.
        pose proof (holders_pos _ _ _ f Hi' (on_node_self f w')). lia.
      * subst o. eapply li_read; eassumption.
      * contradiction.
    + rewrite lookup_insert_ne in Hg by congruence.
      destruct (Hslot _ _ _ Hi) as [[_ [-> _]]|[_ Hi']]; [congruence|]. eapply li_read; eassumption.
  - intros g u' Hg. rewrite Hh. destruct (decide (g = f)) as [->|Hne].
    + rewrite lookup_insert_eq in Hg. injection Hg as Hg _. destruct w; [|openfor_neq].
      rewrite (Hw eq_refl) in Hf. rewrite (li_nothing _ _ _ _ I _ _ Hf), hit_self. reflexivity.
    + rewrite lookup_insert_ne in Hg by congruence. rewrite hit_other by congruence.
      rewrite (li_write _ _ _ _ I _ _ Hg). reflexivity.
  - intros g o' u' Hg. destruct (decide (g = f)) as [->|Hne].
    + rewrite lookup_insert_eq in Hg. injection Hg as <- _. destruct w; auto.
    + rewrite lookup_insert_ne in Hg by congruence. eapply li_modes; eassumption.
Qed.

Lemma lock_inv_close sl lk b r h f w o u :
  lock_inv sl lk b r -> sl !! h = Some (Some (f, w)) -> lk !! f = Some (o, u) ->
  lock_inv (<[h := None]> sl) (<[f := (if u - 1 =? 0 then OPENFOR_NOTHING else o, u - 1)]> lk) b r.
Proof.
  intros I Hh0 Hf.
  pose proof (lookup_lt_Some _ _ _ Hh0) as Hlen.
  assert (Hf0 : f <> 0%N) by (intros ->; rewrite (li_zero _ _ _ _ I) in Hf; discriminate).
  assert (Hh : forall g, (holders (<[h := None]> sl) g + hit g (Some (f, w)) = holders sl g)%nat).
  { intros g. pose proof (holders_insert sl h None g Hlen) as H. rewrite Hh0 in H.
    cbn [from_option] in H. change (hit g None) with 0%nat in H. lia. }
  assert (Hslot : forall i g w', <[h := None]> sl !! i = Some (Some (g, w')) -> sl !! i = Some (Some (g, w'))).
  { intros i g w' Hi. destruct (decide (i = h)) as [->|Hne].
    - rewrite list_lookup_insert_eq in Hi by exact Hlen. discriminate.
    - rewrite list_lookup_insert_ne in Hi by congruence. exact Hi. }
  pose proof (li_usage _ _ _ _ I _ _ _ Hf) as Hu.
  pose proof (Hh f) as Hhf. rewrite hit_self in Hhf.
  split.
  - intros i g w' Hi. destruct (decide (g = f)) as [->|Hne]; [rewrite lookup_insert_eq; eauto|].
    rewrite lookup_insert_ne by congruence. eapply li_live, Hslot; eassumption.
  - rewrite lookup_insert_ne by congruence. apply (li_zero _ _ _ _ I).
  - intros g Hg. destruct (decide (g = f)) as [->|Hne].
    + apply (li_fresh _ _ _ _ I). rewrite Hf. eauto.
    + rewrite lookup_insert_ne in Hg by congruence. apply (li_fresh _ _ _ _ I g Hg).
  - apply (li_root _ _ _ _ I).
  - intros g o' u' Hg. destruct (decide (g = f)) as [->|Hne].
    + rewrite lookup_insert_eq in Hg. injection Hg as _ <-. lia.
    + rewrite lookup_insert_ne in Hg by congruence. pose proof (Hh g) as Hg'.
      rewrite hit_other in Hg' by congruence. rewrite (li_usage _ _ _ _ I _ _ _ Hg). lia.
  - intros g u' Hg. destruct (decide (g = f)) as [->|Hne].
    + rewrite lookup_insert_eq in Hg. injection Hg as Hg _.
      destruct (u - 1 =? 0) eqn:E; [apply Z.eqb_eq in E; lia|].
      subst o. pose proof (li_nothing _ _ _ _ I _ _ Hf). lia.
    + rewrite lookup_insert_ne in Hg by congruence. pose proof (Hh g) as Hg'.
      rewrite hit_other in Hg' by congruence. rewrite <- (li_nothing _ _ _ _ I _ _ Hg). lia.
  - intros g u' i w' Hg Hi. apply Hslot in Hi. destruct (decide (g = f)) as [->|Hne].
    + rewrite lookup_insert_eq in Hg. injection Hg as Hg _.
      destruct (u - 1 =? 0); [openfor_neq|]. subst o. eapply li_read; eassumption.
    + rewrite lookup_insert_ne in Hg by congruence. eapply li_read; eassumption.
  - intros g u' Hg. destruct (decide (g = f)) as [->|Hne].
    + rewrite lookup_insert_eq in Hg. injection Hg as Hg _.
      destruct (u - 1 =? 0) eqn:E; [openfor_neq|]. apply Z.eqb_neq in E.
      subst o. pose proof (li_write _ _ _ _ I _ _ Hf). lia.
    + rewrite lookup_insert_ne in Hg by congruence. pose proof (Hh g) as Hg'.
      rewrite hit_other in Hg' by congruence. rewrite <- (li_write _ _ _ _ I _ _ Hg). lia.
  - intros g o' u' Hg. destruct (decide (g = f)) as [->|Hne].
    + rewrite lookup_insert_eq in Hg. injection Hg as <- _.
      destruct (u - 1 =? 0); [left; reflexivity|]. eapply li_modes; eassumption.
    + rewrite lookup_insert_ne in Hg by congruence. eapply li_modes; eassumption.
Qed.

Lemma lock_inv_unlink sl lk b r f o :
  lock_inv sl lk b r -> lk !! f = Some (o, 0) -> lock_inv sl (delete f lk) b r.
Proof.
  intros I Hf. pose proof (li_usage _ _ _ _ I _ _ _ Hf) as Hu.
  split.
  - intros i g w Hi. destruct (decide (g = f)) as [->|Hne].
    + pose proof (holders_pos _ _ _ f Hi (on_node_self f w)). lia.
    + rewrite lookup_delete_ne by congruence. eapply li_live; eassumption.
  - destruct (decide (f = 0%N)) as [->|Hne]; [apply lookup_delete_eq|].
    rewrite lookup_delete_ne by congruence. apply (li_zero _ _ _ _ I).
  - intros g Hg. destruct (decide (g = f)) as [->|Hne]; [rewrite lookup_delete_eq in Hg; inversion Hg; discriminate|].
    rewrite lookup_delete_ne in Hg by congruence. apply (li_fresh _ _ _ _ I g Hg).
  - apply (li_root _ _ _ _ I).
  - intros g o' u' Hg. apply lookup_delete_Some in Hg as [_ Hg]. eapply li_usage; eassumption.
  - intros g u' Hg. apply lookup_delete_Some in Hg as [_ Hg]. eapply li_nothing; eassumption.
  - intros g u' i w Hg. apply lookup_delete_Some in Hg as [_ Hg]. eapply li_read; eassumption.
  - intros g u' Hg. apply lookup_delete_Some in Hg as [_ Hg]. eapply li_write; eassumption.
  - intros g o' u' Hg. apply lookup_delete_Some in Hg as [_ Hg]. eapply li_modes; eassumption.
Qed.


Lemma lock_inv_exclusive sl lk b r : lock_inv sl lk b r ->
  forall i j f w', sl !! i = Some (Some (f, true)) -> sl !! j = Some (Some (f, w')) -> i = j.
Proof.
  intros I i j f w' Hi Hj. destruct (decide (i = j)) as [|Hne]; [assumption|exfalso].
  destruct (li_live _ _ _ _ I _ _ _ Hi) as [[o u] Hf].
  pose proof (holders_two _ _ _ _ _ f Hne Hi Hj (on_node_self f _) (on_node_self f _)) as H2.
  destruct (li_modes _ _ _ _ I _ _ _ Hf) as [ -> | [ -> | -> ] ].
  - pose proof (li_nothing _ _ _ _ I _ _ Hf). lia.
  - pose proof (li_read _ _ _ _ I _ _ _ _ Hf Hi). discriminate.
  - pose proof (li_write _ _ _ _ I _ _ Hf). lia.
Qed.

(** ** Handle exclusion: the operations keep the invariant *)

Lemma wp_ret {A} (a : A) Q s : Q a s -> wp (mret a) Q s.
Proof. auto. Qed.

Lemma wp_bind {A B} (m : M A) (k : A -> M B) Q s :
  wp m (fun a s1 => wp (k a) Q s1) s -> wp (mbind m k) Q s.
Proof. unfold wp, mbind. destruct (m s) as [[a s1]|]; auto. Qed.

Lemma wp_mono {A} (m : M A) (Q Q' : A -> state -> Prop) s :
  wp m Q s -> (forall a s', Q a s' -> Q' a s') -> wp m Q' s.
Proof. unfold wp. destruct (m s) as [[a s1]|]; auto. Qed.

Lemma wp_frames {A} (m : M A) Q s : frames m -> (forall a s', frame_rel s s' -> Q a s') -> wp m Q s.
Proof. intros Hm HQ. eapply wp_mono; [apply Hm|]. auto. Qed.

Lemma wp_crash {A} Q s : wp (@crash A) Q s.
Proof. exact I. Qed.

Lemma wp_gets {A} (g : state -> A) Q s : Q (g s) s -> wp (gets g) Q s.
Proof. auto. Qed.

Lemma wp_modify g Q s : Q tt (g s) -> wp (modify g) Q s.
Proof. auto. Qed.

Lemma wp_fresh Q s : Q (brk s) (set_brk s (brk s + 1)%N) -> wp fresh Q s.
Proof. auto. Qed.

Lemma wp_get_file p Q s : (forall n, files s !! p = Some n -> Q n s) -> wp (get_file p) Q s.
Proof. intros H. unfold wp, get_file. destruct (files s !! p) eqn:E; auto. Qed.

Lemma wp_get_fh fd Q s : (forall e, 0 <= fd -> fh s !! Z.to_nat fd = Some e -> Q e s) -> wp (get_fh fd) Q s.
Proof.
  intros H. unfold wp, get_fh. destruct (fd <? 0) eqn:E; [exact I|].
  destruct (fh s !! Z.to_nat fd) eqn:E2; [apply H; [lia|reflexivity]|exact I].
Qed.

Lemma wp_update_fh fd g Q s :
  (forall e, 0 <= fd -> fh s !! Z.to_nat fd = Some e -> Q tt (set_fh s (<[Z.to_nat fd := g e]> (fh s)))) ->
  wp (update_fh fd g) Q s.
Proof. intros H. unfold update_fh. apply wp_bind, wp_get_fh. intros e H1 H2. apply H; assumption. Qed.

Lemma wp_put_file p n Q s : Q tt (set_files s (<[p := n]> (files s))) -> wp (put_file p n) Q s.
Proof. auto. Qed.

Lemma wp_update_file p g Q s :
  (forall n, files s !! p = Some n -> Q tt (set_files s (<[p := g n]> (files s)))) ->
  wp (update_file p g) Q s.
Proof. intros H. unfold update_file. apply wp_bind, wp_get_file. intros n Hn. apply wp_put_file, H, Hn. Qed.

Lemma keeps_frames {A} (m : M A) : frames m -> keeps m.
Proof. intros Hm s I. apply wp_frames; [exact Hm|]. intros a s' F. eapply inv_frame; eassumption. Qed.

Lemma keeps_bind {A B} (m : M A) (k : A -> M B) : keeps m -> (forall a, keeps (k a)) -> keeps (mbind m k).
Proof. intros Hm Hk s I. apply wp_bind. eapply wp_mono; [apply Hm, I|]. intros a s1 I1. apply Hk, I1. Qed.

Lemma keeps_ret {A} (a : A) : keeps (mret a).
Proof. intros s I. exact I. Qed.

Lemma slots_fh_insert s i e : (i < length (fh s))%nat ->
  slots (set_fh s (<[i := e]> (fh s))) = <[i := slot_view e]> (slots s).
Proof. intros _. unfold slots. cbn. apply list_fmap_insert. Qed.

Lemma locks_files_insert s p n :
  locks (set_files s (<[p := n]> (files s))) = <[p := lock_view n]> (locks s).
Proof. unfold locks. cbn. apply fmap_insert. Qed.

Lemma frame_slot s i e g : fh s !! i = Some e -> slot_view (g e) = slot_view e ->
  frame_rel s (set_fh s (<[i := g e]> (fh s))).
Proof.
  intros He Hg. split; [|split; [reflexivity|split; [cbn; lia|reflexivity]]].
  unfold slots. cbn. rewrite list_fmap_insert. apply list_insert_id. rewrite list_lookup_fmap, He. cbn. rewrite Hg. reflexivity.
Qed.

Lemma frames_set_dirs g : frames (modify (fun s => set_dirs s (g s))).
Proof. apply frames_modify. intros s. apply frame_rel_same; cbn; reflexivity || lia. Qed.
Lemma frames_list_insert_head d f : frames (list_insert_head d f).
Proof. unfold list_insert_head. frames_tac2. Qed.
Lemma frames_list_remove f : frames (list_remove f).
Proof. apply frames_set_dirs. Qed.
Lemma frames_malloc_dir : frames malloc_dir.
Proof. unfold malloc_dir. frames_tac2. Qed.
Lemma frames_get_parent p fn : frames (ramdisk_get_parent p fn).
Proof. unfold ramdisk_get_parent. frames_tac2. Qed.

Lemma inv_set_files s m : lock_inv (slots s) (lock_view <$> m) (brk s) (rootdir s) -> inv (set_files s m).
Proof. auto. Qed.

Lemma inv_set_fh s t : lock_inv (slot_view <$> t) (locks s) (brk s) (rootdir s) -> inv (set_fh s t).
Proof. auto. Qed.

Lemma locks_none s f : inv s -> files s !! f = None <-> locks s !! f = None.
Proof. intros _. unfold locks. rewrite lookup_fmap. destruct (files s !! f); simpl; split; congruence. Qed.

Lemma locks_some s f n : files s !! f = Some n -> locks s !! f = Some (lock_view n).
Proof. intros H. unfold locks. rewrite lookup_fmap, H. reflexivity. Qed.

Lemma keeps_create_file parent fn dir : keeps (ramdisk_create_file parent fn dir).
Proof.
  intros s I. unfold ramdisk_create_file.
  apply wp_bind, wp_frames; [apply frames_get_parent|]. intros r s1 F1.
  pose proof (inv_frame _ _ I F1) as I1. clear I F1.
  destruct r as [[pdir p]|]; [|exact I1].
  apply wp_bind. unfold malloc_node. apply wp_bind, wp_frames; [apply frames_alloc_ok|]. intros ok s2 F2.
  pose proof (inv_frame _ _ I1 F2) as I2. clear I1 F2.
  destruct ok; [|exact I2].
  apply wp_fresh. set (f := brk s2).
  assert (F3 : frame_rel s2 (set_brk s2 (f + 1)%N)) by (apply frame_rel_same; cbn; reflexivity || lia).
  pose proof (inv_frame _ _ I2 F3) as I3.
  assert (Hf : locks s2 !! f = None).
  { destruct (locks s2 !! f) eqn:E; [|reflexivity].
    pose proof (li_fresh _ _ _ _ I2 f ltac:(rewrite E; eauto)). unfold f in *. lia. }
  destruct (f =? 0)%N eqn:Ef; [exact I3|]. apply N.eqb_neq in Ef.
  assert (Hb3 : brk (set_brk s2 (f + 1)%N) = (f + 1)%N) by reflexivity.
  revert F3 I3 Hb3. generalize (set_brk s2 (f + 1)%N). intros s3 F3 I3 Hb3.
  destruct F3 as (S3 & L3 & B3 & R3). cbn in B3.
  apply wp_bind, wp_frames; [apply frames_alloc_ok|]. intros ok s4 F4.
  pose proof (inv_frame _ _ I3 F4) as I4.
  destruct (negb ok); [exact I4|].
  apply wp_bind, wp_frames; [destruct dir; [apply frames_malloc_dir|apply frames_malloc]|]. intros d s5 F5.
  pose proof (inv_frame _ _ I4 F5) as I5.
  destruct (d =? 0)%N; [exact I5|].
  apply wp_bind, wp_put_file.
  apply wp_bind, wp_frames; [apply frames_list_insert_head|]. intros u s6 F6. apply wp_ret.
  eapply inv_frame; [|exact F6].
  destruct F4 as (S4 & L4 & B4 & R4), F5 as (S5 & L5 & B5 & R5).
  apply inv_set_files. rewrite fmap_insert. fold (locks s5).
  eapply lock_inv_create; [exact I5| | exact Ef | | reflexivity].
  - rewrite L5, L4, L3. exact Hf.
  - lia.
Qed.


Lemma keeps_open_lookup fn mode : keeps (open_lookup fn mode).
Proof.
  unfold open_lookup. cbv zeta. destruct (String.eqb fn EmptyString); [apply keeps_frames, frames_gets|].
  apply keeps_bind; [apply keeps_frames, frames_gets|]. intros f.
  destruct (f =? 0)%N; [|apply keeps_ret].
  destruct (_ && _); [|apply keeps_ret].
  apply keeps_bind; [apply keeps_frames, frames_gets|]. intros rd. apply keeps_create_file.
Qed.

Lemma at_view_frame sl lk b r s s' : at_view sl lk b r s -> frame_rel s s' -> at_view sl lk b r s'.
Proof. intros (A & B & C & D) (A' & B' & C' & D'). split; [congruence|]. split; [congruence|]. split; [lia|congruence]. Qed.

Ltac vstep H :=
  lazymatch goal with |- wp (mbind _ _) _ _ => idtac end;
  apply wp_bind, wp_frames;
  [ first [ frames_prim | apply frames_free | apply frames_malloc | apply frames_list_first ]
  | let F := fresh "F" in let H' := fresh "H" in
    intros ? ? F; pose proof (at_view_frame _ _ _ _ _ _ H F) as H'; clear H F; rename H' into H ].

Lemma slot_view_filled e f : f <> 0%N -> slot_view (with_file e f) = Some (f, writable e).
Proof. intros H. unfold slot_view. cbn. destruct (N.eqb_spec f 0); [contradiction|reflexivity]. Qed.

Lemma locks_set_fh s t : locks (set_fh s t) = locks s.
Proof. reflexivity. Qed.
Lemma slots_set_files s m : slots (set_files s m) = slots s.
Proof. reflexivity. Qed.

Lemma commit_spec s1 f n fd mode e0 :
  f <> 0%N -> files s1 !! f = Some n -> 0 <= fd -> fh s1 !! Z.to_nat fd = Some e0 -> fh_file e0 = 0%N ->
  wp (open_commit f fd mode) (fun ok s3 =>
     if ok then at_view (<[Z.to_nat fd := Some (f, wmode mode)]> (slots s1))
                        (<[f := (if wmode mode then OPENFOR_WRITE else OPENFOR_READ, usage n)]> (locks s1))
                        (brk s1) (rootdir s1) s3 /\
                (wmode mode = true -> openfor n <> OPENFOR_READ)
     else forall e, fh s3 !! Z.to_nat fd = Some e ->
                    frame_rel s1 (set_fh s3 (<[Z.to_nat fd := with_file e 0]> (fh s3)))) s1.
Proof.
  intros Hf0 Hn Hfd He0 Hz. unfold open_commit. cbv zeta.
  pose proof (lookup_lt_Some _ _ _ He0) as Hlen.
  apply wp_bind, wp_update_fh. intros e _ He. rewrite He0 in He. injection He as <-.
  set (e1 := with_omode (with_dir (with_file e0 f) (Z.land mode O_DIR)) mode).
  assert (Hv1 : slot_view e1 = Some (f, wmode mode))
    by (unfold slot_view, e1; cbn; destruct (N.eqb_spec f 0); [contradiction|reflexivity]).
  assert (A2 : at_view (<[Z.to_nat fd := Some (f, wmode mode)]> (slots s1)) (locks s1) (brk s1) (rootdir s1)
                       (set_fh s1 (<[Z.to_nat fd := e1]> (fh s1)))).
  { split; [rewrite slots_fh_insert by exact Hlen; rewrite Hv1; reflexivity|]. split; [reflexivity|]. cbn; split; [lia|reflexivity]. }
  assert (He1 : fh (set_fh s1 (<[Z.to_nat fd := e1]> (fh s1))) !! Z.to_nat fd = Some e1)
    by (cbn; apply list_lookup_insert_eq, Hlen).
  assert (Hfs : files (set_fh s1 (<[Z.to_nat fd := e1]> (fh s1))) = files s1) by reflexivity.
  assert (Hfh : fh (set_fh s1 (<[Z.to_nat fd := e1]> (fh s1))) = <[Z.to_nat fd := e1]> (fh s1)) by reflexivity.
  revert A2 He1 Hfs Hfh. generalize (set_fh s1 (<[Z.to_nat fd := e1]> (fh s1))). intros s2 A2 He1 Hfs Hfh.
  assert (Hwm : writable e1 = wmode mode) by reflexivity.
  unfold wmode in *. destruct (Z.land mode O_MODE_MASK =? O_RDONLY) eqn:Em; cbn [negb] in *.
  - apply wp_bind, wp_update_file. intros n2 Hn2. rewrite Hfs, Hn in Hn2. injection Hn2 as <-.
    apply wp_bind, wp_update_fh. intros e _ He. cbn in He. rewrite He1 in He. injection He as <-.
    apply wp_ret. split; [|discriminate].
    destruct A2 as (S2 & L2 & B2 & R2).
    split; [|split; [|split; [cbn; lia|exact R2]]].
    + rewrite <- S2. unfold slots. cbn. rewrite list_fmap_insert. apply list_insert_id.
      rewrite list_lookup_fmap, He1. reflexivity.
    + rewrite locks_set_fh, locks_files_insert, L2. reflexivity.
  - destruct (negb (Z.land (Z.land mode O_MODE_MASK) O_RDWR =? 0) || negb (Z.land (Z.land mode O_MODE_MASK) O_WRONLY =? 0));
      [|exact I].
    apply wp_bind, wp_get_file. intros n2 Hn2. rewrite Hfs, Hn in Hn2. injection Hn2 as <-.
    destruct (openfor n =? OPENFOR_READ) eqn:Er.
    + apply wp_ret. intros e He. rewrite He1 in He. injection He as <-.
      destruct A2 as (S2 & L2 & B2 & R2).
      split; [|split; [rewrite locks_set_fh; exact L2|split; [cbn; lia|exact R2]]].
      unfold slots. cbn. rewrite Hfh, list_insert_insert_eq, list_fmap_insert. apply list_insert_id.
      rewrite list_lookup_fmap, He0. unfold slot_view. cbn. rewrite Hz. reflexivity.
    + apply wp_bind, wp_update_file. intros n3 Hn3. rewrite Hfs, Hn in Hn3. injection Hn3 as <-.
      assert (A3 : at_view (<[Z.to_nat fd := Some (f, true)]> (slots s1))
                     (<[f := (OPENFOR_WRITE, usage n)]> (locks s1)) (brk s1) (rootdir s1)
                     (set_files s2 (<[f := with_openfor n OPENFOR_WRITE]> (files s2)))).
      { destruct A2 as (S2 & L2 & B2 & R2). split; [exact S2|]. split; [|split; [cbn; lia|exact R2]].
        rewrite locks_files_insert, L2. reflexivity. }
      assert (Hr : openfor n <> OPENFOR_READ) by (apply Z.eqb_neq, Er).
      revert A3. generalize (set_files s2 (<[f := with_openfor n OPENFOR_WRITE]> (files s2))). intros s3 A3.
      destruct (negb (Z.land mode O_APPEND =? 0)); [|destruct (negb (Z.land mode O_TRUNC =? 0))];
        repeat vstep A3; apply wp_ret; auto.
Qed.

Lemma keeps_open fn mode : keeps (ramdisk_open fn mode).
Proof.
  intros s I. unfold ramdisk_open. cbv zeta.
  destruct (_ && _); [exact I|].
  apply wp_bind. eapply wp_mono; [apply keeps_open_lookup, I|]. intros f s1 I1. clear I s.
  destruct (f =? 0)%N eqn:Ef; [exact I1|]. apply N.eqb_neq in Ef.
  apply wp_bind, wp_get_file. intros n Hn.
  destruct (_ && _); [exact I1|].
  apply wp_bind, wp_gets.
  destruct (find_free_fd (fh s1) >=? MAX_FILES) eqn:Efd; [exact I1|].
  rewrite Z.geb_leb in Efd. apply Z.leb_gt in Efd.
  destruct (find_free_fd_spec _ Efd) as [e0 [He0 Hz]]. pose proof (find_free_fd_nonneg (fh s1)) as Hnn.
  set (fd := find_free_fd (fh s1)) in *.
  assert (Hs0 : slots s1 !! Z.to_nat fd = Some None)
    by (unfold slots; rewrite list_lookup_fmap, He0; unfold slot_view; cbn; rewrite Hz; reflexivity).
  destruct (openfor n =? OPENFOR_WRITE) eqn:Ew.
  - unfold open_error_out. apply wp_bind, wp_update_fh. intros e _ He. rewrite He0 in He. injection He as <-.
    apply wp_ret. eapply inv_frame; [exact I1|].
    apply (frame_slot s1 _ e0 (fun e => with_file e 0) He0). unfold slot_view. cbn. rewrite Hz. reflexivity.
  - apply Z.eqb_neq in Ew.
    apply wp_bind. eapply wp_mono; [apply (commit_spec s1 f n fd mode e0 Ef Hn Hnn He0 Hz)|]. intros ok s3 Hok.
    destruct ok; cbn [negb].
    + destruct Hok as [A3 Hw].
      apply wp_bind.
      eapply wp_mono with (Q := fun _ s4 => at_view (<[Z.to_nat fd := Some (f, wmode mode)]> (slots s1))
                        (<[f := (if wmode mode then OPENFOR_WRITE else OPENFOR_READ, usage n)]> (locks s1))
                        (brk s1) (rootdir s1) s4).
      { destruct (negb (Z.land mode O_DIR =? 0)); [|apply wp_ret; exact A3].
        repeat vstep A3. apply wp_frames; [frames_prim|]. intros ? ? F. eapply at_view_frame; eassumption. }
      intros _ s4 A4. apply wp_bind, wp_update_file. intros n4 Hn4. apply wp_ret.
      destruct A4 as (S4 & L4 & B4 & R4).
      pose proof (locks_some _ _ _ Hn4) as Hl4. rewrite L4, lookup_insert_eq in Hl4.
      unfold inv. rewrite slots_set_files, locks_files_insert, S4, L4. cbn [brk rootdir set_files].
      replace (lock_view (with_usage n4 (usage n4 + 1)))
        with (if wmode mode then OPENFOR_WRITE else OPENFOR_READ, usage n + 1)
        by (unfold lock_view in *; cbn; injection Hl4 as -> ->; reflexivity).
      rewrite insert_insert_eq.
      apply lock_inv_brk with (brk s1); [|exact B4]. rewrite R4.
      apply (lock_inv_open _ _ _ _ _ _ (openfor n)); [exact I1|exact Hs0|apply locks_some, Hn|exact Ew|].
      intros Hwm. specialize (Hw Hwm).
      destruct (li_modes _ _ _ _ I1 _ _ _ (locks_some _ _ _ Hn)) as [H|[H|H]]; [exact H|contradiction|contradiction].
    + unfold open_error_out. apply wp_bind, wp_update_fh. intros e _ He. apply wp_ret.
      eapply inv_frame; [exact I1|]. apply Hok, He.
Qed.


Lemma keeps_close h : keeps (ramdisk_close h).
Proof.
  intros s I. unfold ramdisk_close. cbv zeta.
  destruct (h <? MAX_FILES); [|exact I].
  apply wp_bind, wp_get_fh. intros e Hh He.
  destruct (fh_file e =? 0)%N eqn:Ef; [exact I|]. apply N.eqb_neq in Ef.
  pose proof (lookup_lt_Some _ _ _ He) as Hlen.
  apply wp_bind, wp_update_fh. intros e' _ He'. rewrite He in He'. injection He' as <-.
  apply wp_bind, wp_get_file. intros n Hn. cbn in Hn.
  apply wp_bind, wp_put_file.
  assert (Hsl : slots s !! Z.to_nat h = Some (Some (fh_file e, writable e)))
    by (unfold slots; rewrite list_lookup_fmap, He; cbn; unfold slot_view; destruct (N.eqb_spec (fh_file e) 0); [contradiction|reflexivity]).
  pose proof (lock_inv_close _ _ _ _ _ _ _ _ _ I Hsl (locks_some _ _ _ Hn)) as Hc.
  assert (Hslots : slots (set_fh s (<[Z.to_nat h := with_file e 0]> (fh s))) = <[Z.to_nat h := None]> (slots s))
    by (rewrite slots_fh_insert by exact Hlen; reflexivity).
  destruct (usage n - 1 <? 0); [apply wp_crash|].
  destruct (usage n - 1 =? 0) eqn:Eu.
  - apply wp_bind, wp_update_file. intros n2 Hn2. cbn in Hn2. rewrite lookup_insert_eq in Hn2.
    injection Hn2 as <-. apply wp_ret.
    unfold inv. rewrite !slots_set_files, Hslots, !locks_files_insert, locks_set_fh, insert_insert_eq.
    exact Hc.
  - apply wp_ret. unfold inv. rewrite !slots_set_files, Hslots, !locks_files_insert, locks_set_fh.
    exact Hc.
Qed.

Lemma keeps_unlink fn : keeps (ramdisk_unlink fn).
Proof.
  intros s I. unfold ramdisk_unlink.
  apply wp_bind, wp_gets. destruct (_ =? 0)%N; [exact I|].
  apply wp_bind, wp_get_file. intros n Hn.
  destruct (usage n =? 0) eqn:Eu; [|exact I]. apply Z.eqb_eq in Eu.
  apply wp_bind, wp_frames; [apply frames_free|]. intros _ s1 F1.
  apply wp_bind, wp_frames; [apply frames_list_remove|]. intros _ s2 F2.
  apply wp_bind, wp_modify. apply wp_ret.
  pose proof (frame_rel_trans _ _ _ F1 F2) as F. pose proof (inv_frame _ _ I F) as I2.
  destruct F as (_ & L & _).
  apply inv_set_files. rewrite fmap_delete. fold (locks s2).
  apply (lock_inv_unlink _ _ _ _ _ (openfor n) I2). rewrite L. rewrite (locks_some _ _ _ Hn).
  unfold lock_view. rewrite Eu. reflexivity.
Qed.

Ltac keeps_tac :=
  repeat (cbv zeta;
    first
    [ apply keeps_ret | apply keeps_close | apply keeps_unlink | apply keeps_open
    | apply keeps_frames; first [ frames_prim | apply frames_free | apply frames_malloc ]
    | apply keeps_bind; [|intros ?]
    | match goal with |- keeps (if ?b then _ else _) => destruct b end ]).

Lemma keeps_attach fn obj sz : keeps (fs_ramdisk_attach fn obj sz).
Proof. unfold fs_ramdisk_attach. keeps_tac. Qed.

Lemma keeps_detach fn : keeps (fs_ramdisk_detach fn).
Proof. unfold fs_ramdisk_detach. keeps_tac. Qed.

Lemma keeps_init : keeps fs_ramdisk_init.
Proof.
  intros s I. unfold fs_ramdisk_init. apply wp_bind, wp_gets.
  destruct (N.eqb_spec (rootdir s) 0) as [E|E]; [exfalso; exact (li_root _ _ _ _ I E)|]. exact I.
Qed.

Lemma keeps_exec o : keeps (exec o).
Proof.
  destruct o; cbn [exec];
    first [ apply keeps_init | apply keeps_frames, frames_set_oracle
          | apply keeps_bind; [|intros; apply keeps_ret] ];
    first [ apply keeps_open | apply keeps_close | apply keeps_unlink | apply keeps_attach
          | apply keeps_detach | apply keeps_frames ];
    first [ apply frames_read | apply frames_write | apply frames_seek | apply frames_tell
          | apply frames_total | apply frames_readdir | apply frames_mmap | apply frames_stat
          | apply frames_fcntl | apply frames_rewinddir | apply frames_fstat | apply frames_user_buffer ].
Qed.

Lemma inv_fresh_fs : inv fresh_fs.
Proof.
  unfold inv.
  assert (Hs : slots fresh_fs = replicate 16 None) by reflexivity.
  assert (Hl : locks fresh_fs = {[2%N := (OPENFOR_NOTHING, 0)]}) by reflexivity.
  assert (Hb : brk fresh_fs = 3%N) by reflexivity.
  assert (Hr : rootdir fresh_fs = 1%N) by reflexivity.
  rewrite Hs, Hl, Hb, Hr.
  split.
  - intros i f w Hi. apply lookup_replicate in Hi as [Hi _]. discriminate.
  - rewrite lookup_singleton_ne by lia. reflexivity.
  - intros f Hf. destruct (decide (f = 2%N)) as [->|Hne]; [lia|].
    rewrite lookup_singleton_ne in Hf by congruence. destruct Hf as [x Hx]. discriminate.
  - lia.
  - intros f o u Hf. apply lookup_singleton_Some in Hf as [<- Hf]. injection Hf as <- <-. reflexivity.
  - intros f u Hf. apply lookup_singleton_Some in Hf as [<- _]. reflexivity.
  - intros f u i w Hf. apply lookup_singleton_Some in Hf as [_ Hf]. injection Hf as Hf _. openfor_neq.
  - intros f u Hf. apply lookup_singleton_Some in Hf as [_ Hf]. injection Hf as Hf _. openfor_neq.
  - intros f o u Hf. apply lookup_singleton_Some in Hf as [_ Hf]. injection Hf as <- _. left; reflexivity.
Qed.

Lemma reachable_inv s : reachable s -> inv s.
Proof.
  induction 1 as [|s o s' _ IH Hst]; [exact inv_fresh_fs|].
  pose proof (keeps_exec o s IH) as H. unfold wp, step in *. rewrite Hst in H. exact H.
Qed.

Lemma inv_writer_exclusive s : inv s -> writer_exclusive s.
Proof.
  intros I i j ei ej Hi Hj Hf Hfe Hw.
  assert (Si : slots s !! i = Some (Some (fh_file ei, true))).
  { unfold slots. rewrite list_lookup_fmap, Hi. cbn. unfold slot_view.
    destruct (N.eqb_spec (fh_file ei) 0); [contradiction|]. rewrite Hw. reflexivity. }
  assert (Sj : slots s !! j = Some (Some (fh_file ei, writable ej))).
  { unfold slots. rewrite list_lookup_fmap, Hj. cbn. unfold slot_view. rewrite Hfe.
    destruct (N.eqb_spec (fh_file ei) 0); [contradiction|]. reflexivity. }
  exact (lock_inv_exclusive _ _ _ _ I i j (fh_file ei) (writable ej) Si Sj).
Qed.

Lemma mode_bits mode : Z.land mode O_MODE_MASK <> O_RDONLY ->
  (negb (Z.land (Z.land mode O_MODE_MASK) O_RDWR =? 0) || negb (Z.land (Z.land mode O_MODE_MASK) O_WRONLY =? 0)) = true.
Proof.
  intros H. change O_MODE_MASK with (Z.ones 2) in *. rewrite Z.land_ones in * by lia.
  unfold O_RDONLY in H. pose proof (Z.mod_pos_bound mode 4 ltac:(lia)) as B.
  change (2 ^ 2) with 4 in *.
  destruct (decide (mode mod 4 = 1)) as [->|]; [reflexivity|].
  destruct (decide (mode mod 4 = 2)) as [->|]; [reflexivity|].
  destruct (decide (mode mod 4 = 3)) as [->|]; [reflexivity|]. lia.
Qed.


Lemma open_refused (s : state) p mode f n :
  strip_slash p <> EmptyString ->
  ramdisk_find_path s (rootdir s) (strip_slash p) (negb (Z.land mode O_DIR =? 0)) = f -> f <> 0%N ->
  files s !! f = Some n ->
  openfor n = OPENFOR_WRITE \/ (wmode mode = true /\ openfor n = OPENFOR_READ) ->
  exists s', ramdisk_open p mode s = Some (0, s').
Proof.
  intros Hp Hf Hf0 Hn Ho.
  unfold ramdisk_open. cbv zeta.
  destruct (negb (Z.land mode O_DIR =? 0) && negb (Z.land mode O_MODE_MASK =? O_RDONLY)); [eexists; reflexivity|].
  unfold open_lookup. cbv zeta.
  destruct (String.eqb (strip_slash p) EmptyString) eqn:Es; [apply String.eqb_eq in Es; congruence|].
  rewrite bind_assoc, gets_bind, Hf.
  destruct (f =? 0)%N eqn:E0; [apply N.eqb_eq in E0; congruence|].
  rewrite mret_bind, E0, (get_file_bind _ _ n) by exact Hn.
  destruct (is_dir n && _); [eexists; reflexivity|].
  rewrite gets_bind.
  destruct (find_free_fd (fh s) >=? MAX_FILES) eqn:Efd; [eexists; reflexivity|].
  rewrite Z.geb_leb in Efd. apply Z.leb_gt in Efd.
  destruct (find_free_fd_spec (fh s) Efd) as [e0 [He0 Hz]].
  pose proof (find_free_fd_nonneg (fh s)) as Hnn.
  destruct Ho as [Ho|[Hw Ho]]; rewrite Ho.
  - change (OPENFOR_WRITE =? OPENFOR_WRITE) with true. cbv iota. unfold open_error_out.
    rewrite (update_fh_bind _ _ e0) by assumption. eexists; reflexivity.
  - change (OPENFOR_READ =? OPENFOR_WRITE) with false. cbv iota.
    unfold open_commit. cbv zeta.
    rewrite bind_assoc, (update_fh_bind _ _ e0) by assumption.
    unfold wmode in Hw. destruct (Z.land mode O_MODE_MASK =? O_RDONLY) eqn:Em; [discriminate|].
    apply Z.eqb_neq in Em. rewrite (mode_bits mode Em). cbv iota.
    rewrite bind_assoc, (get_file_bind _ _ n) by exact Hn.
    rewrite Ho. change (OPENFOR_READ =? OPENFOR_READ) with true. cbv iota.
    rewrite mret_bind. cbn [negb]. unfold open_error_out.
    rewrite (update_fh_bind _ _ (with_omode (with_dir (with_file e0 f) (Z.land mode O_DIR)) mode))
      by (try assumption; cbn; apply list_lookup_insert_eq; eapply lookup_lt_Some; exact He0).
    eexists; reflexivity.
Qed.

(** Claim C1: in every reachable state a handle that has a node open with
    a writable mode is the only handle on that node (at most one writer,
    and no reader while it is open); and [open] of an existing node returns
    NULL when the node is open for writing, whatever the mode, or when it
    is open for reading and the mode is writable. *)
Theorem C1_writer_exclusion (s : state) :
  reachable s ->
  writer_exclusive s /\
  (forall p mode f n,
     strip_slash p <> EmptyString ->
     ramdisk_find_path s (rootdir s) (strip_slash p) (negb (Z.land mode O_DIR =? 0)) = f -> f <> 0%N ->
     files s !! f = Some n ->
     openfor n = OPENFOR_WRITE \/ (wmode mode = true /\ openfor n = OPENFOR_READ) ->
     exists s', ramdisk_open p mode s = Some (0, s')).
Proof.
  intros R. split.
  - apply inv_writer_exclusive, reachable_inv, R.
  - intros p mode f n. apply open_refused.
Qed.

Lemma C1_writer_exclusion_witness :
  reachable c1_state /\ writer_exclusive c1_state /\
  (exists s', ramdisk_open "f"%string O_RDONLY c1_state = Some (0, s')) /\
  (exists s', ramdisk_open "g"%string O_RDWR c1_state = Some (0, s')).
Proof.
  assert (R : reachable c1_state)
    by (apply (reachable_run c1_run fresh_fs); [constructor|vm_compute; reflexivity]).
  destruct (C1_writer_exclusion c1_state R) as [W O].
  split; [exact R|]. split; [exact W|]. split.
  - apply (O "f"%string O_RDONLY 3%N (file_at c1_state 3%N));
      [discriminate | vm_compute; reflexivity | discriminate | vm_compute; reflexivity
      | left; vm_compute; reflexivity].
  - apply (O "g"%string O_RDWR 5%N (file_at c1_state 5%N));
      [discriminate | vm_compute; reflexivity | discriminate | vm_compute; reflexivity
      | right; split; vm_compute; reflexivity].
Defined.

(* ================================================================== *)
(** * Further properties of the code *)

(** Hypotheses of a statement at a concrete state. *)
Ltac concrete := first [ reflexivity | vm_compute; reflexivity | vm_compute; discriminate
                   | split; [apply Z.leb_le|apply Z.ltb_lt]; vm_compute; reflexivity
                   | apply Z.ltb_lt; vm_compute; reflexivity
                   | intros ?; vm_compute in *; discriminate
                   | apply N.leb_le; vm_compute; reflexivity | apply N.ltb_lt; vm_compute; reflexivity
                   | apply Z.leb_le; vm_compute; reflexivity | lia ].

Lemma holders_count t f : f <> 0%N ->
  holders (slot_view <$> t) f = length (filter (fun e => fh_file e = f) t).
Proof.
  intros Hf. unfold holders. induction t as [|e t IH]; [reflexivity|].
  rewrite fmap_cons, !filter_cons.
  case_decide as H1; case_decide as H2; cbn [length]; rewrite ?IH; try reflexivity; exfalso;
    unfold on_node, slot_view in H1; destruct (fh_file e =? 0)%N eqn:E.
  - discriminate.
  - apply H2, N.eqb_eq, H1.
  - apply N.eqb_eq in E. congruence.
  - apply H1. subst f. apply N.eqb_refl.
Qed.

(** X1: in every reachable state a handle in use points to a live node, and the [usage] of each node is the number of handles open on it. *)
Theorem handles_counted (s : state) :
  reachable s ->
  (forall i e, fh s !! i = Some e -> fh_file e <> 0%N -> is_Some (files s !! fh_file e)) /\
  (forall f n, files s !! f = Some n ->
     usage n = Z.of_nat (length (filter (fun e => fh_file e = f) (fh s)))).
Proof.
  intros R. pose proof (reachable_inv s R) as I. split.
  - intros i e Hi Hf.
    assert (Hs : slots s !! i = Some (Some (fh_file e, writable e))).
    { unfold slots. rewrite list_lookup_fmap, Hi. cbn. unfold slot_view.
      destruct (N.eqb_spec (fh_file e) 0); [contradiction|reflexivity]. }
    pose proof (li_live _ _ _ _ I i (fh_file e) (writable e) Hs) as [x Hx].
    unfold locks in Hx. rewrite lookup_fmap in Hx.
    destruct (files s !! fh_file e); [eexists; reflexivity|discriminate].
  - intros f n Hn.
    assert (Hf : f <> 0%N).
    { intros ->. pose proof (li_zero _ _ _ _ I) as Z0. unfold locks in Z0.
      rewrite lookup_fmap, Hn in Z0. discriminate. }
    rewrite <- holders_count by exact Hf.
    exact (li_usage _ _ _ _ I f (openfor n) (usage n) (locks_some s f n Hn)).
Qed.

Lemma handles_counted_witness :
  reachable c1_state /\
  (forall f n, files c1_state !! f = Some n ->
     usage n = Z.of_nat (length (filter (fun e => fh_file e = f) (fh c1_state)))) /\
  usage (file_at c1_state 3%N) = 1.
Proof.
  assert (R : reachable c1_state)
    by (apply (reachable_run c1_run fresh_fs); [constructor|vm_compute; reflexivity]).
  split; [exact R|]. split; [apply (handles_counted c1_state R)|]. vm_compute. reflexivity.
Defined.

Lemma inv_live s i e : inv s -> fh s !! i = Some e -> fh_file e <> 0%N ->
  exists n, files s !! fh_file e = Some n /\ (1 <= usage n).
Proof.
  intros I Hi Hf.
  assert (Hs : slots s !! i = Some (Some (fh_file e, writable e))).
  { unfold slots. rewrite list_lookup_fmap, Hi. cbn. unfold slot_view.
    destruct (N.eqb_spec (fh_file e) 0); [contradiction|reflexivity]. }
  pose proof (li_live _ _ _ _ I i (fh_file e) (writable e) Hs) as [x Hx].
  unfold locks in Hx. rewrite lookup_fmap in Hx.
  destruct (files s !! fh_file e) as [n|] eqn:En; [|discriminate].
  exists n. split; [reflexivity|].
  rewrite (li_usage _ _ _ _ I (fh_file e) (openfor n) (usage n) (locks_some s _ n En)).
  pose proof (holders_pos _ i _ (fh_file e) Hs (on_node_self _ _)). lia.
Qed.

(** X2: [ramdisk_unlink] of a path naming a node some handle has open returns -1 and changes nothing. *)
Theorem unlink_open_node_refused (s : state) i e p :
  reachable s -> fh s !! i = Some e -> fh_file e <> 0%N ->
  ramdisk_find_path s (rootdir s) p false = fh_file e ->
  ramdisk_unlink p s = Some (-1, s).
Proof.
  intros R Hi Hf Hp.
  destruct (inv_live s i e (reachable_inv s R) Hi Hf) as [n [Hn Hu]].
  unfold ramdisk_unlink. rewrite gets_bind, Hp.
  destruct (fh_file e =? 0)%N eqn:E; [apply N.eqb_eq in E; contradiction|].
  rewrite (get_file_bind _ _ n) by exact Hn.
  destruct (usage n =? 0) eqn:E2; [apply Z.eqb_eq in E2; lia|]. reflexivity.
Qed.

Lemma unlink_open_node_refused_witness :
  reachable c1_state /\ fh c1_state !! 1%nat = Some (fh_at c1_state 1) /\
  ramdisk_unlink "f"%string c1_state = Some (-1, c1_state).
Proof.
  assert (R : reachable c1_state)
    by (apply (reachable_run c1_run fresh_fs); [constructor|vm_compute; reflexivity]).
  split; [exact R|]. split; [vm_compute; reflexivity|].
  apply (unlink_open_node_refused c1_state 1 (fh_at c1_state 1)); [exact R|vm_compute; reflexivity|discriminate|vm_compute; reflexivity].
Defined.

(** X3: [ramdisk_close] returns 0 whenever it does not crash; on a handle out of the table or free it changes nothing. *)
Theorem close_never_fails (s : state) h :
  (forall r s', ramdisk_close h s = Some (r, s') -> r = 0) /\
  (0 <= h -> (MAX_FILES <= h \/ exists e, fh s !! Z.to_nat h = Some e /\ fh_file e = 0%N) ->
   ramdisk_close h s = Some (0, s)).
Proof.
  split.
  - intros r s' H. unfold ramdisk_close in H.
    destruct (h <? MAX_FILES); [|unfold mret in H; congruence].
    unfold mbind, get_fh in H. destruct (h <? 0); [discriminate|].
    destruct (fh s !! Z.to_nat h) as [e|]; [|discriminate].
    destruct (fh_file e =? 0)%N; [unfold mret in H; congruence|]. cbv zeta in H.
    unfold update_fh, put_fh, mbind, get_fh, modify in H. destruct (h <? 0); [discriminate|].
    destruct (fh s !! Z.to_nat h); [|discriminate].
    unfold get_file, put_file, modify in H. cbn in H.
    destruct (files s !! fh_file e); [|discriminate].
    destruct (usage r0 - 1 <? 0); [discriminate|].
    destruct (usage r0 - 1 =? 0); [|unfold mret in H; congruence].
    unfold update_file, mbind, get_file in H. cbn in H. rewrite lookup_insert_eq in H.
    unfold put_file, modify, mret in H. congruence.
  - intros H0 [Hh|[e [He Hf]]]; unfold ramdisk_close.
    + destruct (h <? MAX_FILES) eqn:E; [apply Z.ltb_lt in E; lia|reflexivity].
    + destruct (h <? MAX_FILES); [|reflexivity].
      rewrite (get_fh_bind _ h e) by assumption. rewrite Hf. reflexivity.
Qed.

Lemma close_never_fails_witness :
  (0 <= 3 /\ exists e, fh c1_state !! Z.to_nat 3 = Some e /\ fh_file e = 0%N) /\
  ramdisk_close 3 c1_state = Some (0, c1_state).
Proof.
  assert (H : 0 <= 3 /\ exists e, fh c1_state !! Z.to_nat 3 = Some e /\ fh_file e = 0%N)
    by (split; [lia|eexists; split; vm_compute; reflexivity]).
  split; [exact H|]. destruct H as [H0 H1].
  apply (proj2 (close_never_fails c1_state 3) H0). right. exact H1.
Defined.

(** X4: closing a handle in use frees its slot and lowers the [usage] of its node by one; the last close also resets [openfor] to NOTHING. *)
Theorem close_releases_handle (s : state) h e n :
  0 <= h < MAX_FILES -> fh s !! Z.to_nat h = Some e -> fh_file e <> 0%N ->
  files s !! fh_file e = Some n -> 1 <= usage n ->
  ramdisk_close h s =
    Some (0, set_fh (set_files s (<[fh_file e := if usage n =? 1
                                                 then with_openfor (with_usage n 0) OPENFOR_NOTHING
                                                 else with_usage n (usage n - 1)]> (files s)))
                    (<[Z.to_nat h := with_file e 0]> (fh s))).
Proof.
  intros Hh He Hf Hn Hu. unfold ramdisk_close.
  destruct (h <? MAX_FILES) eqn:E1; [|apply Z.ltb_ge in E1; lia].
  rewrite (get_fh_bind _ h e) by (try lia; exact He).
  destruct (fh_file e =? 0)%N eqn:E2; [apply N.eqb_eq in E2; congruence|]. cbv zeta.
  rewrite (update_fh_bind _ h e) by (try lia; exact He).
  rewrite (get_file_bind _ (fh_file e) n) by exact Hn.
  unfold put_file. rewrite modify_bind.
  destruct (usage n - 1 <? 0) eqn:E3; [apply Z.ltb_lt in E3; lia|].
  destruct (usage n =? 1) eqn:E4.
  - apply Z.eqb_eq in E4. rewrite E4. change (1 - 1) with 0. change (0 =? 0) with true. cbv iota.
    rewrite (update_file_bind _ (fh_file e) (with_usage n 0)) by (cbn; apply lookup_insert_eq).
    unfold mret. cbn. rewrite insert_insert_eq. reflexivity.
  - destruct (usage n - 1 =? 0) eqn:E5; [apply Z.eqb_eq in E5; apply Z.eqb_neq in E4; lia|].
    reflexivity.
Qed.

Lemma close_releases_handle_witness :
  ramdisk_close 1 c1_state =
    Some (0, set_fh (set_files c1_state (<[3%N := with_openfor (with_usage (file_at c1_state 3) 0) OPENFOR_NOTHING]>
                                            (files c1_state)))
                    (<[1%nat := with_file (fh_at c1_state 1) 0]> (fh c1_state))).
Proof.
  apply (close_releases_handle c1_state 1 (fh_at c1_state 1) (file_at c1_state 3)); concrete.
Defined.

Lemma file_handle_bad s h : bad_file_handle s h -> file_handle h s = Some (None, s).
Proof.
  intros [H0 [Hh|[e [He Hfe]]]]; unfold file_handle.
  - destruct (h <? MAX_FILES) eqn:E; [apply Z.ltb_lt in E; lia|reflexivity].
  - destruct (h <? MAX_FILES); [|reflexivity].
    rewrite (get_fh_bind _ h e) by assumption.
    destruct Hfe as [Hfe|Hfe]; [rewrite Hfe; reflexivity|].
    destruct (fh_dir e =? 0) eqn:E; [apply Z.eqb_eq in E; congruence|].
    rewrite andb_false_r. reflexivity.
Qed.

(** X5: on a handle out of the table, free or opened on a directory, read, write and tell return -1 without effect, seek returns -1 with EBADF, total returns (size_t)-1 and mmap NULL. *)
Theorem bad_handle_io (s : state) h k buf off whence :
  bad_file_handle s h ->
  ramdisk_read h k s = Some ((-1, []), s) /\
  ramdisk_write h buf s = Some (-1, s) /\
  ramdisk_seek h off whence s = Some (-1, set_errno s EBADF) /\
  ramdisk_tell h s = Some (-1, s) /\
  ramdisk_total h s = Some ((2 ^ 32 - 1)%N, s) /\
  ramdisk_mmap h s = Some (0%N, s).
Proof.
  intros B. pose proof (file_handle_bad s h B) as F.
  unfold ramdisk_read, ramdisk_write, ramdisk_seek, ramdisk_tell, ramdisk_total, ramdisk_mmap.
  cbv zeta. rewrite !(bind_step _ _ _ _ _ F). repeat split; reflexivity.
Qed.

Lemma bad_handle_io_witness :
  bad_file_handle c1_state 3 /\ ramdisk_seek 3 0 SEEK_SET c1_state = Some (-1, set_errno c1_state EBADF).
Proof.
  assert (B : bad_file_handle c1_state 3) by (split; [lia|right; eexists; split; [concrete|left; concrete]]).
  split; [exact B|]. apply (bad_handle_io c1_state 3 0%N [] 0 SEEK_SET B).
Defined.

(** X6: fcntl, fstat, readdir and rewinddir on a handle out of the table or free fail with EBADF. *)
Theorem dead_handle_ebadf (s : state) h cmd :
  dead_handle s h ->
  ramdisk_fcntl h cmd s = Some (-1, set_errno s EBADF) /\
  ramdisk_fstat h s = Some ((-1, None), set_errno s EBADF) /\
  ramdisk_readdir h s = Some (None, set_errno s EBADF) /\
  ramdisk_rewinddir h s = Some (-1, set_errno s EBADF).
Proof.
  intros [H0 [Hh|[e [He Hf]]]];
    unfold ramdisk_fcntl, ramdisk_fstat, ramdisk_readdir, ramdisk_rewinddir.
  - destruct (h <? MAX_FILES) eqn:E; [apply Z.ltb_lt in E; lia|]. repeat split; reflexivity.
  - destruct (h <? MAX_FILES); [|repeat split; reflexivity].
    rewrite !bind_assoc, !(get_fh_bind _ h e) by assumption. rewrite !mret_bind, Hf.
    repeat split; reflexivity.
Qed.

Lemma dead_handle_ebadf_witness :
  dead_handle c1_state 3 /\ ramdisk_fcntl 3 F_GETFL c1_state = Some (-1, set_errno c1_state EBADF).
Proof.
  assert (B : dead_handle c1_state 3) by (split; [lia|right; eexists; split; concrete]).
  split; [exact B|]. apply (dead_handle_ebadf c1_state 3 F_GETFL B).
Defined.

(** X7: readdir and rewinddir on a handle opened without O_DIR fail with EBADF. *)
Theorem readdir_needs_dir_handle (s : state) h e :
  0 <= h < MAX_FILES -> fh s !! Z.to_nat h = Some e -> fh_dir e = 0 ->
  ramdisk_readdir h s = Some (None, set_errno s EBADF) /\
  ramdisk_rewinddir h s = Some (-1, set_errno s EBADF).
Proof.
  intros Hh He Hd. unfold ramdisk_readdir, ramdisk_rewinddir.
  destruct (h <? MAX_FILES) eqn:E; [|apply Z.ltb_ge in E; lia].
  rewrite !bind_assoc, !(get_fh_bind _ h e) by (try lia; exact He). rewrite !mret_bind, Hd.
  cbn [Z.eqb negb]. rewrite andb_false_r, orb_true_r. split; reflexivity.
Qed.

Lemma readdir_needs_dir_handle_witness :
  ramdisk_readdir 1 c1_state = Some (None, set_errno c1_state EBADF).
Proof. apply (readdir_needs_dir_handle c1_state 1 (fh_at c1_state 1)); concrete. Defined.

(** X8: on a handle in use, F_GETFL returns the open mode, F_SETFL, F_GETFD and F_SETFD return 0, any other command fails with EINVAL, and nothing else changes. *)
Theorem fcntl_valid (s : state) h e cmd :
  0 <= h < MAX_FILES -> fh s !! Z.to_nat h = Some e -> fh_file e <> 0%N ->
  ramdisk_fcntl h cmd s =
    if cmd =? F_GETFL then Some (fh_omode e, s)
    else if (cmd =? F_SETFL) || (cmd =? F_GETFD) || (cmd =? F_SETFD) then Some (0, s)
    else Some (-1, set_errno s EINVAL).
Proof.
  intros Hh He Hf. unfold ramdisk_fcntl.
  destruct (h <? MAX_FILES) eqn:E; [|apply Z.ltb_ge in E; lia].
  rewrite bind_assoc, (get_fh_bind _ h e) by (try lia; exact He). rewrite mret_bind.
  destruct (fh_file e =? 0)%N eqn:E2; [apply N.eqb_eq in E2; contradiction|].
  destruct (cmd =? F_GETFL); [reflexivity|].
  destruct ((cmd =? F_SETFL) || (cmd =? F_GETFD) || (cmd =? F_SETFD)); reflexivity.
Qed.

Lemma fcntl_valid_witness :
  ramdisk_fcntl 1 F_GETFL c1_state = Some (fh_omode (fh_at c1_state 1), c1_state).
Proof. rewrite (fcntl_valid c1_state 1 (fh_at c1_state 1) F_GETFL) by concrete. reflexivity. Defined.

(** X9: for a path (other than the root) that names no file, stat fails with ENOENT and unlink returns -1 without effect. *)
Theorem missing_path_lookups (s : state) p :
  p <> EmptyString -> p <> "/"%string ->
  ramdisk_find_path s (rootdir s) p false = 0%N ->
  ramdisk_stat p s = Some ((-1, None), set_errno s ENOENT) /\
  ramdisk_unlink p s = Some (-1, s).
Proof.
  intros Hp1 Hp2 Hf. unfold ramdisk_stat, ramdisk_unlink. cbv zeta.
  assert (Hc : (Nat.eqb (String.length p) 0 || (Nat.eqb (String.length p) 1 && String.eqb p "/")) = false).
  { destruct p as [|c r]; [congruence|].
    destruct (String.eqb (String c r) "/") eqn:E; [apply String.eqb_eq in E; congruence|].
    rewrite andb_false_r. reflexivity. }
  rewrite Hc, !gets_bind, Hf. split; reflexivity.
Qed.

Lemma missing_path_lookups_witness :
  ramdisk_unlink "zz" c1_state = Some (-1, c1_state).
Proof. apply (missing_path_lookups c1_state "zz"); concrete. Defined.

(** X10: [ramdisk_open] returns NULL without effect for O_DIR with a writable mode, and for a path that is not found when it may not create the file (O_DIR or read-only). *)
Theorem open_refuses_without_side_effects (s : state) p mode :
  let odir := negb (Z.land mode O_DIR =? 0) in
  (odir = true /\ wmode mode = true) \/
  (strip_slash p <> EmptyString /\
   ramdisk_find_path s (rootdir s) (strip_slash p) odir = 0%N /\
   (odir = true \/ wmode mode = false)) ->
  ramdisk_open p mode s = Some (0, s).
Proof.
  intros odir H. unfold ramdisk_open, wmode in *. fold odir.
  destruct H as [[H1 H2]|[Hp [Hf H3]]].
  - rewrite H1, H2. reflexivity.
  - destruct (odir && negb (Z.land mode O_MODE_MASK =? O_RDONLY)); [reflexivity|].
    unfold open_lookup. fold odir.
    destruct (String.eqb (strip_slash p) EmptyString) eqn:E; [apply String.eqb_eq in E; contradiction|].
    rewrite bind_assoc, gets_bind, Hf. cbn [N.eqb].
    destruct H3 as [H3|H3]; rewrite H3; [rewrite andb_false_r|]; reflexivity.
Qed.

Lemma open_refuses_without_side_effects_witness :
  ramdisk_open "zz" O_RDONLY c1_state = Some (0, c1_state).
Proof.
  apply (open_refuses_without_side_effects c1_state "zz" O_RDONLY).
  right. split; [concrete|]. split; [concrete|right; concrete].
Defined.

Lemma read_count n e k :
  (fh_ptr e <= size n)%N -> (size n < 2 ^ 31)%N -> (k < 2 ^ 31)%N ->
  (if (size n <? u32 (fh_ptr e + k))%N then u32sub (size n) (fh_ptr e) else k) =
  N.min k (size n - fh_ptr e).
Proof.
  intros H1 H2 H3. rewrite (u32_small (fh_ptr e + k)) by lia.
  destruct (size n <? fh_ptr e + k)%N eqn:E.
  - apply N.ltb_lt in E. unfold u32sub. rewrite (u32_small (fh_ptr e)) by lia.
    unfold u32. replace (size n + (2 ^ 32 - fh_ptr e))%N with ((size n - fh_ptr e) + 1 * 2 ^ 32)%N by lia.
    rewrite N.Div0.mod_add, N.mod_small by lia. lia.
  - apply N.ltb_ge in E. lia.
Qed.

Lemma memcpy_from_ok s p off len c :
  bufs s !! p = Some c -> (off + len <= N.of_nat (length c))%N ->
  memcpy_from p off len s = Some (take (N.to_nat len) (drop (N.to_nat off) c), s).
Proof.
  intros Hc Hl. unfold memcpy_from.
  destruct (len =? 0)%N eqn:E.
  - apply N.eqb_eq in E. subst len. reflexivity.
  - rewrite Hc. destruct (off + len <=? N.of_nat (length c))%N eqn:E2; [reflexivity|].
    apply N.leb_gt in E2. lia.
Qed.

Lemma read_ok (s : state) h e n c k :
  0 <= h < MAX_FILES -> fh s !! Z.to_nat h = Some e -> fh_file e <> 0%N -> fh_dir e = 0 ->
  files s !! fh_file e = Some n -> bufs s !! data n = Some c ->
  (fh_ptr e <= size n)%N -> (size n <= N.of_nat (length c))%N ->
  (size n < 2 ^ 31)%N -> (k < 2 ^ 31)%N ->
  let m := N.min k (size n - fh_ptr e) in
  ramdisk_read h k s =
    Some ((Z.of_N m, take (N.to_nat m) (drop (N.to_nat (fh_ptr e)) c)),
          set_fh s (<[Z.to_nat h := with_ptr e (fh_ptr e + m)]> (fh s))).
Proof.
  intros Hh He Hf Hd Hn Hc Hp Hl Hs Hk m. unfold ramdisk_read.
  rewrite (bind_step _ _ _ _ _ (file_handle_valid s h e Hh He Hf Hd)).
  rewrite (get_file_bind _ _ n) by exact Hn. cbv zeta.
  rewrite (read_count n e k) by assumption. fold m.
  rewrite (bind_step _ _ _ _ _ (memcpy_from_ok s (data n) (fh_ptr e) m c Hc ltac:(lia))).
  rewrite (update_fh_bind _ h e) by (try lia; exact He).
  rewrite (u32_small (fh_ptr e + m)) by lia. rewrite to_s32_small by lia. reflexivity.
Qed.

(** X11: a read of [k] bytes on a file handle returns min(k, size - cursor) bytes taken at the cursor, and advances the cursor by as many. *)
Theorem read_returns_bytes (s : state) h e n c k :
  0 <= h < MAX_FILES -> fh s !! Z.to_nat h = Some e -> fh_file e <> 0%N -> fh_dir e = 0 ->
  files s !! fh_file e = Some n -> bufs s !! data n = Some c ->
  (fh_ptr e <= size n)%N -> (size n <= N.of_nat (length c))%N ->
  (size n < 2 ^ 31)%N -> (k < 2 ^ 31)%N ->
  let m := N.min k (size n - fh_ptr e) in
  ramdisk_read h k s =
    Some ((Z.of_N m, take (N.to_nat m) (drop (N.to_nat (fh_ptr e)) c)),
          set_fh s (<[Z.to_nat h := with_ptr e (fh_ptr e + m)]> (fh s))).
Proof. exact (read_ok s h e n c k). Qed.

Lemma read_returns_bytes_witness :
  ramdisk_read 1 10 rd_state =
    Some ((10, repeat Byte.x41 10), set_fh rd_state (<[1%nat := with_ptr (fh_at rd_state 1) 10]> (fh rd_state))).
Proof.
  eapply eq_trans;
    [apply (read_returns_bytes rd_state 1 (fh_at rd_state 1) (file_at rd_state 3)
              (match bufs rd_state !! data (file_at rd_state 3) with Some c => c | None => [] end) 10); concrete
    |vm_compute; reflexivity].
Defined.

(** X12: after a seek that succeeds, the position lies within the file and tell returns it. *)
Theorem seek_then_tell (s s' : state) h e n off whence p :
  0 <= h < MAX_FILES -> fh s !! Z.to_nat h = Some e -> fh_file e <> 0%N -> fh_dir e = 0 ->
  files s !! fh_file e = Some n -> (size n < 2 ^ 31)%N ->
  ramdisk_seek h off whence s = Some (p, s') -> p <> -1 ->
  0 <= p <= Z.of_N (size n) /\ ramdisk_tell h s' = Some (p, s').
Proof.
  intros Hh He Hf Hd Hn Hs Hsk Hp. unfold ramdisk_seek in Hsk.
  rewrite (bind_step _ _ _ _ _ (file_handle_valid s h e Hh He Hf Hd)) in Hsk.
  rewrite (get_file_bind _ _ n) in Hsk by exact Hn. cbv zeta in Hsk.
  match type of Hsk with context [match ?X with Some _ => _ | None => _ end] =>
    destruct X as [q|] end.
  - rewrite (update_fh_bind _ h e) in Hsk by (try lia; exact He).
    set (q' := if (size n <? q)%N then size n else q) in Hsk.
    assert (Hq : (q' <= size n)%N) by (subst q'; destruct (size n <? q)%N eqn:E;
                                        [lia|apply N.ltb_ge in E; lia]).
    unfold mret in Hsk. injection Hsk as <- <-. rewrite to_s32_small by lia.
    split; [lia|]. unfold ramdisk_tell.
    assert (Hl : (Z.to_nat h < length (fh s))%nat) by (eapply lookup_lt_Some; exact He).
    rewrite (bind_step _ _ _ _ _ (file_handle_valid (set_fh s (<[Z.to_nat h := with_ptr e q']> (fh s))) h (with_ptr e q') Hh
               ltac:(cbn; apply list_lookup_insert_eq; exact Hl) Hf Hd)).
    cbn [fh_ptr with_ptr]. rewrite to_s32_small by lia. reflexivity.
  - unfold set_errno_m in Hsk. rewrite modify_bind in Hsk. unfold mret in Hsk. congruence.
Qed.

Lemma seek_then_tell_witness :
  ramdisk_seek 1 5 SEEK_SET rd_state = Some (5, rd_sought) /\ ramdisk_tell 1 rd_sought = Some (5, rd_sought).
Proof.
  assert (H : ramdisk_seek 1 5 SEEK_SET rd_state = Some (5, rd_sought)) by concrete.
  split; [exact H|].
  apply (seek_then_tell rd_state rd_sought 1 (fh_at rd_state 1) (file_at rd_state 3) 5 SEEK_SET 5); concrete.
Defined.

Lemma wrote_read c p buf :
  (N.to_nat p + length buf <= length c)%nat ->
  take (length buf) (drop (N.to_nat p) (wrote c p buf)) = buf /\
  length (wrote c p buf) = length c.
Proof.
  intros H. unfold wrote. split.
  - rewrite drop_app_ge by (rewrite length_take; lia).
    rewrite length_take, Nat.min_l, Nat.sub_diag, drop_0 by lia.
    rewrite take_app_le, take_ge by lia. reflexivity.
  - rewrite !length_app, length_take, length_drop. lia.
Qed.

(** X13: bytes written within the data block are read back after seeking to where they were written, and total then reports max(size, end of the write). *)
Theorem write_seek_read (s : state) h e n c buf :
  0 <= h < MAX_FILES -> fh s !! Z.to_nat h = Some e -> fh_file e <> 0%N -> fh_dir e = 0 ->
  files s !! fh_file e = Some n -> openfor n = OPENFOR_WRITE ->
  bufs s !! data n = Some c -> N.of_nat (length c) = datasize n -> (size n <= datasize n)%N ->
  (fh_ptr e + N.of_nat (length buf) <= datasize n)%N ->
  (datasize n < 2 ^ 31 - 4096)%N ->
  exists s1 s2 s3,
    ramdisk_write h buf s = Some (Z.of_nat (length buf), s1) /\
    ramdisk_seek h (Z.of_N (fh_ptr e)) SEEK_SET s1 = Some (Z.of_N (fh_ptr e), s2) /\
    ramdisk_read h (N.of_nat (length buf)) s2 = Some ((Z.of_nat (length buf), buf), s3) /\
    ramdisk_total h s3 = Some (N.max (size n) (fh_ptr e + N.of_nat (length buf)), s3).
Proof.
  intros Hh He Hf Hd Hn Hw Hc Hl Hsd Hfit Hds.
  destruct (write_fits s h e n c buf Hh He Hf Hd Hn Hw Hc Hl ltac:(lia) Hfit)
    as [s1 [Hwr [He1 [Hsz [Hdt [Hdsz Hb]]]]]].
  destruct (files s1 !! fh_file e) as [n1|] eqn:Hn1; [|discriminate].
  cbn in Hsz, Hdt, Hdsz. injection Hsz as Hsz. injection Hdt as Hdt. injection Hdsz as Hdsz.
  set (e1 := with_ptr e (fh_ptr e + N.of_nat (length buf))) in He1.
  destruct (seek_spec s1 h e1 n1 (Z.of_N (fh_ptr e)) SEEK_SET Hh He1 Hf Hd Hn1
              ltac:(lia) ltac:(cbn; lia) ltac:(lia) ltac:(left; reflexivity)) as [_ Hsk].
  specialize (Hsk ltac:(unfold seek_target; cbn; lia)).
  unfold seek_target in Hsk. cbn [Z.eqb SEEK_SET] in Hsk.
  rewrite Z.min_l in Hsk by lia. rewrite N2Z.id in Hsk.
  set (s2 := set_fh s1 (<[Z.to_nat h := with_ptr e1 (fh_ptr e)]> (fh s1))) in Hsk.
  assert (Hl1 : (Z.to_nat h < length (fh s1))%nat) by (eapply lookup_lt_Some; exact He1).
  assert (He2 : fh s2 !! Z.to_nat h = Some (with_ptr e1 (fh_ptr e)))
    by (cbn; apply list_lookup_insert_eq; exact Hl1).
  assert (Hlen : (N.to_nat (fh_ptr e) + length buf <= length c)%nat) by lia.
  destruct (wrote_read c (fh_ptr e) buf Hlen) as [Hrd Hwl].
  pose proof (read_ok s2 h (with_ptr e1 (fh_ptr e)) n1 (wrote c (fh_ptr e) buf) (N.of_nat (length buf))
                Hh He2 Hf Hd Hn1 ltac:(cbn; rewrite Hdt; exact Hb) ltac:(cbn; lia)
                ltac:(rewrite Hwl; lia) ltac:(lia) ltac:(lia)) as Hr.
  cbn [fh_ptr with_ptr] in Hr.
  rewrite N.min_l in Hr by lia. rewrite Nat2N.id, nat_N_Z, Hrd in Hr.
  exists s1, s2. eexists. split; [exact Hwr|]. split; [exact Hsk|]. split; [exact Hr|].
  rewrite <- Hsz. apply (total_valid _ h (with_ptr (with_ptr e1 (fh_ptr e)) (fh_ptr e + N.of_nat (length buf))));
    [exact Hh| |exact Hf|exact Hd|exact Hn1].
  cbn. apply list_lookup_insert_eq. rewrite length_insert. exact Hl1.
Qed.

Lemma write_seek_read_witness :
  exists s1 s2 s3,
    ramdisk_write 1 bytes100 c1_state = Some (100, s1) /\
    ramdisk_seek 1 0 SEEK_SET s1 = Some (0, s2) /\
    ramdisk_read 1 100 s2 = Some ((100, bytes100), s3) /\
    ramdisk_total 1 s3 = Some (100%N, s3).
Proof.
  apply (write_seek_read c1_state 1 (fh_at c1_state 1) (file_at c1_state 3) (repeat Byte.x00 1024) bytes100);
    concrete.
Defined.


Lemma tolower_idem c : tolower (tolower c) = tolower c.
Proof. destruct c as [[] [] [] [] [] [] [] []]; reflexivity. Qed.

Lemma tolower_slash c : Ascii.eqb (tolower c) "/"%char = Ascii.eqb c "/"%char.
Proof. destruct c as [[] [] [] [] [] [] [] []]; reflexivity. Qed.

Lemma lower_length fn : String.length (lower fn) = String.length fn.
Proof. induction fn; simpl; congruence. Qed.

Lemma lower_empty fn : String.eqb (lower fn) EmptyString = String.eqb fn EmptyString.
Proof. destruct fn; reflexivity. Qed.

Lemma strncasecmp_lower a b n : strncasecmp_eq (lower a) b n = strncasecmp_eq a b n.
Proof.
  revert a b. induction n as [|n IH]; intros [|c1 r1] [|c2 r2]; try reflexivity.
  simpl. rewrite tolower_idem, IH. reflexivity.
Qed.

Lemma name_matches_lower nm seg : name_matches nm (lower seg) = name_matches nm seg.
Proof. unfold name_matches. rewrite lower_length, strncasecmp_lower. reflexivity. Qed.

Lemma find_in_lower fs l seg : find_in fs l (lower seg) = find_in fs l seg.
Proof.
  induction l as [|f l IH]; [reflexivity|]. simpl.
  destruct (fs !! f); [rewrite name_matches_lower|]; rewrite IH; reflexivity.
Qed.

Lemma ramdisk_find_lower s parent seg : ramdisk_find s parent (lower seg) = ramdisk_find s parent seg.
Proof. unfold ramdisk_find. destruct (dirs s !! parent); [apply find_in_lower|reflexivity]. Qed.

Lemma split_slashes_lower fn :
  split_slashes (lower fn) = (lower <$> fst (split_slashes fn), lower (snd (split_slashes fn))).
Proof.
  induction fn as [|c r IH]; [reflexivity|]. cbn [lower split_slashes].
  rewrite IH. destruct (split_slashes r) as [mids last]. cbn [fst snd].
  rewrite tolower_slash. destruct (Ascii.eqb c "/"%char); [reflexivity|].
  destruct mids; reflexivity.
Qed.

Lemma find_path_walk_lower s parent f mids :
  find_path_walk s parent f (lower <$> mids) = find_path_walk s parent f mids.
Proof.
  revert parent f. induction mids as [|seg mids IH]; intros parent f; [reflexivity|].
  cbn [fmap list_fmap find_path_walk]. rewrite lower_empty, ramdisk_find_lower.
  destruct (String.eqb seg EmptyString); [apply IH|].
  destruct (files s !! ramdisk_find s parent seg) as [n|]; [|reflexivity].
  destruct (is_dir n); [apply IH|reflexivity].
Qed.

Lemma find_path_lower s parent fn dir :
  ramdisk_find_path s parent (lower fn) dir = ramdisk_find_path s parent fn dir.
Proof.
  unfold ramdisk_find_path. rewrite split_slashes_lower.
  destruct (split_slashes fn) as [mids last]. cbn [fst snd].
  rewrite find_path_walk_lower. destruct (find_path_walk s parent 0%N mids) as [[p f]|]; [|reflexivity].
  rewrite lower_empty, ramdisk_find_lower. reflexivity.
Qed.

Lemma lower_slash p : String.eqb (lower p) "/" = String.eqb p "/".
Proof.
  destruct p as [|c [|c' r]]; [reflexivity| |].
  - destruct c as [[] [] [] [] [] [] [] []]; reflexivity.
  - transitivity false; [apply String.eqb_neq; discriminate|symmetry; apply String.eqb_neq; discriminate].
Qed.

(** X14: path lookup, stat and unlink ignore the case of letters. *)
Theorem lookups_ignore_case (s : state) p :
  ramdisk_find_path s (rootdir s) (lower p) false = ramdisk_find_path s (rootdir s) p false /\
  ramdisk_stat (lower p) s = ramdisk_stat p s /\
  ramdisk_unlink (lower p) s = ramdisk_unlink p s.
Proof.
  split; [apply find_path_lower|]. split.
  - unfold ramdisk_stat. rewrite lower_length, lower_slash. cbv zeta.
    destruct (_ || _); [reflexivity|]. rewrite !gets_bind, find_path_lower. reflexivity.
  - unfold ramdisk_unlink. rewrite !gets_bind, find_path_lower. reflexivity.
Qed.

Lemma find_path_walk_dir s parent f0 mids p f :
  find_path_walk s parent f0 mids = Some (p, f) ->
  f = f0 \/ exists n, files s !! f = Some n /\ is_dir n = true.
Proof.
  revert parent f0. induction mids as [|seg mids IH]; intros parent f0 H; cbn in H.
  - injection H as _ <-. left. reflexivity.
  - destruct (String.eqb seg EmptyString); [exact (IH _ _ H)|].
    destruct (files s !! ramdisk_find s parent seg) as [n|] eqn:En; [|discriminate].
    destruct (is_dir n) eqn:Ed; [|discriminate].
    destruct (IH _ _ H) as [->|Hx]; [right; exists n; split; assumption|right; exact Hx].
Qed.

(** X15: a node [ramdisk_find_path] returns is live, and is a directory exactly when a directory was asked for. *)
Theorem find_path_kind (s : state) parent fn dir f :
  ramdisk_find_path s parent fn dir = f -> f <> 0%N ->
  exists n, files s !! f = Some n /\ is_dir n = dir.
Proof.
  intros Hf Hf0. unfold ramdisk_find_path in Hf.
  destruct (split_slashes fn) as [mids last].
  destruct (find_path_walk s parent 0%N mids) as [[p g]|] eqn:Ew; [|congruence].
  destruct (negb (String.eqb last EmptyString)).
  - destruct (files s !! ramdisk_find s p last) as [n|] eqn:En; [|congruence].
    exists n. destruct dir, (is_dir n); cbn in Hf; try congruence; subst f; split; auto.
  - destruct dir; cbn in Hf; [|congruence]. subst g.
    destruct (find_path_walk_dir s parent 0%N mids p f Ew) as [->|Hx]; [contradiction|exact Hx].
Qed.

Lemma find_path_kind_witness :
  exists n, files c1_state !! 3%N = Some n /\ is_dir n = false.
Proof. apply (find_path_kind c1_state (rootdir c1_state) "f" false 3); concrete. Defined.


Lemma shutdown_nodes_spec l : forall s s',
  shutdown_nodes l s = Some (tt, s') ->
  root s' = root s /\ rootdir s' = rootdir s /\ fh s' = fh s /\
  (forall f, f ∈ l -> files s' !! f = None) /\
  (forall f, files s !! f = None -> files s' !! f = None).
Proof.
  induction l as [|f l IH]; intros s s' H; cbn [shutdown_nodes] in H.
  - unfold mret in H. injection H as <-. repeat split; auto. intros f Hf. inversion Hf.
  - unfold mbind at 1, get_file in H. destruct (files s !! f) as [n|] eqn:En; [|discriminate].
    unfold mbind at 1 in H.
    destruct ((if is_dir n then free_dir (data n) else free (data n)) s) as [[[] s1]|] eqn:E1; [|discriminate].
    assert (F1 : root s1 = root s /\ rootdir s1 = rootdir s /\ fh s1 = fh s /\ files s1 = files s).
    { destruct (is_dir n); unfold free_dir, free, modify, mret in E1;
        [injection E1 as <-; repeat split; reflexivity|].
      destruct (data n =? 0)%N; [injection E1 as <-; repeat split; reflexivity|].
      destruct (bufs s !! data n); [injection E1 as <-; repeat split; reflexivity|discriminate]. }
    rewrite modify_bind in H.
    destruct (IH _ _ H) as [A [B [C [D G]]]]. cbn in A, B, C.
    destruct F1 as [F1 [F2 [F3 F4]]].
    split; [congruence|]. split; [congruence|]. split; [congruence|]. split.
    + intros g Hg. apply elem_of_cons in Hg as [->|Hg]; [|apply D, Hg].
      apply G. cbn. rewrite F4. apply lookup_delete_eq.
    + intros g Hg. apply G. cbn. rewrite F4. destruct (decide (g = f)) as [->|Hne];
        [apply lookup_delete_eq|rewrite lookup_delete_ne by congruence; exact Hg].
Qed.

(** X16: [fs_ramdisk_shutdown] does nothing before init; otherwise it frees the children of the root and the root node but leaves [rootdir] and [root] set, so a later [fs_ramdisk_init] does nothing. *)
Theorem shutdown_leaves_rootdir (s s' : state) :
  (rootdir s = 0%N -> fs_ramdisk_shutdown s = Some (tt, s)) /\
  (rootdir s <> 0%N -> fs_ramdisk_shutdown s = Some (tt, s') ->
   rootdir s' = rootdir s /\ root s' = root s /\ fh s' = fh s /\
   files s' !! root s = None /\ dirs s' !! rootdir s = None /\
   (forall l f, dirs s !! rootdir s = Some l -> f ∈ l -> files s' !! f = None) /\
   fs_ramdisk_init s' = Some (tt, s')).
Proof.
  split.
  - intros H. unfold fs_ramdisk_shutdown. rewrite gets_bind, H. reflexivity.
  - intros H0 H. unfold fs_ramdisk_shutdown in H. rewrite gets_bind in H.
    destruct (rootdir s =? 0)%N eqn:E; [apply N.eqb_eq in E; contradiction|].
    unfold mbind at 1 in H. destruct (dirs s !! rootdir s) as [l|] eqn:El; [|discriminate].
    unfold mbind at 1 in H. destruct (shutdown_nodes l s) as [[[] s1]|] eqn:E1; [|discriminate].
    destruct (shutdown_nodes_spec l s s1 E1) as [A [B [C [D G]]]].
    unfold free_dir in H. rewrite modify_bind, gets_bind in H.
    unfold mbind, get_file in H. cbn in H. destruct (files s1 !! root s1); [|discriminate].
    unfold modify in H. injection H as <-. cbn.
    split; [exact B|]. split; [exact A|]. split; [exact C|]. split; [rewrite A; apply lookup_delete_eq|].
    split; [apply lookup_delete_eq|]. split.
    + intros l' f Hl Hf. injection Hl as <-.
      destruct (decide (f = root s1)) as [->|Hne]; [apply lookup_delete_eq|].
      rewrite lookup_delete_ne by congruence. apply D, Hf.
    + rewrite B, E. reflexivity.
Qed.

Lemma shutdown_leaves_rootdir_witness :
  rootdir c1_shut = rootdir c1_state /\ files c1_shut !! 3%N = None /\
  fs_ramdisk_init c1_shut = Some (tt, c1_shut).
Proof.
  destruct (proj2 (shutdown_leaves_rootdir c1_state c1_shut) ltac:(concrete) ltac:(concrete))
    as (H1 & _ & _ & _ & _ & H6 & H7).
  split; [exact H1|]. split; [|exact H7].
  apply (H6 [5%N; 3%N]); [concrete|]. right. left.
Defined.

(** X17: when the allocation of the root node or of its name fails in [fs_ramdisk_init], [rootdir] stays set to the freed list head, and every later init does nothing. *)
Theorem init_failure_sticks (s : state) r :
  rootdir s = 0%N -> brk s <> 0%N ->
  oracle s = true :: false :: r \/ oracle s = true :: true :: false :: r ->
  exists s', fs_ramdisk_init s = Some (tt, s') /\
    rootdir s' = brk s /\ dirs s' !! rootdir s' = None /\ files s' = files s /\
    fs_ramdisk_init s' = Some (tt, s').
Proof.
  intros H0 Hb Ho. unfold fs_ramdisk_init.
  rewrite gets_bind, H0. cbn [N.eqb negb]. cbv iota.
  unfold malloc_dir. rewrite !bind_assoc.
  destruct Ho as [Ho|Ho];
    (unfold mbind at 1, alloc_ok; rewrite Ho; cbn [set_oracle];
     unfold mbind, fresh, modify, mret, malloc_node, alloc_ok, strdup, free_dir; cbn;
     destruct (brk s =? 0)%N eqn:E; [apply N.eqb_eq in E; contradiction|]; cbn).
  - eexists. split; [reflexivity|]. cbn. split; [reflexivity|]. split; [apply lookup_delete_eq|].
    split; [reflexivity|]. unfold fs_ramdisk_init, gets, mbind. cbn. rewrite E. reflexivity.
  - destruct (brk s + 1 =? 0)%N eqn:E2; [apply N.eqb_eq in E2; lia|]. cbn.
    eexists. split; [reflexivity|]. cbn. split; [reflexivity|]. split; [apply lookup_delete_eq|].
    split; [reflexivity|]. unfold fs_ramdisk_init, gets, mbind. cbn. rewrite E. reflexivity.
Qed.

Lemma init_failure_sticks_witness :
  exists s', fs_ramdisk_init (boot [true; false]) = Some (tt, s') /\ rootdir s' = 1%N /\
    fs_ramdisk_init s' = Some (tt, s').
Proof.
  destruct (init_failure_sticks (boot [true; false]) [] ltac:(concrete) ltac:(concrete) ltac:(left; concrete))
    as (s' & H1 & H2 & _ & _ & H5).
  exists s'. split; [exact H1|]. split; [exact H2|exact H5].
Defined.


Section Holds.
Context (R : relation state).

Lemma holds_ret `{!Reflexive R} {A} (a : A) : holds R (mret a).
Proof. intros s. cbn. reflexivity. Qed.

Lemma holds_bind `{!Transitive R} {A B} (m : M A) (k : A -> M B) :
  holds R m -> (forall a, holds R (k a)) -> holds R (mbind m k).
Proof.
  intros Hm Hk s. unfold wp, mbind. specialize (Hm s). unfold wp in Hm.
  destruct (m s) as [[a s1]|]; [|exact I].
  specialize (Hk a s1). unfold wp in Hk. destruct (k a s1) as [[b s2]|]; [|exact I].
  etransitivity; eassumption.
Qed.

Lemma holds_crash {A} : holds R (@crash A).
Proof. intros s. exact I. Qed.

Lemma holds_gets `{!Reflexive R} {A} (f : state -> A) : holds R (gets f).
Proof. intros s. cbn. reflexivity. Qed.

Lemma holds_get_file `{!Reflexive R} p : holds R (get_file p).
Proof. intros s. unfold wp, get_file. destruct (files s !! p); [reflexivity|exact I]. Qed.

Lemma holds_get_fh `{!Reflexive R} fd : holds R (get_fh fd).
Proof.
  intros s. unfold wp, get_fh. destruct (fd <? 0); [exact I|].
  destruct (fh s !! Z.to_nat fd); [reflexivity|exact I].
Qed.

Lemma holds_modify g : (forall s, R s (g s)) -> holds R (modify g).
Proof. intros Hg s. apply Hg. Qed.

End Holds.

Ltac holds_tac prim close :=
  repeat (cbv zeta;
    first
    [ prim
    | apply holds_crash
    | (apply holds_ret || apply holds_gets || apply holds_get_file || apply holds_get_fh); typeclasses eauto
    | apply holds_bind; [typeclasses eauto| |intros ?]
    | match goal with
      | |- holds _ (if ?b then _ else _) => destruct b
      | |- holds _ (match ?x with _ => _ end) => destruct x
      | |- holds _ (modify _) => apply holds_modify; intros ?; close
      | |- holds _ (fun x => @?b x) =>
          let s := fresh "s" in intros s; unfold wp; cbv beta; repeat case_match; simplify_eq/=; try exact I;
          close
      end ]).

Lemma wp_heap_only {A} (m : M A) Q s :
  (forall s' a, m s = Some (a, s') -> fh s' = fh s /\ files s' = files s) ->
  (forall a s', fh s' = fh s -> files s' = files s -> Q a s') -> wp m Q s.
Proof. intros H HQ. unfold wp. destruct (m s) as [[a s']|] eqn:E; [|exact I]. destruct (H s' a eq_refl). auto. Qed.

Lemma free_heap_only p s s' a : free p s = Some (a, s') -> fh s' = fh s /\ files s' = files s.
Proof.
  unfold free, mret. destruct (p =? 0)%N; [intros H; injection H as _ <-; auto|].
  destruct (bufs s !! p); intros H; [injection H as _ <-; auto|discriminate].
Qed.

Lemma malloc_heap_only k s s' a : malloc k s = Some (a, s') -> fh s' = fh s /\ files s' = files s.
Proof.
  unfold malloc, mbind, alloc_ok, fresh, modify, mret.
  destruct (oracle s) as [|[] r]; intros H; injection H as _ <-; auto.
Qed.

Lemma commit_slot f fd mode s1 e0 n :
  0 <= fd -> fh s1 !! Z.to_nat fd = Some e0 -> files s1 !! f = Some n ->
  wp (open_commit f fd mode) (fun ok s3 => ok = true ->
    exists e3 n3, fh s3 !! Z.to_nat fd = Some e3 /\ fh_file e3 = f /\ fh_omode e3 = mode /\
      fh_dir e3 = Z.land mode O_DIR /\ files s3 !! f = Some n3 /\
      fh_ptr e3 = (if wmode mode && negb (Z.land mode O_APPEND =? 0) then size n3 else 0%N) /\
      (wmode mode && (Z.land mode O_APPEND =? 0) && negb (Z.land mode O_TRUNC =? 0) = true ->
       size n3 = 0%N)) s1.
Proof.
  intros Hfd He0 Hn. pose proof (lookup_lt_Some _ _ _ He0) as Hl. unfold open_commit. cbv zeta.
  apply wp_bind, wp_update_fh. intros e _ He. rewrite He0 in He. injection He as <-.
  set (e1 := with_omode (with_dir (with_file e0 f) (Z.land mode O_DIR)) mode).
  unfold wmode. destruct (Z.land mode O_MODE_MASK =? O_RDONLY) eqn:Em; cbn [negb andb].
  - apply wp_bind, wp_update_file. intros n2 Hn2. cbn in Hn2. rewrite Hn in Hn2. injection Hn2 as <-.
    apply wp_bind, wp_update_fh. intros e _ He. cbn in He.
    rewrite list_lookup_insert_eq in He by exact Hl. injection He as <-.
    apply wp_ret. intros _. eexists _, _. cbn.
    split; [apply list_lookup_insert_eq; rewrite length_insert; exact Hl|].
    split; [reflexivity|]. split; [reflexivity|]. split; [reflexivity|].
    split; [apply lookup_insert_eq|]. split; [reflexivity|discriminate].
  - destruct (negb (Z.land (Z.land mode O_MODE_MASK) O_RDWR =? 0) || negb (Z.land (Z.land mode O_MODE_MASK) O_WRONLY =? 0));
      [|apply wp_crash].
    apply wp_bind, wp_get_file. intros n2 Hn2. cbn in Hn2. rewrite Hn in Hn2. injection Hn2 as <-.
    destruct (openfor n =? OPENFOR_READ); [apply wp_ret; discriminate|].
    apply wp_bind, wp_update_file. intros n3 Hn3. cbn in Hn3. rewrite Hn in Hn3. injection Hn3 as <-.
    destruct (Z.land mode O_APPEND =? 0) eqn:Ea; cbn [negb].
    + destruct (Z.land mode O_TRUNC =? 0) eqn:Et; cbn [negb].
      * apply wp_bind, wp_update_fh. intros e _ He. cbn in He.
        rewrite list_lookup_insert_eq in He by exact Hl. injection He as <-.
        apply wp_ret. intros _. eexists _, _. cbn.
        split; [apply list_lookup_insert_eq; rewrite length_insert; exact Hl|].
        split; [reflexivity|]. split; [reflexivity|]. split; [reflexivity|].
        split; [apply lookup_insert_eq|]. split; [reflexivity|discriminate].
      * apply wp_bind. apply wp_heap_only; [apply free_heap_only|]. intros _ s4 F4 G4.
        apply wp_bind. apply wp_heap_only; [apply malloc_heap_only|]. intros d s5 F5 G5.
        apply wp_bind, wp_update_file. intros n5 Hn5. rewrite G5, G4 in Hn5. cbn in Hn5.
        rewrite lookup_insert_eq in Hn5. injection Hn5 as <-.
        apply wp_bind, wp_update_fh. intros e _ He. cbn in He. rewrite F5, F4 in He. cbn in He.
        rewrite list_lookup_insert_eq in He by exact Hl. injection He as <-.
        apply wp_ret. intros _. eexists _, _. cbn.
        split; [rewrite F5, F4; cbn; apply list_lookup_insert_eq; rewrite !length_insert; exact Hl|].
        split; [reflexivity|]. split; [reflexivity|]. split; [reflexivity|].
        split; [apply lookup_insert_eq|]. split; reflexivity.
    + apply wp_bind, wp_update_fh. intros e _ He. cbn in He.
      rewrite list_lookup_insert_eq in He by exact Hl. injection He as <-.
      apply wp_ret. intros _. eexists _, _. cbn.
      split; [apply list_lookup_insert_eq; rewrite length_insert; exact Hl|].
      split; [reflexivity|]. split; [reflexivity|]. split; [reflexivity|].
      split; [apply lookup_insert_eq|]. split; [reflexivity|].
      cbn. discriminate.
Qed.

Lemma open_slot p mode s :
  wp (ramdisk_open p mode) (fun fd s' => fd <> 0 ->
    1 <= fd < MAX_FILES /\
    exists e n, fh s' !! Z.to_nat fd = Some e /\ fh_file e <> 0%N /\ files s' !! fh_file e = Some n /\
      fh_omode e = mode /\ fh_dir e = Z.land mode O_DIR /\
      (Z.land mode O_DIR = 0 -> fh_ptr e = if append_cursor mode then size n else 0%N) /\
      (truncates mode = true -> size n = 0%N)) s.
Proof.
  unfold ramdisk_open. cbv zeta.
  destruct (_ && _); [apply wp_ret; intros HH; contradiction|].
  apply wp_bind. unfold wp at 1. destruct (open_lookup (strip_slash p) mode s) as [[f s1]|]; [|exact I].
  destruct (f =? 0)%N eqn:Ef; [apply wp_ret; intros HH; contradiction|]. apply N.eqb_neq in Ef.
  apply wp_bind, wp_get_file. intros n Hn.
  destruct (_ && _); [apply wp_ret; intros HH; contradiction|].
  apply wp_bind, wp_gets.
  destruct (find_free_fd (fh s1) >=? MAX_FILES) eqn:Efd; [apply wp_ret; intros HH; contradiction|].
  rewrite Z.geb_leb in Efd. apply Z.leb_gt in Efd.
  destruct (find_free_fd_spec _ Efd) as [e0 [He0 Hz]].
  pose proof (find_free_fd_pos (fh s1)) as Hpos.
  set (fd := find_free_fd (fh s1)) in *.
  destruct (openfor n =? OPENFOR_WRITE).
  { unfold open_error_out. apply wp_bind, wp_update_fh. intros. apply wp_ret. intros HH; contradiction. }
  apply wp_bind. eapply wp_mono; [apply (commit_slot f fd mode s1 e0 n ltac:(lia) He0 Hn)|].
  intros ok s3 Hok. destruct ok; cbn [negb];
    [|unfold open_error_out; apply wp_bind, wp_update_fh; intros; apply wp_ret; intros HH; contradiction].
  destruct (Hok eq_refl) as (e3 & n3 & He3 & Hf3 & Ho3 & Hd3 & Hn3 & Hp3 & Ht3). clear Hok.
  pose proof (lookup_lt_Some _ _ _ He3) as Hl3.
  apply wp_bind.
  eapply wp_mono with (Q := fun _ s4 => files s4 = files s3 /\
    exists e4, fh s4 !! Z.to_nat fd = Some e4 /\ fh_file e4 = f /\ fh_omode e4 = mode /\
      fh_dir e4 = Z.land mode O_DIR /\
      (Z.land mode O_DIR = 0 -> fh_ptr e4 = if append_cursor mode then size n3 else 0%N)).
  { destruct (negb (Z.land mode O_DIR =? 0)) eqn:Eo.
    - apply wp_bind, wp_get_file. intros n4 _. apply wp_bind.
      unfold wp at 1, list_first.
      destruct (dirs s3 !! data n4) as [[|x l]|]; try exact I;
        apply wp_update_fh; intros e _ He; rewrite He3 in He; injection He as <-;
        (split; [reflexivity|]); eexists; cbn;
        (split; [apply list_lookup_insert_eq; exact Hl3|]);
        (split; [exact Hf3|]); (split; [exact Ho3|]); (split; [exact Hd3|]);
        intros Hd; rewrite Hd in Eo; discriminate.
    - apply wp_ret. split; [reflexivity|]. exists e3. repeat split; auto. }
  intros _ s4 [G4 (e4 & He4 & Hf4 & Ho4 & Hd4 & Hp4)].
  apply wp_bind, wp_update_file. intros n4 Hn4. rewrite G4, Hn3 in Hn4. injection Hn4 as <-.
  apply wp_ret. intros _. split; [lia|].
  exists e4, (with_usage n3 (usage n3 + 1)). cbn.
  split; [exact He4|]. split; [congruence|]. split; [rewrite Hf4; apply lookup_insert_eq|].
  split; [exact Ho4|]. split; [exact Hd4|]. split; [exact Hp4|]. exact Ht3.
Qed.

Lemma fcntl_getfl_ok (s : state) h e :
  0 <= h < MAX_FILES -> fh s !! Z.to_nat h = Some e -> fh_file e <> 0%N ->
  ramdisk_fcntl h F_GETFL s = Some (fh_omode e, s).
Proof.
  intros Hh He Hf. unfold ramdisk_fcntl.
  destruct (h <? MAX_FILES) eqn:E; [|apply Z.ltb_ge in E; lia].
  rewrite bind_assoc, (get_fh_bind _ h e) by (try lia; exact He). rewrite mret_bind.
  destruct (fh_file e =? 0)%N eqn:E2; [apply N.eqb_eq in E2; contradiction|].
  reflexivity.
Qed.

(** X18: a handle returned by [ramdisk_open] lies in [1, FS_RAMDISK_MAX_FILES) and F_GETFL returns the mode it was opened with; on a file, total is its size, tell is 0 (the size with a writable O_APPEND), and a writable O_TRUNC without O_APPEND leaves the size 0. *)
Theorem open_then_query (s s' : state) p mode fd :
  ramdisk_open p mode s = Some (fd, s') -> fd <> 0 ->
  1 <= fd < MAX_FILES /\ ramdisk_fcntl fd F_GETFL s' = Some (mode, s') /\
  (Z.land mode O_DIR = 0 -> exists n,
     ramdisk_total fd s' = Some (size n, s') /\
     ramdisk_tell fd s' = Some (to_s32 (if append_cursor mode then size n else 0%N), s') /\
     (truncates mode = true -> size n = 0%N)).
Proof.
  intros Ho Hfd. pose proof (open_slot p mode s) as W. unfold wp in W. rewrite Ho in W.
  destruct (W Hfd) as [Hr (e & n & He & Hf & Hn & Hom & Hd & Hp & Ht)]. clear W.
  split; [exact Hr|]. split; [rewrite <- Hom; apply fcntl_getfl_ok; (lia || assumption)|].
  intros Hdir. exists n. rewrite Hdir in Hd.
  split; [apply (total_valid s' fd e n); (lia || assumption)|].
  split; [|exact Ht].
  unfold ramdisk_tell. rewrite (file_handle_bind _ fd e) by (lia || assumption).
  rewrite (Hp Hdir). reflexivity.
Qed.

Lemma open_then_query_witness :
  ramdisk_open "h" O_WRONLY c1_state = Some (3, c1_opened) /\
  ramdisk_fcntl 3 F_GETFL c1_opened = Some (O_WRONLY, c1_opened).
Proof.
  assert (H : ramdisk_open "h" O_WRONLY c1_state = Some (3, c1_opened)) by concrete.
  split; [exact H|]. apply (open_then_query c1_state c1_opened "h" O_WRONLY 3 H); concrete.
Defined.


#[export] Instance dir_kept_refl : Reflexive dir_kept.
Proof. intros s. split; [reflexivity|]. intros f n H Hd. eauto. Qed.
#[export] Instance dir_kept_trans : Transitive dir_kept.
Proof.
  intros a b c [R1 N1] [R2 N2]. split; [congruence|].
  intros f n H Hd. destruct (N2 f n H Hd) as (m & Hm & Hdm). exact (N1 f m Hm Hdm).
Qed.

Lemma no_new_dir_refl m : no_new_dir m m.
Proof. intros f n H Hd. eauto. Qed.

Lemma no_new_dir_delete m p : no_new_dir m (delete p m).
Proof. intros f n H Hd. apply lookup_delete_Some in H as [_ H]. eauto. Qed.

Lemma no_new_dir_insert_file m p x : is_dir x = false -> no_new_dir m (<[p := x]> m).
Proof.
  intros Hx f n H Hd. apply lookup_insert_Some in H as [[_ <-]|[_ H]]; [congruence|eauto].
Qed.

Lemma no_new_dir_insert_same m p n x : m !! p = Some n -> is_dir x = is_dir n ->
  no_new_dir m (<[p := x]> m).
Proof.
  intros Hp Hx f n' H Hd. apply lookup_insert_Some in H as [[<- <-]|[_ H]]; [|eauto].
  exists n. split; [exact Hp|congruence].
Qed.

Lemma dir_kept_update_file p g : (forall n, is_dir (g n) = is_dir n) -> holds dir_kept (update_file p g).
Proof.
  intros Hg s. unfold wp, update_file, mbind, get_file, put_file, modify.
  destruct (files s !! p) as [n|] eqn:E; [|exact I].
  split; [reflexivity|]. cbn. eapply no_new_dir_insert_same; [exact E|apply Hg].
Qed.

Ltac dir_close :=
  cbn; split; [reflexivity|];
  first [ apply no_new_dir_refl | apply no_new_dir_delete
        | apply no_new_dir_insert_file; reflexivity ].

Ltac dir_prim :=
  first [ apply dir_kept_update_file; intros; reflexivity ].

Lemma dir_kept_create_file parent fn : holds dir_kept (ramdisk_create_file parent fn false).
Proof.
  unfold ramdisk_create_file, ramdisk_get_parent, malloc, malloc_node, malloc_dir, strdup, alloc_ok,
    fresh, free, put_file, list_insert_head.
  holds_tac fail dir_close.
Qed.

Lemma dir_kept_open_lookup fn mode : holds dir_kept (open_lookup fn mode).
Proof.
  unfold open_lookup. cbv zeta.
  destruct (negb (Z.land mode O_DIR =? 0)); destruct (negb (Z.land mode O_MODE_MASK =? O_RDONLY));
    cbn [andb negb]; holds_tac ltac:(apply dir_kept_create_file) dir_close.
Qed.

Lemma dir_kept_open fn mode : holds dir_kept (ramdisk_open fn mode).
Proof.
  unfold ramdisk_open, open_commit, open_error_out, update_fh, put_fh, list_first,
    free, malloc, alloc_ok, fresh.
  holds_tac ltac:(first [apply dir_kept_open_lookup | dir_prim]) dir_close.
Qed.

Lemma dir_kept_close h : holds dir_kept (ramdisk_close h).
Proof.
  intros s. unfold ramdisk_close. cbv zeta.
  destruct (h <? MAX_FILES); [|apply wp_ret; reflexivity].
  apply wp_bind, wp_get_fh. intros e _ _.
  destruct (fh_file e =? 0)%N; [apply wp_ret; reflexivity|].
  apply wp_bind, wp_update_fh. intros e' _ _.
  apply wp_bind, wp_get_file. intros n Hn. apply wp_bind, wp_put_file.
  set (s2 := set_files _ _).
  assert (D2 : dir_kept s s2).
  { split; [reflexivity|]. cbn. eapply no_new_dir_insert_same; [exact Hn|reflexivity]. }
  destruct (usage n - 1 <? 0); [apply wp_crash|].
  destruct (usage n - 1 =? 0); [|apply wp_ret; exact D2].
  apply wp_bind. eapply wp_mono; [apply (dir_kept_update_file (fh_file e) (fun n => with_openfor n OPENFOR_NOTHING) (fun _ => eq_refl) s2)|].
  intros a s3 D3. apply wp_ret. etransitivity; eassumption.
Qed.

Lemma dir_kept_unlink fn : holds dir_kept (ramdisk_unlink fn).
Proof. unfold ramdisk_unlink, free, list_remove. holds_tac fail dir_close. Qed.

Ltac dir_tac :=
  unfold ramdisk_read, ramdisk_write, ramdisk_seek, ramdisk_tell, ramdisk_total,
    ramdisk_readdir, ramdisk_mmap, ramdisk_stat, ramdisk_fcntl, ramdisk_rewinddir, ramdisk_fstat,
    fs_ramdisk_attach, fs_ramdisk_detach, user_buffer,
    file_handle, memcpy_from, memcpy_into, realloc, update_fh, put_fh, set_errno_m, list_first,
    free, malloc, alloc_ok, fresh;
  holds_tac ltac:(first [ apply dir_kept_open | apply dir_kept_close | apply dir_kept_unlink
                        | dir_prim ]) dir_close.

Lemma dir_kept_exec o : o <> OpInit -> holds dir_kept (exec o).
Proof. intros Ho. destruct o; cbn [exec]; [dir_tac..|congruence|dir_tac|dir_tac]. Qed.

(** X19: in every reachable state the root is the only directory node: no operation creates a directory. *)
Theorem only_root_is_dir (s : state) :
  reachable s -> forall f n, files s !! f = Some n -> is_dir n = true -> f = root s.
Proof.
  induction 1 as [|s o s' Hr IH Hs].
  - intros f n H Hd.
    assert (E : files fresh_fs = <[root fresh_fs := file_at fresh_fs (root fresh_fs)]> ∅)
      by (vm_compute; reflexivity).
    rewrite E in H. apply lookup_insert_Some in H as [[<- _]|[_ H]]; [reflexivity|].
    rewrite lookup_empty in H. discriminate.
  - assert (Hk : o = OpInit \/ o <> OpInit)
      by (destruct o; [right; discriminate..|left; reflexivity|right; discriminate|right; discriminate]).
    destruct Hk as [->|Ho].
    + unfold step in Hs. cbn [exec] in Hs. pose proof (reachable_inv s Hr) as I.
      unfold fs_ramdisk_init in Hs. rewrite gets_bind in Hs.
      destruct (N.eqb_spec (rootdir s) 0) as [E|E]; [exfalso; exact (li_root _ _ _ _ I E)|].
      cbn in Hs. injection Hs as <-. exact IH.
    + pose proof (dir_kept_exec o Ho s) as W. unfold wp in W. unfold step in Hs. rewrite Hs in W.
      destruct W as [Er Nd]. intros f n H Hd. destruct (Nd f n H Hd) as (m & Hm & Hdm).
      rewrite Er. exact (IH f m Hm Hdm).
Qed.

Lemma only_root_is_dir_witness :
  reachable c1_state /\ files c1_state !! root c1_state = Some (file_at c1_state (root c1_state)) /\
  root c1_state = root c1_state.
Proof.
  assert (R : reachable c1_state)
    by (apply (reachable_run c1_run fresh_fs); [constructor|vm_compute; reflexivity]).
  split; [exact R|]. split; [concrete|].
  apply (only_root_is_dir c1_state R (root c1_state) (file_at c1_state (root c1_state))); concrete.
Defined.

(** ** Attach on a full handle table *)

#[export] Instance fh_kept_refl : Reflexive fh_kept := fun s => eq_refl.
#[export] Instance fh_kept_trans : Transitive fh_kept :=
  fun a b c (H1 : fh b = fh a) (H2 : fh c = fh b) => eq_trans H2 H1.

Ltac fh_close := cbn; reflexivity.

Lemma fh_kept_create_file parent fn dir : holds fh_kept (ramdisk_create_file parent fn dir).
Proof.
  unfold ramdisk_create_file, ramdisk_get_parent, malloc, malloc_node, malloc_dir, strdup, alloc_ok,
    fresh, free, put_file, list_insert_head.
  holds_tac fail fh_close.
Qed.

Lemma fh_kept_open_lookup fn mode : holds fh_kept (open_lookup fn mode).
Proof. unfold open_lookup. holds_tac ltac:(apply fh_kept_create_file) fh_close. Qed.

(** With slots 1 to [FS_RAMDISK_MAX_FILES - 1] all taken, [ramdisk_open]
    returns NULL whenever it completes. *)
Lemma open_full_null (s : state) p mode :
  (forall i, (1 <= i < FS_RAMDISK_MAX_FILES)%nat -> exists e, fh s !! i = Some e /\ fh_file e <> 0%N) ->
  wp (ramdisk_open p mode) (fun fd _ => fd = 0) s.
Proof.
  intros Hfull. unfold ramdisk_open. cbv zeta.
  destruct (_ && _); [apply wp_ret; reflexivity|].
  apply wp_bind. eapply wp_mono; [apply fh_kept_open_lookup|]. intros f s1 K1.
  destruct (f =? 0)%N; [apply wp_ret; reflexivity|].
  apply wp_bind, wp_get_file. intros n _.
  destruct (_ && _); [apply wp_ret; reflexivity|].
  apply wp_bind, wp_gets. unfold fh_kept in K1. rewrite K1, (find_free_fd_full _ Hfull).
  rewrite Z.geb_leb, Z.leb_refl. apply wp_ret. reflexivity.
Qed.

(** ** C4: attach then detach returns the block *)

(** C4 (corrected): for a path [p] naming a file position directly in the
    root (no '/' after the leading one), whose parent (the root list) exists,
    and with the next allocations succeeding: when a handle slot is free and
    the client block [B] was allocated before ([B < brk]), if no child of
    the root matches [p], or if exactly one does and it is a file with
    [usage = 0], [openfor = OPENFOR_NOTHING] and a live data block other
    than [B], then [attach(p, B, sz)] returns 0, [detach(p)] then returns 0
    with [B] and [sz], [B]'s contents are unchanged and [p] no longer
    resolves.  When slots 1 to [FS_RAMDISK_MAX_FILES - 1] are all taken,
    [attach] returns -1 whenever it completes, and it does complete with -1
    when [p] is absent. *)
Theorem C4_attach_detach_roundtrip (s : state) p B sz L :
  strip_slash p <> EmptyString -> split_last_slash (strip_slash p) = None ->
  dirs s !! rootdir s = Some L -> oracle s = [] -> brk s <> 0%N ->
  (find_free_fd (fh s) < MAX_FILES -> (B < brk s)%N ->
   ((forall g m, In g L -> files s !! g = Some m ->
        name_matches (name m) (strip_slash p) = false) ->
    attach_detach_ok s p B sz) /\
   (forall f n c, f <> 0%N -> In f L -> files s !! f = Some n ->
      name_matches (name n) (strip_slash p) = true ->
      (forall g m, In g L -> files s !! g = Some m ->
         name_matches (name m) (strip_slash p) = true -> g = f) ->
      is_dir n = false -> usage n = 0 -> openfor n = OPENFOR_NOTHING ->
      data n <> 0%N -> bufs s !! data n = Some c -> B <> data n ->
      attach_detach_ok s p B sz)) /\
  ((forall i, (1 <= i < FS_RAMDISK_MAX_FILES)%nat ->
      exists e, fh s !! i = Some e /\ fh_file e <> 0%N) ->
   (forall r s', fs_ramdisk_attach p B sz s = Some (r, s') -> r = -1) /\
   (ramdisk_find_path s (rootdir s) (strip_slash p) false = 0%N ->
    exists s', fs_ramdisk_attach p B sz s = Some (-1, s'))).
Proof.
  intros Hseg Hsl HL Ho Hbrk. pose proof (strip_slash_noslash _ Hsl) as Hss.
  split; [intros Hfree HB; split|].
  - intros Hnone.
    assert (Hfp : ramdisk_find_path s (rootdir s) (strip_slash p) false = 0%N).
    { rewrite (find_path_root_leaf s (strip_slash p) L 0%N) by (rewrite ?Hss; try assumption;
        apply find_in_none; exact Hnone).
      destruct (files s !! 0%N) as [m|]; [destruct (is_dir m)|]; reflexivity. }
    pose proof (create_file_root s (strip_slash p) L Hsl Ho Hbrk HL) as Hcr.
    pose proof (open_lookup_create s _ (strip_slash p) trunc_mode (brk s) Hseg eq_refl
                  ltac:(discriminate) Hfp Hcr) as Hlk.
    destruct (roundtrip_core s _ p B sz (brk s)
                (mk_rd_file (strip_slash p) 0 STAT_TYPE_FILE OPENFOR_NOTHING 0 (brk s + 1) 1024)
                (repeat Byte.x00 1024) (brk s :: L) Hseg Hsl Hlk Hbrk)
      as [s1 [Ha [s2 [Hd [Hb Hp]]]]].
    + cbn. apply lookup_insert_eq.
    + left. reflexivity.
    + cbn. apply lookup_insert_eq.
    + apply name_matches_refl.
    + intros g m [<-|Hg] Hm Hmt; [reflexivity|].
      destruct (decide (g = brk s)) as [->|Hne]; [reflexivity|].
      cbn in Hm. rewrite lookup_insert_ne in Hm by congruence.
      rewrite (Hnone g m Hg Hm) in Hmt. discriminate.
    + reflexivity.
    + reflexivity.
    + reflexivity.
    + cbn. lia.
    + cbn. apply lookup_insert_eq.
    + exact Hfree.
    + exact Ho.
    + cbn. lia.
    + cbn. lia.
    + exists s1. split; [exact Ha|]. exists s2. split; [exact Hd|]. split; [|exact Hp].
      rewrite Hb. cbn. apply lookup_insert_ne. lia.
  - intros f n c Hf0 Hin Hn Hname Huniq Hnd Hu Hof Hd Hc HBd.
    assert (Hfp : ramdisk_find_path s (rootdir s) (strip_slash p) false = f).
    { rewrite (find_path_root_leaf s (strip_slash p) L f) by (rewrite ?Hss; try assumption;
        apply (find_in_unique _ _ _ f n); assumption).
      rewrite Hn, Hnd. reflexivity. }
    pose proof (open_lookup_found s (strip_slash p) trunc_mode f Hseg eq_refl Hfp Hf0) as Hlk.
    apply (roundtrip_core s s p B sz f n c L); try assumption.
    split; [exact HBd|]. lia.
  - intros Hfull. split.
    + intros r s' H.
      assert (W : wp (fs_ramdisk_attach p B sz) (fun r _ => r = -1) s).
      { unfold fs_ramdisk_attach. apply wp_bind.
        eapply wp_mono; [apply (open_full_null s p trunc_mode Hfull)|].
        intros fd s1 E. cbv beta in E. subst fd. apply wp_ret. reflexivity. }
      unfold wp in W. rewrite H in W. exact W.
    + intros Hfp. unfold fs_ramdisk_attach.
      rewrite (bind_step _ _ _ _ _ (open_full_creates s p trunc_mode L Hseg Hsl Hfp
                 ltac:(reflexivity) ltac:(vm_compute; discriminate) Hfull HL Ho Hbrk)).
      eexists. reflexivity.
Qed.

(** C4 counterexample: with every handle slot taken, [attach] of a path
    absent from the existing root fails with -1, whatever the block. *)
Lemma C4_attach_fails_on_full_table :
  ramdisk_find_path (state_of c4_run) (rootdir (state_of c4_run)) "g" false = 0%N /\
  dirs (state_of c4_run) !! rootdir (state_of c4_run) = Some [3%N] /\
  bufs (state_of c4_run) !! 5%N = Some bytes100 /\
  exists s', fs_ramdisk_attach "g" 5 100 (state_of c4_run) = Some (-1, s').
Proof.
  split; [vm_compute; reflexivity|]. split; [vm_compute; reflexivity|].
  split; [vm_compute; reflexivity|].
  exists (match fs_ramdisk_attach "g" 5 100 (state_of c4_run) with
          | Some (_, s') => s' | None => fresh_fs end).
  vm_compute. reflexivity.
Qed.

(** The round trip from [c4w_state] for the absent "g" and the closed "f",
    and attach of the absent "g" on the full table of [c4_run]. *)
Lemma C4_attach_detach_roundtrip_witness :
  attach_detach_ok c4w_state "g" 5 100 /\ attach_detach_ok c4w_state "f" 5 100 /\
  exists s', fs_ramdisk_attach "g" 5 100 (state_of c4_run) = Some (-1, s').
Proof.
  split; [|split].
  - destruct (C4_attach_detach_roundtrip c4w_state "g" 5 100 [3%N]) as [H _];
      [vm_compute; discriminate | vm_compute; reflexivity | vm_compute; reflexivity
      | vm_compute; reflexivity | vm_compute; discriminate |].
    destruct H as [HA _]; [vm_compute; reflexivity | vm_compute; reflexivity |].
    apply HA. intros g m [<-|[]] Hm. vm_compute in Hm. injection Hm as <-.
    vm_compute. reflexivity.
  - destruct (C4_attach_detach_roundtrip c4w_state "f" 5 100 [3%N]) as [H _];
      [vm_compute; discriminate | vm_compute; reflexivity | vm_compute; reflexivity
      | vm_compute; reflexivity | vm_compute; discriminate |].
    destruct H as [_ HB]; [vm_compute; reflexivity | vm_compute; reflexivity |].
    apply (HB 3%N (file_at c4w_state 3%N) (match bufs c4w_state !! 4%N with Some c => c | None => [] end));
      [vm_compute; discriminate | left; reflexivity | vm_compute; reflexivity
      | vm_compute; reflexivity | intros g m [<-|[]] _ _; reflexivity
      | vm_compute; reflexivity | vm_compute; reflexivity | vm_compute; reflexivity
      | vm_compute; discriminate | vm_compute; reflexivity | vm_compute; discriminate].
  - destruct (C4_attach_detach_roundtrip (state_of c4_run) "g" 5 100 [3%N]) as [_ H];
      [vm_compute; discriminate | vm_compute; reflexivity | vm_compute; reflexivity
      | vm_compute; reflexivity | vm_compute; discriminate |].
    apply H; [|vm_compute; reflexivity].
    apply slots_occupied_spec. vm_compute. reflexivity.
Defined.
